(** * Freshness-aware data access and ingestion: a shallow embedding

    The development follows the backend of the crypto monitoring system:
    [crypto_web_app.py] (read path, chart processing, cache clearing),
    [realtime_processor.py] and [data_processor.py] (ingestion passes) and
    [scheduler.py] (dispatch loop).

    Conventions of the embedding.
    - Python floats and SQL decimals are exact rationals ([Q]).
    - Every call that leaves the file under study (database, cache manager,
      scraper, timestamp manager) is answered by a collaborator record, and
      leaves an [event] in the trace of the computation.
    - A computation is a pair of an [outcome] (a returned value or a raised
      [Exception]) and the trace it produced, in chronological order.
    - Log messages are given in English; the source logs in Chinese. *)

From Stdlib Require Import List String ZArith QArith Bool Lia Permutation Sorted.
Import ListNotations.

Local Open Scope string_scope.
Local Open Scope list_scope.

(** ** Data model *)

(** Timestamps and dates are seconds since the epoch. *)
Definition datetime := Z.

(** A timestamp column holds a datetime object or, failing that, any other
    value, of which only its [str()] is used. *)
Inductive db_timestamp : Type :=
| TsDatetime (t : datetime)
| TsOther (repr : string).

(** The text put in a 'timestamp' field: [timestamp.strftime(...)] or
    [timestamp.isoformat()] when the value has that method, else
    [str(timestamp)]. *)
Inductive timestamp_text : Type :=
| Strftime (t : datetime)
| Isoformat (t : datetime)
| Str (repr : string).

(** One row of [db.get_latest_prices]:
    [(name, symbol, price, api_change_24h, timestamp)]; a [None] field is an
    SQL NULL. *)
Record PriceRow : Type := mkPriceRow {
  row_name : string;
  row_symbol : string;
  row_price : option Q;
  row_api_change_24h : option Q;
  row_timestamp : db_timestamp
}.

(** The dictionary built for each row by [get_latest_prices]. *)
Record PriceView : Type := mkPriceView {
  pv_name : string;
  pv_symbol : string;
  pv_price : Q;
  pv_change_24h : Q;
  pv_timestamp : timestamp_text
}.

(** One row of the [hour_data] table, as far as the 24h query reads it. *)
Record HourRow : Type := mkHourRow {
  hr_symbol : string;
  hr_date : datetime;
  hr_close_price : option Q
}.

(** An item of chart data: the dictionary returned by [get_chart_data] and
    consumed by [process_chart_data]; ['timestamp_ms'] is read there with
    [item.get], so it may be absent. *)
Record ChartPoint : Type := mkChartPoint {
  cp_symbol : string;
  cp_date : datetime;
  cp_timestamp_ms : option Z;
  cp_open : Q;
  cp_high : Q;
  cp_low : Q;
  cp_close : Q;
  cp_volume : Q
}.

(** An item returned by [db.get_chart_data]. *)
Record ChartRow : Type := mkChartRow {
  cr_date : datetime;
  cr_timestamp_ms : Z;
  cr_open : Q;
  cr_high : Q;
  cr_low : Q;
  cr_close : Q;
  cr_volume : Q
}.

(** A sample produced by the scraper. *)
Record Sample : Type := mkSample {
  s_name : string;
  s_symbol : string;
  s_price : Q;
  s_change_24h : Q;
  s_timestamp : datetime
}.

(** The dictionary cached for a realtime price. The realtime pass stamps it
    with ['cached_at'], [get_realtime_data] with ['created_at']. *)
Inductive stamp : Type :=
| CachedAt (t : timestamp_text)
| CreatedAt (t : timestamp_text).

Record CacheItem : Type := mkCacheItem {
  ci_name : string;
  ci_symbol : string;
  ci_price : Q;
  ci_change_24h : Q;
  ci_timestamp : timestamp_text;
  ci_stamp : stamp
}.

(** A row of [db.get_latest_prices()] as [get_realtime_data] reads it,
    [row[0]] to [row[5]]. *)
Record RealtimeRow : Type := mkRealtimeRow {
  rr_name : string;
  rr_symbol : string;
  rr_price : option Q;
  rr_change_24h : option Q;
  rr_timestamp : db_timestamp;
  rr_created_at : db_timestamp
}.

(** A row of a historical data frame. *)
Record HistRow : Type := mkHistRow {
  h_symbol : string;
  h_date : datetime;
  h_open : Q;
  h_high : Q;
  h_low : Q;
  h_close : Q;
  h_volume : Q;
  h_quote_volume : Q
}.

(** ** Effects *)

Inductive level : Type := INFO | WARNING | ERROR.

Inductive event : Type :=
| Log (l : level) (msg : string)
(* cache manager *)
| CacheGetLatestPrices
| CachePutLatestPrices (payload : list PriceView)
| CacheGetChart (symbol timeframe : string)
| CachePutChart (symbol timeframe : string) (payload : list ChartPoint)
| CacheClearPrices
| CacheClearCharts
| CacheClearAll
| CacheGetRealtimePrices
| CachePutRealtimePrices (payload : list CacheItem)
| CachePutRealtimePrice (symbol : string) (payload : CacheItem)
(* persistent store *)
| PoolGetConnection
| ConnClose
| DbConnect
| DbDisconnect
| DbLatestPrices
| DbQuery24h (symbol : string)
| DbChartData (symbol timeframe : string)
| DbInsertCurrentPrice (s : Sample)
| DbInsertHistorical (timeframe : string) (r : HistRow)
(* acquisition and quality gate *)
| ScrapeRealtime
| ScrapeAll
| QualityScore (t : datetime)
| LogDataStatus (t : datetime)
| Sleep (seconds : Z).

Inductive outcome (A : Type) : Type :=
| Returns (a : A)
| Raises (msg : string).
Arguments Returns {A} a.
Arguments Raises {A} msg.

(** A computation: what it yields and the events it produced. Collaborators
    raise subclasses of [Exception]; [KeyboardInterrupt] only matters for the
    dispatch loops and is modelled there. *)
Definition M (A : Type) : Type := (outcome A * list event)%type.

Definition ret {A} (a : A) : M A := (Returns a, []).
Definition raise {A} (msg : string) : M A := (Raises msg, []).
Definition emit (e : event) : M unit := (Returns tt, [e]).
Definition log (l : level) (msg : string) : M unit := emit (Log l msg).

Definition bind {A B} (m : M A) (f : A -> M B) : M B :=
  match m with
  | (Returns a, t) => let (r, t') := f a in (r, t ++ t')
  | (Raises e, t) => (Raises e, t)
  end.

(** A collaborator call: the event, then the collaborator's answer. *)
Definition call {A} (e : event) (answer : outcome A) : M A := (answer, [e]).

(** [try: m except Exception as e: h e]. *)
Definition try_except {A} (m : M A) (h : string -> M A) : M A :=
  match m with
  | (Returns a, t) => (Returns a, t)
  | (Raises e, t) => let (r, t') := h e in (r, t ++ t')
  end.

(** [try: m finally: fin]: [fin] always runs; what it raises replaces the
    outcome of [m]. *)
Definition try_finally {A} (m : M A) (fin : M unit) : M A :=
  let (r, t) := m in
  match fin with
  | (Returns _, t') => (r, t ++ t')
  | (Raises e, t') => (Raises e, t ++ t')
  end.

Declare Scope py_scope.
Delimit Scope py_scope with py.
Notation "x <- m ;; k" := (bind m (fun x => k))
  (at level 61, m at next level, right associativity) : py_scope.
Notation "m ;; k" := (bind m (fun _ => k))
  (at level 61, right associativity) : py_scope.
Local Open Scope py_scope.

Definition value {A} (m : M A) : outcome A := fst m.
Definition trace {A} (m : M A) : list event := snd m.

(** [for x in xs: body x], with no [break]. *)
Fixpoint for_each {A} (xs : list A) (body : A -> M unit) : M unit :=
  match xs with
  | [] => ret tt
  | x :: xs' => body x ;; for_each xs' body
  end.

(** A loop that appends to a result list: [r = []; for x in xs: r.append(f x)]. *)
Fixpoint for_collect {A B} (xs : list A) (body : A -> M B) : M (list B) :=
  match xs with
  | [] => ret []
  | x :: xs' => y <- body x ;; ys <- for_collect xs' body ;; ret (y :: ys)
  end.

(** Python truthiness of the values tested with [if x:] in the source. *)
Definition truthy_list {A} (l : list A) : bool :=
  match l with [] => false | _ :: _ => true end.

Definition truthy_opt_list {A} (o : option (list A)) : bool :=
  match o with Some l => truthy_list l | None => false end.


Definition is_cache_write (e : event) : bool :=
  match e with
  | CachePutLatestPrices _ | CachePutChart _ _ _ | CachePutRealtimePrices _
  | CachePutRealtimePrice _ _ => true
  | _ => false
  end.

(** ** Collaborators of the web application *)

(** A pooled connection, seen through the one query the read path sends on
    it: the rows of [hour_data], the clock of the server ([NOW()]), whether
    [cursor()]/[execute()]/[fetchone()] raise, and what [close()] does. *)
Record Connection : Type := mkConnection {
  conn_hour_data : list HourRow;
  conn_now : datetime;
  conn_cursor_error : option string;
  conn_close : outcome unit
}.

(** [CryptoDatabase], absent from the sources under study: each method is
    given by its answer. *)
Record Database : Type := mkDatabase {
  db_get_connection : outcome (option Connection);
  db_get_latest_prices : Connection -> outcome (option (list PriceRow));
  db_connect : outcome bool;
  db_disconnect : outcome unit;
  db_get_chart_data : string -> string -> outcome (option (list ChartRow));
  db_insert_current_price : Sample -> outcome bool;
  db_insert_historical_data : string -> HistRow -> outcome bool;
  db_get_latest_rows : outcome (option (list RealtimeRow))
}.

(** What a cache-clearing method of the manager returns: the source treats
    it once as a key count and once as a success flag. *)
Inductive pyvalue : Type :=
| PyNone
| PyBool (b : bool)
| PyInt (n : Z).

Definition truthy (v : pyvalue) : bool :=
  match v with
  | PyNone => false
  | PyBool b => b
  | PyInt n => negb (n =? 0)%Z
  end.

(** [CryptoCacheManager], absent from the sources under study. *)
Record CacheManager : Type := mkCacheManager {
  cm_get_latest_prices : outcome (option (list PriceView));
  cm_cache_latest_prices : list PriceView -> outcome unit;
  cm_get_chart_data : string -> string -> outcome (option (list ChartPoint));
  cm_cache_chart_data : string -> string -> list ChartPoint -> outcome unit;
  cm_clear_price_cache : outcome pyvalue;
  cm_clear_chart_cache : outcome pyvalue;
  cm_clear_all_cache : outcome pyvalue;
  cm_get_realtime_prices : outcome (option (list CacheItem));
  cm_cache_realtime_prices : list CacheItem -> outcome bool;
  cm_cache_realtime_price : string -> CacheItem -> outcome bool
}.

(** The fields of [CryptoWebApp] the read path uses; [redis_manager] is
    [None] when the constructor of the manager raised in [__init__]. *)
Record CryptoWebApp : Type := mkCryptoWebApp {
  db : Database;
  redis_manager : option CacheManager
}.

(** [__init__], lines 59-65: the manager is kept unless its constructor
    raises. *)
Definition init_redis_manager (ctor : outcome CacheManager) : M (option CacheManager) :=
  try_except
    (rm <- (ctor, []) ;;
     log INFO "cache manager initialised" ;;
     ret (Some rm))
    (fun e => log WARNING "cache manager initialisation failed" ;; ret None).

(** ** The 24h reference query

    [SELECT close_price FROM hour_data WHERE symbol = %s
     AND date <= DATE_SUB(NOW(), INTERVAL 24 HOUR) ORDER BY date DESC LIMIT 1] *)

Definition seconds_24h : Z := 86400.

Definition at_or_before_24h (symbol : string) (now : datetime) (r : HourRow) : bool :=
  (hr_symbol r =? symbol)%string && (hr_date r <=? now - seconds_24h)%Z.

(** [ORDER BY date DESC LIMIT 1]; among rows of equal date the first of the
    table is kept. *)
Fixpoint latest_row (rows : list HourRow) : option HourRow :=
  match rows with
  | [] => None
  | r :: rs =>
      match latest_row rs with
      | Some r' => if (hr_date r <? hr_date r')%Z then Some r' else Some r
      | None => Some r
      end
  end.

Definition select_reference (symbol : string) (c : Connection) : option HourRow :=
  latest_row (filter (at_or_before_24h symbol (conn_now c)) (conn_hour_data c)).

(** [cursor.execute(query, (symbol,)); cursor.fetchone()]. *)
Definition fetch_reference (symbol : string) (c : Connection) : outcome (option HourRow) :=
  match conn_cursor_error c with
  | Some e => Raises e
  | None => Returns (select_reference symbol c)
  end.

(** Truthiness of [result[0]]: a NULL and a zero decimal are both false. *)
Definition truthy_decimal (d : option Q) : bool :=
  match d with
  | Some q => negb (Qeq_bool q 0)
  | None => false
  end.

(** [float(x)]: raises [TypeError] on [None]. *)
Definition float (d : option Q) : M Q :=
  match d with
  | Some q => ret q
  | None => raise "TypeError: float() argument must be a string or a real number"
  end.

Local Open Scope Q_scope.

(** [CryptoWebApp.calculate_24h_change], lines 185-215. *)
Definition calculate_24h_change (symbol : string) (current_price : Q)
    (connection : Connection) : M (option Q) :=
  try_except
    (result <- call (DbQuery24h symbol) (fetch_reference symbol connection) ;;
     match result with
     | Some row =>
         if truthy_decimal (hr_close_price row) then
           price_24h_ago <- float (hr_close_price row) ;;
           let change_24h := ((current_price - price_24h_ago) / price_24h_ago) * 100 in
           log INFO "computed 24h change" ;;
           ret (Some change_24h)
         else
           log WARNING "no price 24h ago, using the API value" ;;
           ret None
     | None =>
         log WARNING "no price 24h ago, using the API value" ;;
         ret None
     end)
    (fun e => log ERROR "error while computing the 24h change" ;; ret None).

(** Line 257:
    [calculated_change if calculated_change is not None
     else (float(api_change_24h) if api_change_24h is not None else 0.0)]. *)
Definition choose_change_24h (calculated_change api_change_24h : option Q) : M Q :=
  match calculated_change with
  | Some c => ret c
  | None =>
      match api_change_24h with
      | Some a => float (Some a)
      | None => ret 0
      end
  end.

Definition format_timestamp (t : db_timestamp) : timestamp_text :=
  match t with
  | TsDatetime d => Strftime d
  | TsOther s => Str s
  end.

(** Body of the loop of [get_latest_prices], lines 249-265. *)
Definition price_view_of_row (connection : Connection) (item : PriceRow) : M PriceView :=
  current_price <- float (row_price item) ;;
  calculated_change <- calculate_24h_change (row_symbol item) current_price connection ;;
  change_24h <- choose_change_24h calculated_change (row_api_change_24h item) ;;
  ret {| pv_name := row_name item;
         pv_symbol := row_symbol item;
         pv_price := current_price;
         pv_change_24h := change_24h;
         pv_timestamp := format_timestamp (row_timestamp item) |}.

(** Lines 219-229: the cache is asked first; [Some payload] is the early
    [return cached_prices]. *)
Definition latest_prices_from_cache (self : CryptoWebApp) : M (option (list PriceView)) :=
  match redis_manager self with
  | Some rm =>
      try_except
        (cached_prices <- call CacheGetLatestPrices (cm_get_latest_prices rm) ;;
         match cached_prices with
         | Some (p :: ps) =>
             log INFO "latest prices served from the cache" ;;
             ret (Some (p :: ps))
         | _ =>
             log INFO "no latest prices in the cache, reading the database" ;;
             ret None
         end)
        (fun e => log WARNING "reading latest prices from the cache failed" ;; ret None)
  | None => ret None
  end.

(** The value of the local variable [connection] when the [finally] clause
    of [get_latest_prices] runs: it is still [None] when [get_connection]
    raised. *)
Definition connection_at_finally (self : CryptoWebApp) : option Connection :=
  match db_get_connection (db self) with
  | Returns c => c
  | Raises _ => None
  end.

(** Lines 231-285: the database path with its [except] and [finally]. *)
Definition latest_prices_from_db (self : CryptoWebApp) : M (list PriceView) :=
  try_finally
    (try_except
       (connection <- call PoolGetConnection (db_get_connection (db self)) ;;
        match connection with
        | None => log ERROR "database connection failed" ;; ret []
        | Some conn =>
            data <- call DbLatestPrices (db_get_latest_prices (db self) conn) ;;
            if negb (truthy_opt_list data) then
              log WARNING "no price data in the database" ;; ret []
            else
              result <- for_collect (match data with Some l => l | None => [] end)
                          (price_view_of_row conn) ;;
              match redis_manager self with
              | Some rm =>
                  if truthy_list result then
                    try_except
                      (call (CachePutLatestPrices result) (cm_cache_latest_prices rm result) ;;
                       log INFO "latest prices cached")
                      (fun e => log WARNING "caching latest prices failed")
                  else ret tt
              | None => ret tt
              end ;;
              ret result
        end)
       (fun e => log ERROR "error while reading latest prices" ;; ret []))
    (match connection_at_finally self with
     | Some conn => try_except (call ConnClose (conn_close conn)) (fun _ => ret tt)
     | None => ret tt
     end).

(** [CryptoWebApp.get_latest_prices], lines 217-285. *)
Definition get_latest_prices (self : CryptoWebApp) : M (list PriceView) :=
  cached <- latest_prices_from_cache self ;;
  match cached with
  | Some cached_prices => ret cached_prices
  | None => latest_prices_from_db self
  end.

(** ** Chart data: [CryptoWebApp.get_chart_data], lines 289-346 *)

(** Truthiness of the [symbol] argument: [None] and the empty string are
    false. *)
Definition truthy_symbol (symbol : option string) : option string :=
  match symbol with
  | Some EmptyString => None
  | other => other
  end.

Definition chart_point_of_row (symbol : string) (item : ChartRow) : ChartPoint :=
  {| cp_symbol := symbol;
     cp_date := cr_date item;
     cp_timestamp_ms := Some (cr_timestamp_ms item);
     cp_open := cr_open item;
     cp_high := cr_high item;
     cp_low := cr_low item;
     cp_close := cr_close item;
     cp_volume := cr_volume item |}.

(** Lines 291-301; [Some payload] is the early [return cached_data]. *)
Definition chart_data_from_cache (self : CryptoWebApp) (timeframe : string)
    (symbol : option string) : M (option (list ChartPoint)) :=
  match redis_manager self, truthy_symbol symbol with
  | Some rm, Some sym =>
      try_except
        (cached_data <- call (CacheGetChart sym timeframe) (cm_get_chart_data rm sym timeframe) ;;
         match cached_data with
         | Some (p :: ps) =>
             log INFO "chart data served from the cache" ;;
             ret (Some (p :: ps))
         | _ =>
             log INFO "no chart data in the cache, reading the database" ;;
             ret None
         end)
        (fun e => log WARNING "reading chart data from the cache failed" ;; ret None)
  | _, _ => ret None
  end.

(** Lines 303-346. [disconnect] is called right after the query, inside the
    [try]; there is no [finally]. *)
Definition chart_data_from_db (self : CryptoWebApp) (timeframe : string)
    (symbol : option string) : M (list ChartPoint) :=
  try_except
    (match truthy_symbol symbol with
     | None => log WARNING "no symbol given, cannot read chart data" ;; ret []
     | Some sym =>
         connected <- call DbConnect (db_connect (db self)) ;;
         if connected : bool then
           data <- call (DbChartData sym timeframe) (db_get_chart_data (db self) sym timeframe) ;;
           call DbDisconnect (db_disconnect (db self)) ;;
           if negb (truthy_opt_list data) then
             log WARNING "no chart data in the database" ;; ret []
           else
             let result := map (chart_point_of_row sym)
                               (match data with Some l => l | None => [] end) in
             match redis_manager self with
             | Some rm =>
                 if truthy_list result then
                   try_except
                     (call (CachePutChart sym timeframe result)
                           (cm_cache_chart_data rm sym timeframe result) ;;
                      log INFO "chart data cached")
                     (fun e => log WARNING "caching chart data failed")
                 else ret tt
             | None => ret tt
             end ;;
             ret result
         else
           log ERROR "database connection failed" ;; ret []
     end)
    (fun e => log ERROR "error while reading chart data" ;; ret []).

(** [limit] is accepted and never used by the source. *)
Definition get_chart_data (self : CryptoWebApp) (timeframe : string)
    (symbol : option string) (limit : Z) : M (list ChartPoint) :=
  cached <- chart_data_from_cache self timeframe symbol ;;
  match cached with
  | Some cached_data => ret cached_data
  | None => chart_data_from_db self timeframe symbol
  end.

(** ** Cache clearing: the two definitions of [clear_cache] *)

(** The dictionary returned by [clear_cache]; ['cleared_keys'] is present
    only in the dictionaries built by the first definition. *)
Record ClearResult : Type := mkClearResult {
  success : bool;
  cleared_keys : option pyvalue;
  message : string
}.

(** [cache_type == s], where [cache_type] may be [None]. *)
Definition equals (cache_type : option string) (s : string) : bool :=
  match cache_type with
  | Some t => (t =? s)%string
  | None => false
  end.

(** [cache_type is None]. *)
Definition is_none {A} (o : option A) : bool :=
  match o with
  | Some _ => false
  | None => true
  end.

(** [str(cache_type)] inside an f-string. *)
Definition str_of (cache_type : option string) : string :=
  match cache_type with
  | Some t => t
  | None => "None"
  end.

(** Lines 369-398, the first [def clear_cache]. *)
Definition clear_cache_first (self : CryptoWebApp) (cache_type : option string)
    : M ClearResult :=
  match redis_manager self with
  | None =>
      ret {| success := false; cleared_keys := None; message := "cache not enabled" |}
  | Some rm =>
      try_except
        (result <-
           (if equals cache_type "prices" then
              call CacheClearPrices (cm_clear_price_cache rm)
            else if equals cache_type "charts" then
              call CacheClearCharts (cm_clear_chart_cache rm)
            else
              call CacheClearAll (cm_clear_all_cache rm)) ;;
         ret {| success := true; cleared_keys := Some result;
                message := "cleared the " ++
                           match truthy_symbol cache_type with
                           | Some t => t
                           | None => "whole"
                           end ++ " cache" |})
        (fun e =>
           log ERROR "clearing the cache failed" ;;
           ret {| success := false; cleared_keys := None; message := e |})
  end.

(** Lines 688-720, the second [def clear_cache] of the same class. *)
Definition clear_cache_second (self : CryptoWebApp) (cache_type : option string)
    : M ClearResult :=
  try_except
    (match redis_manager self with
     | None =>
         ret {| success := false; cleared_keys := None;
                message := "cache manager not initialised" |}
     | Some rm =>
         if equals cache_type "all" || is_none cache_type then
           ok <- call CacheClearAll (cm_clear_all_cache rm) ;;
           if truthy ok then
             ret {| success := true; cleared_keys := None;
                    message := "the whole cache was cleared" |}
           else
             ret {| success := false; cleared_keys := None;
                    message := "clearing the cache failed" |}
         else
           ret {| success := false; cleared_keys := None;
                  message := "unsupported cache type: " ++ str_of cache_type |}
     end)
    (fun e =>
       log ERROR "clearing the cache failed" ;;
       ret {| success := false; cleared_keys := None; message := e |}).

(** The class body runs from top to bottom and each [def] binds its name in
    the class namespace, so a later [def] of the same name replaces the
    earlier one. *)
Definition method : Type := CryptoWebApp -> option string -> M ClearResult.

Definition class_body : list (string * method) :=
  [ ("clear_cache", clear_cache_first);   (* line 369 *)
    ("clear_cache", clear_cache_second)   (* line 688 *) ].

Fixpoint bind_defs (defs : list (string * method)) (name : string)
    (bound : option method) : option method :=
  match defs with
  | [] => bound
  | (n, f) :: rest =>
      bind_defs rest name (if (n =? name)%string then Some f else bound)
  end.

(** [self.clear_cache(cache_type)] as the serving layer calls it. *)
Definition clear_cache (self : CryptoWebApp) (cache_type : option string) : M ClearResult :=
  match bind_defs class_body "clear_cache" None with
  | Some f => f self cache_type
  | None => raise "AttributeError: clear_cache"
  end.

(** ** Chart curves: [CryptoWebApp.process_chart_data], lines 114-183 *)

Record PricePoint : Type := mkPricePoint {
  pp_date : datetime;
  pp_timestamp_ms : option Z;
  pp_price : Q;
  pp_high : Q;
  pp_low : Q;
  pp_open : Q
}.

Record VolumePoint : Type := mkVolumePoint {
  vp_date : datetime;
  vp_timestamp_ms : option Z;
  vp_volume : Q
}.

Record VolatilityPoint : Type := mkVolatilityPoint {
  vol_date : datetime;
  vol_timestamp_ms : option Z;
  vol_volatility : Q;
  vol_volatility_percent : Q
}.

Record ChartCurves : Type := mkChartCurves {
  price_data : list PricePoint;
  volume_data : list VolumePoint;
  volatility_data : list VolatilityPoint
}.

Definition empty_curves : ChartCurves :=
  {| price_data := []; volume_data := []; volatility_data := [] |}.

(** [list.sort(key=...)] and [sorted(...)]: a stable sort by key. *)
Fixpoint insert_by {A} (key : A -> Z) (x : A) (l : list A) : list A :=
  match l with
  | [] => [x]
  | y :: l' =>
      if (key x <=? key y)%Z then x :: y :: l'
      else y :: insert_by key x l'
  end.

Fixpoint sort_by {A} (key : A -> Z) (l : list A) : list A :=
  match l with
  | [] => []
  | x :: l' => insert_by key x (sort_by key l')
  end.

(** [sum(xs)]: from 0, left to right. *)
Definition sum (xs : list Q) : Q := fold_left Qplus xs 0.

(** [len(xs)] as a number. *)
Definition len {A} (xs : list A) : Q := inject_Z (Z.of_nat (List.length xs)).

Definition price_point (item : ChartPoint) : PricePoint :=
  {| pp_date := cp_date item;
     pp_timestamp_ms := cp_timestamp_ms item;
     pp_price := cp_close item;
     pp_high := cp_high item;
     pp_low := cp_low item;
     pp_open := cp_open item |}.

Definition volume_point (item : ChartPoint) : VolumePoint :=
  {| vp_date := cp_date item;
     vp_timestamp_ms := cp_timestamp_ms item;
     vp_volume := cp_volume item |}.

Section ChartCurves.

(** The float operation [x ** 0.5]. *)
Variable pow_half : Q -> Q.

(** Lines 165-177: the volatility entry of item [i]. The indices
    [range(i - window_size + 1, i + 1)] are read with [nth]; they are
    within the list whenever the guard [i >= window_size - 1] holds. *)
Definition volatility_point (filtered_data : list ChartPoint) (window_size i : nat)
    (item : ChartPoint) : VolatilityPoint :=
  let window_prices :=
    map (fun j => cp_close (nth j filtered_data item))
        (seq (i + 1 - window_size) window_size) in
  let mean_price := sum window_prices / len window_prices in
  let variance :=
    sum (map (fun price => (price - mean_price) ^ 2) window_prices)
    / len window_prices in
  let volatility := pow_half variance in
  {| vol_date := cp_date item;
     vol_timestamp_ms := cp_timestamp_ms item;
     vol_volatility := volatility;
     vol_volatility_percent :=
       if Qlt_le_dec 0 mean_price then (volatility / mean_price) * 100 else 0 |}.

(** One turn of the loop of lines 144-177 on the three lists. *)
Definition chart_step (filtered_data : list ChartPoint) (window_size : nat)
    (acc : ChartCurves) (entry : nat * ChartPoint) : ChartCurves :=
  let (i, item) := entry in
  {| price_data := price_data acc ++ [price_point item];
     volume_data := volume_data acc ++ [volume_point item];
     volatility_data :=
       if (window_size - 1 <=? i)%nat
       then volatility_data acc ++ [volatility_point filtered_data window_size i item]
       else volatility_data acc |}.

Definition enumerate {A} (l : list A) : list (nat * A) :=
  combine (seq 0 (List.length l)) l.

Definition process_chart_data (data : list ChartPoint) (symbol : string) : ChartCurves :=
  match data with
  | [] => empty_curves
  | _ :: _ =>
      match filter (fun item => (cp_symbol item =? symbol)%string) data with
      | [] => empty_curves
      | (_ :: _) as matching =>
          let filtered_data := sort_by cp_date matching in
          let window_size := Nat.min 10 (List.length filtered_data) in
          fold_left (chart_step filtered_data window_size)
                    (enumerate filtered_data) empty_curves
      end
  end.

End ChartCurves.

(** ** Ingestion: [realtime_processor.py] and [data_processor.py] *)

(** [timestamp_manager], absent from the sources under study. *)
Record TimestampManager : Type := mkTimestampManager {
  tm_get_data_quality_score : datetime -> string -> outcome Q;
  tm_log_data_status : datetime -> string -> outcome unit;
  tm_get_current_time : datetime
}.

(** [RealtimeDataProcessor] with the scraper function it calls. *)
Record RealtimeDataProcessor : Type := mkRealtimeDataProcessor {
  rp_db : Database;
  rp_cache_manager : CacheManager;
  rp_timestamp_manager : TimestampManager;
  scrape_realtime_crypto_data : outcome (option (list Sample))
}.

(** Lines 70-77 and 88-95: the dictionary cached for a sample. *)
Definition cache_item (self : RealtimeDataProcessor) (data : Sample) : CacheItem :=
  {| ci_name := s_name data;
     ci_symbol := s_symbol data;
     ci_price := s_price data;
     ci_change_24h := s_change_24h data;
     ci_timestamp := Isoformat (s_timestamp data);
     ci_stamp := CachedAt (Isoformat (tm_get_current_time (rp_timestamp_manager self))) |}.

(** Lines 43-62: the quality gate and the insert, for one sample. *)
Definition store_sample (self : RealtimeDataProcessor) (data : Sample) : M unit :=
  quality_score <- call (QualityScore (s_timestamp data))
                     (tm_get_data_quality_score (rp_timestamp_manager self)
                        (s_timestamp data) "minute") ;;
  call (LogDataStatus (s_timestamp data))
       (tm_log_data_status (rp_timestamp_manager self) (s_timestamp data) "minute") ;;
  if Qle_bool 0.5 quality_score then
    ok <- call (DbInsertCurrentPrice data) (db_insert_current_price (rp_db self) data) ;;
    if ok : bool then log INFO ("realtime sample stored: " ++ s_symbol data)
    else log ERROR ("storing the realtime sample failed: " ++ s_symbol data)
  else
    log WARNING ("quality too low, sample skipped: " ++ s_symbol data).

(** Lines 86-100: the per-symbol cache write. *)
Definition cache_sample (self : RealtimeDataProcessor) (data : Sample) : M unit :=
  ok <- call (CachePutRealtimePrice (s_symbol data) (cache_item self data))
          (cm_cache_realtime_price (rp_cache_manager self) (s_symbol data)
             (cache_item self data)) ;;
  if ok : bool then log INFO ("realtime sample cached: " ++ s_symbol data)
  else log WARNING ("caching the realtime sample failed: " ++ s_symbol data).

(** Lines 41-103: the fetched samples are stored, then cached. *)
Definition store_and_cache (self : RealtimeDataProcessor) (realtime_data : list Sample)
    : M bool :=
  for_each realtime_data (store_sample self) ;;
  let cache_ready_data := map (cache_item self) realtime_data in
  ok <- call (CachePutRealtimePrices cache_ready_data)
          (cm_cache_realtime_prices (rp_cache_manager self) cache_ready_data) ;;
  (if ok : bool then log INFO "realtime price list cached"
   else log WARNING "caching the realtime price list failed") ;;
  for_each realtime_data (cache_sample self) ;;
  log INFO "realtime processing done" ;;
  ret true.

(** [RealtimeDataProcessor.process_and_store_realtime_data], lines 23-109.
    [connect] is called before the [try]. *)
Definition process_and_store_realtime_data (self : RealtimeDataProcessor) : M bool :=
  connected <- call DbConnect (db_connect (rp_db self)) ;;
  if negb connected then
    log ERROR "database connection failed" ;; ret false
  else
    try_finally
      (try_except
         (fetched <- call ScrapeRealtime (scrape_realtime_crypto_data self) ;;
          match fetched with
          | Some ((_ :: _) as realtime_data) => store_and_cache self realtime_data
          | _ => log WARNING "no realtime data fetched" ;; ret false
          end)
         (fun e => log ERROR "error during realtime processing" ;; ret false))
      (call DbDisconnect (db_disconnect (rp_db self))).






(** [DataProcessor] with the scraper function it calls; the historical data
    is a dictionary from timeframe to data frame. *)
Record DataProcessor : Type := mkDataProcessor {
  dp_db : Database;
  scrape_all_crypto_data :
    outcome (option (list Sample) * list (string * list HistRow))
}.

(** Lines 33-43. *)
Definition store_current (self : DataProcessor) (data : Sample) : M unit :=
  ok <- call (DbInsertCurrentPrice data) (db_insert_current_price (dp_db self) data) ;;
  if ok : bool then log INFO ("current price stored: " ++ s_name data)
  else log ERROR ("storing the current price failed: " ++ s_name data).

(** Lines 50-64. *)
Definition store_historical (self : DataProcessor) (timeframe : string) (row : HistRow)
    : M unit :=
  ok <- call (DbInsertHistorical timeframe row)
          (db_insert_historical_data (dp_db self) timeframe row) ;;
  if ok : bool then ret tt
  else log ERROR ("storing the historical row failed: " ++ h_symbol row).

(** Lines 46-66: one timeframe of the historical data. *)
Definition store_timeframe (self : DataProcessor) (entry : string * list HistRow) : M unit :=
  let (timeframe, df) := entry in
  match df with
  | [] => ret tt
  | _ :: _ =>
      for_each df (store_historical self timeframe) ;;
      log INFO ("historical data stored: " ++ timeframe)
  end.

(** Lines 30-69: the fetched data is stored. *)
Definition store_all (self : DataProcessor) (current_data : option (list Sample))
    (historical_data : list (string * list HistRow)) : M bool :=
  match current_data with
  | Some ((_ :: _) as samples) => for_each samples (store_current self)
  | _ => ret tt
  end ;;
  for_each historical_data (store_timeframe self) ;;
  log INFO "data processing done" ;;
  ret true.

(** [DataProcessor.process_and_store_data], lines 16-76. *)
Definition process_and_store_data (self : DataProcessor) : M bool :=
  connected <- call DbConnect (db_connect (dp_db self)) ;;
  if negb connected then
    log ERROR "database connection failed" ;; ret false
  else
    try_finally
      (try_except
         (scraped <- call ScrapeAll (scrape_all_crypto_data self) ;;
          let (current_data, historical_data) := scraped in
          store_all self current_data historical_data)
         (fun e => log ERROR "error during data processing" ;; ret false))
      (call DbDisconnect (db_disconnect (dp_db self))).

(** ** Dispatch: [run_realtime_processor] and [scheduler.py]

    Loops that need not end take fuel: a run either finishes with a value or
    is still running when the fuel is spent; in both cases the events
    produced so far are kept. *)

Inductive running (A : Type) : Type :=
| Finished (a : A) (t : list event)
| StillRunning (t : list event).
Arguments Finished {A} a t.
Arguments StillRunning {A} t.

Definition events_of {A} (r : running A) : list event :=
  match r with
  | Finished _ t => t
  | StillRunning t => t
  end.

(** The events [t] happened before the run [r]. *)
Definition after {A} (t : list event) (r : running A) : running A :=
  match r with
  | Finished a t' => Finished a (t ++ t')
  | StillRunning t' => StillRunning (t ++ t')
  end.

(** The surroundings of [run_realtime_processor]: the collaborators as they
    answer in round [k], and whether a [KeyboardInterrupt] arrives in round
    [k]; it is taken to arrive at the end of the round. *)
Record RealtimeWorld : Type := mkRealtimeWorld {
  rw_processor : nat -> RealtimeDataProcessor;
  rw_interrupt : nat -> bool
}.

(** Lines 179-200 of [realtime_processor.py]: one round of the loop. *)
Definition realtime_round (processor : RealtimeDataProcessor) : M unit :=
  try_except
    (ok <- process_and_store_realtime_data processor ;;
     (if ok : bool then log INFO "realtime processing succeeded"
      else log ERROR "realtime processing failed") ;;
     emit (Sleep 30))
    (fun e => log ERROR "unexpected error in the realtime processor" ;; emit (Sleep 10)).

(** [run_realtime_processor], lines 174-200: [while True], left only by the
    [break] of the [KeyboardInterrupt] clause; the function then returns
    [None]. *)
Fixpoint run_realtime_processor (fuel : nat) (w : RealtimeWorld) (round : nat)
    : running (outcome unit) :=
  match fuel with
  | O => StillRunning []
  | S fuel' =>
      match realtime_round (rw_processor w round) with
      | (Raises e, t) => Finished (Raises e) t
      | (Returns _, t) =>
          if rw_interrupt w round then
            Finished (Returns tt) (t ++ [Log INFO "interrupted, realtime processor stops"])
          else after t (run_realtime_processor fuel' w (S round))
      end
  end.

(** What the jobs of the scheduler call: [run_data_processing] and
    [run_analysis] are taken by their answer, [run_realtime_processor] is
    the loop above. *)
Record World : Type := mkWorld {
  w_run_data_processing : M bool;
  w_run_analysis : M bool;
  w_realtime : RealtimeWorld
}.

(** The part of a job wrapper after its handler has answered:
    [try: if handler(): log.info(..) else: log.error(..)
     except Exception as e: log.error(..)]. *)
Definition report (name : string) (handler : M bool) : M unit :=
  try_except
    (ok <- handler ;;
     if ok : bool then log INFO (name ++ " done")
     else log ERROR (name ++ " failed"))
    (fun e => log ERROR (name ++ " raised an exception")).

(** [CryptoScheduler.run_realtime_task], lines 48-57. The value [None]
    returned by [run_realtime_processor] is false in the [if]. *)
Definition run_realtime_task (fuel : nat) (w : World) : running (outcome unit) :=
  after [Log INFO "running the realtime task"]
    (match run_realtime_processor fuel (w_realtime w) 0 with
     | StillRunning t => StillRunning t
     | Finished r t =>
         let (r', t') := report "realtime task" ((r, t) ;; ret false) in
         Finished r' t'
     end).

(** [CryptoScheduler.run_data_collection_task], lines 59-68. *)
Definition run_data_collection_task (w : World) : M unit :=
  log INFO "running the data collection task" ;;
  report "data collection task" (w_run_data_processing w).

(** [CryptoScheduler.run_analysis_task], lines 70-79. *)
Definition run_analysis_task (w : World) : M unit :=
  log INFO "running the analysis task" ;;
  report "analysis task" (w_run_analysis w).

(** [CryptoScheduler.run_full_processing], lines 81-98. *)
Definition run_full_processing (w : World) : M unit :=
  log INFO "running the full processing" ;;
  try_except
    (ok <- w_run_data_processing w ;;
     (if ok : bool then log INFO "full data processing done"
      else log ERROR "full data processing failed") ;;
     ok' <- w_run_analysis w ;;
     if ok' : bool then log INFO "full analysis done"
     else log ERROR "full analysis failed")
    (fun e => log ERROR "full processing raised an exception").

(** *** The [schedule] package

    Third-party code, modelled from its documented behaviour: a job has a
    period and a next due time; [run_pending] runs the jobs that are due,
    earliest first, and each job that has run is due again one period after
    the time of the run. Handlers are taken to use no time, so the clock
    moves by the sleeps of the loop only. [scheduler.py] uses the name
    [schedule] without importing it ([crypto_web_app.py] does import it);
    the model takes the name as bound. *)

Inductive task : Type := DataCollection | Realtime | Analysis | FullProcessing.

Definition task_eqb (a b : task) : bool :=
  match a, b with
  | DataCollection, DataCollection | Realtime, Realtime
  | Analysis, Analysis | FullProcessing, FullProcessing => true
  | _, _ => false
  end.

Record Job : Type := mkJob {
  job_task : task;
  job_period : Z;
  job_next_run : Z
}.

(** [CryptoScheduler.setup_schedule], lines 26-46, at time [now];
    [first_daily] is the next 02:00 after [now]. *)
Definition setup_schedule (now first_daily : Z) : list Job :=
  [ {| job_task := DataCollection; job_period := 300; job_next_run := now + 300 |};
    {| job_task := Realtime; job_period := 30; job_next_run := now + 30 |};
    {| job_task := Analysis; job_period := 3600; job_next_run := now + 3600 |};
    {| job_task := FullProcessing; job_period := 86400; job_next_run := first_daily |} ].

Definition run_task (fuel : nat) (w : World) (t : task) : running (outcome unit) :=
  match t with
  | DataCollection => let (r, tr) := run_data_collection_task w in Finished r tr
  | Realtime => run_realtime_task fuel w
  | Analysis => let (r, tr) := run_analysis_task w in Finished r tr
  | FullProcessing => let (r, tr) := run_full_processing w in Finished r tr
  end.

Definition is_due (now : Z) (j : Job) : bool := (job_next_run j <=? now)%Z.

Definition reschedule (now : Z) (t : task) (jobs : list Job) : list Job :=
  map (fun j =>
         if task_eqb (job_task j) t
         then {| job_task := job_task j; job_period := job_period j;
                 job_next_run := now + job_period j |}
         else j) jobs.

(** The jobs [due] are run in turn; a job is rescheduled after its handler
    has returned. The result is the registry and what, if anything, was
    raised. *)
Fixpoint run_jobs (fuel : nat) (w : World) (now : Z) (due : list Job) (jobs : list Job)
    : running (list Job * outcome unit) :=
  match due with
  | [] => Finished (jobs, Returns tt) []
  | j :: rest =>
      match run_task fuel w (job_task j) with
      | StillRunning t => StillRunning t
      | Finished (Raises e) t => Finished (jobs, Raises e) t
      | Finished (Returns _) t =>
          after t (run_jobs fuel w now rest (reschedule now (job_task j) jobs))
      end
  end.

(** [schedule.run_pending()]. *)
Definition run_pending (fuel : nat) (w : World) (now : Z) (jobs : list Job)
    : running (list Job * outcome unit) :=
  run_jobs fuel w now
    (sort_by job_next_run (filter (is_due now) jobs)) jobs.

(** The surroundings of the dispatch loop, by tick: what the handlers meet,
    whether [stop()] has been called before the loop test, and whether a
    [KeyboardInterrupt] arrives during the sleep of the tick. *)
Record SchedulerWorld : Type := mkSchedulerWorld {
  world_at : nat -> World;
  stopped_at : nat -> bool;
  interrupt_at : nat -> bool
}.

(** The loop of [CryptoScheduler.run], lines 114-124. *)
Fixpoint dispatch_loop (fuel : nat) (env : SchedulerWorld) (tick : nat) (now : Z)
    (jobs : list Job) : running unit :=
  match fuel with
  | O => StillRunning []
  | S fuel' =>
      if stopped_at env tick then Finished tt []
      else
        match run_pending fuel' (world_at env tick) now jobs with
        | StillRunning t => StillRunning t
        | Finished (jobs', Returns _) t =>
            if interrupt_at env tick then
              Finished tt (t ++ [Sleep 10; Log INFO "interrupted, scheduler stops"])
            else
              after (t ++ [Sleep 10])
                (dispatch_loop fuel' env (S tick) (now + 10) jobs')
        | Finished (jobs', Raises e) t =>
            after (t ++ [Log ERROR "scheduler error"; Sleep 60])
              (dispatch_loop fuel' env (S tick) (now + 60) jobs')
        end
  end.

(** [CryptoScheduler.run], lines 100-126, started at time [now]. *)
Definition run (fuel : nat) (env : SchedulerWorld) (now first_daily : Z)
    : running (outcome unit) :=
  let jobs := setup_schedule now first_daily in
  let (r, t) := run_data_collection_task (world_at env 0) in
  match r with
  | Raises e => Finished (Raises e) t
  | Returns _ =>
      match dispatch_loop fuel env 0 now jobs with
      | Finished _ t' => Finished (Returns tt) (t ++ t' ++ [Log INFO "scheduler stopped"])
      | StillRunning t' => StillRunning (t ++ t')
      end
  end.

(** ** Vocabulary of the statements *)

(** No row of [hour_data] for [symbol] lies at or before [now - 24h]. *)
Definition no_reference (symbol : string) (c : Connection) : Prop :=
  forall r, In r (conn_hour_data c) -> hr_symbol r = symbol ->
            (hr_date r <= conn_now c - seconds_24h)%Z -> False.

(** [r] is a most recent row of [hour_data] for [symbol] at or before
    [now - 24h]. *)
Definition is_reference (symbol : string) (c : Connection) (r : HourRow) : Prop :=
  In r (conn_hour_data c) /\ hr_symbol r = symbol /\
  (hr_date r <= conn_now c - seconds_24h)%Z /\
  forall r', In r' (conn_hour_data c) -> hr_symbol r' = symbol ->
             (hr_date r' <= conn_now c - seconds_24h)%Z ->
             (hr_date r' <= hr_date r)%Z.

(** The fallback of the read path: the API-reported change, 0 when it is
    null. *)
Definition fallback_value (api_change_24h : option Q) : Q :=
  match api_change_24h with
  | Some a => a
  | None => 0
  end.

(** A small store used to run the read path: BTC closed at 50000 more than
    24 hours ago, ETH has a single, too recent, row. *)
Definition demo_connection : Connection :=
  {| conn_hour_data :=
       [ {| hr_symbol := "BTC"; hr_date := 1000%Z; hr_close_price := Some 40000 |};
         {| hr_symbol := "BTC"; hr_date := 5000%Z; hr_close_price := Some 50000 |};
         {| hr_symbol := "ETH"; hr_date := 99000%Z; hr_close_price := Some 3000 |} ];
     conn_now := 100000%Z;
     conn_cursor_error := None;
     conn_close := Returns tt |}.

Definition demo_rows : list PriceRow :=
  [ {| row_name := "Bitcoin"; row_symbol := "BTC"; row_price := Some 55000;
       row_api_change_24h := Some 1; row_timestamp := TsDatetime 99990%Z |};
    {| row_name := "Ethereum"; row_symbol := "ETH"; row_price := Some 3100;
       row_api_change_24h := None; row_timestamp := TsOther "2025-01-01" |} ].

Definition demo_db : Database :=
  {| db_get_connection := Returns (Some demo_connection);
     db_get_latest_prices := fun _ => Returns (Some demo_rows);
     db_connect := Returns true;
     db_disconnect := Returns tt;
     db_get_chart_data := fun _ _ => Returns None;
     db_insert_current_price := fun _ => Returns true;
     db_insert_historical_data := fun _ _ => Returns true;
     db_get_latest_rows := Returns None |}.

(** What the database path of [get_latest_prices] yields, read off the
    answers of the store alone: the views of the rows when a connection is
    obtained, the rows are read and every row converts; nothing otherwise. *)
Definition store_prices (d : Database) : list PriceView :=
  match db_get_connection d with
  | Returns (Some conn) =>
      match db_get_latest_prices d conn with
      | Returns (Some rows) =>
          match value (for_collect rows (price_view_of_row conn)) with
          | Returns l => l
          | Raises _ => []
          end
      | _ => []
      end
  | _ => []
  end.

(** The cache answers the read of latest prices with a payload. *)
Definition latest_prices_hit (self : CryptoWebApp) (payload : list PriceView) : Prop :=
  exists rm, redis_manager self = Some rm /\
             cm_get_latest_prices rm = Returns (Some payload) /\ payload <> [].


(** The cache cannot be reached when latest prices are read: there is no
    manager, or its read raises. *)
Definition cache_unreachable (self : CryptoWebApp) : Prop :=
  redis_manager self = None \/
  exists rm e, redis_manager self = Some rm /\ cm_get_latest_prices rm = Raises e.

(** The store cannot be reached: the pool raises or hands out no
    connection. *)
Definition store_unavailable (d : Database) : Prop :=
  (exists e, db_get_connection d = Raises e) \/ db_get_connection d = Returns None.


Definition demo_app : CryptoWebApp := {| db := demo_db; redis_manager := None |}.

Definition demo_views : list PriceView :=
  Eval vm_compute in store_prices demo_db.

(** What the database path of [get_chart_data] yields for a symbol, read
    off the answers of the store alone. *)
Definition store_chart (d : Database) (symbol timeframe : string) : list ChartPoint :=
  match db_connect d with
  | Returns true =>
      match db_get_chart_data d symbol timeframe, db_disconnect d with
      | Returns (Some rows), Returns _ => map (chart_point_of_row symbol) rows
      | _, _ => []
      end
  | _ => []
  end.

Definition chart_hit (self : CryptoWebApp) (symbol timeframe : string)
    (payload : list ChartPoint) : Prop :=
  exists rm, redis_manager self = Some rm /\
             cm_get_chart_data rm symbol timeframe = Returns (Some payload) /\
             payload <> [].




(** The cache writes of a trace are exactly [writes]. *)
Definition cache_writes (t : list event) : list event := filter is_cache_write t.


(** A cache manager that holds nothing and accepts every write. *)
Definition empty_cache : CacheManager :=
  {| cm_get_latest_prices := Returns None;
     cm_cache_latest_prices := fun _ => Returns tt;
     cm_get_chart_data := fun _ _ => Returns None;
     cm_cache_chart_data := fun _ _ _ => Returns tt;
     cm_clear_price_cache := Returns (PyInt 0);
     cm_clear_chart_cache := Returns (PyInt 0);
     cm_clear_all_cache := Returns (PyInt 0);
     cm_get_realtime_prices := Returns None;
     cm_cache_realtime_prices := fun _ => Returns true;
     cm_cache_realtime_price := fun _ _ => Returns true |}.



(** The demo store behind a cache that holds nothing. *)
Definition warming_app : CryptoWebApp :=
  {| db := demo_db; redis_manager := Some empty_cache |}.

(** The trace [t] ends with the event [e]. *)
Definition ends_with (e : event) (t : list event) : Prop := exists t', t = t' ++ [e].

(** A store that accepts the connection and fails on the chart query. *)
Definition failing_query_db : Database :=
  {| db_get_connection := Returns (Some demo_connection);
     db_get_latest_prices := fun _ => Returns (Some demo_rows);
     db_connect := Returns true;
     db_disconnect := Returns tt;
     db_get_chart_data := fun _ _ => Raises "OperationalError: lost connection during query";
     db_insert_current_price := fun _ => Returns true;
     db_insert_historical_data := fun _ _ => Returns true;
     db_get_latest_rows := Returns None |}.

Definition leaking_app : CryptoWebApp :=
  {| db := failing_query_db; redis_manager := None |}.

(** A cache manager whose clearing methods all work and report three keys. *)
Definition counting_cache : CacheManager :=
  {| cm_get_latest_prices := Returns None;
     cm_cache_latest_prices := fun _ => Returns tt;
     cm_get_chart_data := fun _ _ => Returns None;
     cm_cache_chart_data := fun _ _ _ => Returns tt;
     cm_clear_price_cache := Returns (PyInt 3);
     cm_clear_chart_cache := Returns (PyInt 3);
     cm_clear_all_cache := Returns (PyInt 3);
     cm_get_realtime_prices := Returns None;
     cm_cache_realtime_prices := fun _ => Returns true;
     cm_cache_realtime_price := fun _ _ => Returns true |}.

Definition counting_app : CryptoWebApp :=
  {| db := demo_db; redis_manager := Some counting_cache |}.

(** The scopes the serving layer documents for the clearing operation. *)
Definition documented_scopes : list (option string) :=
  [Some "prices"; Some "charts"; Some "all"; None].

Definition is_cache_clear (e : event) : bool :=
  match e with
  | CacheClearPrices | CacheClearCharts | CacheClearAll => true
  | _ => false
  end.

(** Population statistics of a list of prices. *)
Definition pmean (xs : list Q) : Q := sum xs / len xs.

Definition pvariance (xs : list Q) : Q :=
  sum (map (fun x => (x - pmean xs) ^ 2) xs) / len xs.

Definition pstdev (pow_half : Q -> Q) (xs : list Q) : Q := pow_half (pvariance xs).

(** The [w] prices that end at position [i]. *)
Definition trailing_window (w i : nat) (closes : list Q) : list Q :=
  firstn w (skipn (i + 1 - w) closes).

(** The volatility entry expected at position [i] of the sorted items. *)
Definition expected_volatility (pow_half : Q -> Q) (closes : list Q) (w : nat)
    (entry : nat * ChartPoint) : VolatilityPoint :=
  let window := trailing_window w (fst entry) closes in
  {| vol_date := cp_date (snd entry);
     vol_timestamp_ms := cp_timestamp_ms (snd entry);
     vol_volatility := pstdev pow_half window;
     vol_volatility_percent :=
       if Qlt_le_dec 0 (pmean window)
       then (pstdev pow_half window / pmean window) * 100
       else 0 |}.

(** Order by a key. *)
Definition le_by {A} (key : A -> Z) (a b : A) : Prop := (key a <= key b)%Z.

Definition by_date : ChartPoint -> ChartPoint -> Prop := le_by cp_date.

(** The quality gate of the realtime pass: the score for the 'minute'
    cadence is at least 0.5. *)
Definition accepted (self : RealtimeDataProcessor) (s : Sample) : bool :=
  match tm_get_data_quality_score (rp_timestamp_manager self) (s_timestamp s) "minute" with
  | Returns q => Qle_bool 0.5 q
  | Raises _ => false
  end.

(** The samples handed to [insert_current_price] in a trace, in order. *)
Definition inserted_samples (t : list event) : list Sample :=
  flat_map (fun e => match e with DbInsertCurrentPrice s => [s] | _ => [] end) t.

(** The lists written to the realtime-prices key in a trace. *)
Definition realtime_list_writes (t : list event) : list (list CacheItem) :=
  flat_map (fun e => match e with CachePutRealtimePrices l => [l] | _ => [] end) t.

(** The per-symbol realtime writes of a trace. *)
Definition realtime_item_writes (t : list event) : list (string * CacheItem) :=
  flat_map (fun e => match e with CachePutRealtimePrice s i => [(s, i)] | _ => [] end) t.


Definition returns {A} (o : outcome A) : Prop := exists a, o = Returns a.

(** No call made by the realtime pass on the batch raises. *)
Definition steps_return (self : RealtimeDataProcessor) (batch : list Sample) : Prop :=
  (forall s, In s batch ->
     returns (tm_get_data_quality_score (rp_timestamp_manager self) (s_timestamp s) "minute") /\
     returns (tm_log_data_status (rp_timestamp_manager self) (s_timestamp s) "minute") /\
     (accepted self s = true -> returns (db_insert_current_price (rp_db self) s))) /\
  returns (cm_cache_realtime_prices (rp_cache_manager self) (map (cache_item self) batch)) /\
  (forall s, In s batch ->
     returns (cm_cache_realtime_price (rp_cache_manager self) (s_symbol s) (cache_item self s))).

(** No insert made by the batch pass on the fetched data raises. *)
Definition data_steps_return (self : DataProcessor) (current : option (list Sample))
    (historical : list (string * list HistRow)) : Prop :=
  (forall l s, current = Some l -> In s l -> returns (db_insert_current_price (dp_db self) s)) /\
  (forall tf df r, In (tf, df) historical -> In r df ->
     returns (db_insert_historical_data (dp_db self) tf r)).

(** A fresh and a stale sample, and a quality gate that scores by age. *)
Definition fresh_sample : Sample :=
  {| s_name := "Bitcoin"; s_symbol := "BTC"; s_price := 65000; s_change_24h := 1;
     s_timestamp := 99990%Z |}.

Definition stale_sample : Sample :=
  {| s_name := "Ethereum"; s_symbol := "ETH"; s_price := 3000; s_change_24h := 2;
     s_timestamp := 90000%Z |}.

Definition demo_timestamp_manager : TimestampManager :=
  {| tm_get_data_quality_score :=
       fun t _ => Returns (if (100000 - t <=? 60)%Z then 0.9 else 0.2);
     tm_log_data_status := fun _ _ => Returns tt;
     tm_get_current_time := 100000%Z |}.

Definition demo_batch : list Sample := [fresh_sample; stale_sample].

Definition demo_processor : RealtimeDataProcessor :=
  {| rp_db := demo_db;
     rp_cache_manager := empty_cache;
     rp_timestamp_manager := demo_timestamp_manager;
     scrape_realtime_crypto_data := Returns (Some demo_batch) |}.

(** A store that refuses the connection. *)
Definition refusing_db : Database :=
  {| db_get_connection := Returns None;
     db_get_latest_prices := fun _ => Returns None;
     db_connect := Returns false;
     db_disconnect := Returns tt;
     db_get_chart_data := fun _ _ => Returns None;
     db_insert_current_price := fun _ => Returns false;
     db_insert_historical_data := fun _ _ => Returns false;
     db_get_latest_rows := Returns None |}.

(** The acquisition works, the store does not. *)
Definition offline_store_processor : RealtimeDataProcessor :=
  {| rp_db := refusing_db;
     rp_cache_manager := empty_cache;
     rp_timestamp_manager := demo_timestamp_manager;
     scrape_realtime_crypto_data := Returns (Some demo_batch) |}.

(** A store that takes the connection and reports a failure for every
    insert. *)
Definition rejecting_db : Database :=
  {| db_get_connection := Returns (Some demo_connection);
     db_get_latest_prices := fun _ => Returns None;
     db_connect := Returns true;
     db_disconnect := Returns tt;
     db_get_chart_data := fun _ _ => Returns None;
     db_insert_current_price := fun _ => Returns false;
     db_insert_historical_data := fun _ _ => Returns false;
     db_get_latest_rows := Returns None |}.

Definition demo_hist_row : HistRow :=
  {| h_symbol := "BTC"; h_date := 96400%Z; h_open := 64000; h_high := 66000;
     h_low := 63000; h_close := 65000; h_volume := 10; h_quote_volume := 650000 |}.

Definition rejected_inserts_processor : DataProcessor :=
  {| dp_db := rejecting_db;
     scrape_all_crypto_data := Returns (Some demo_batch, [("hour", [demo_hist_row])]) |}.

(** The log line with which the wrapper of a task starts. *)
Definition start_line (t : task) : string :=
  match t with
  | DataCollection => "running the data collection task"
  | Realtime => "running the realtime task"
  | Analysis => "running the analysis task"
  | FullProcessing => "running the full processing"
  end.

Definition is_start_of (t : task) (e : event) : bool :=
  match e with
  | Log INFO msg => (msg =? start_line t)%string
  | _ => false
  end.

(** How many times the wrapper of a task was entered in a trace. *)
Definition runs_of (t : task) (tr : list event) : nat :=
  List.length (filter (is_start_of t) tr).

(** A job after a tick at time [now]: due again one period later when it
    was due, untouched otherwise. *)
Definition bump (now : Z) (j : Job) : Job :=
  {| job_task := job_task j; job_period := job_period j;
     job_next_run := (now + job_period j)%Z |}.

Definition advance (now : Z) (j : Job) : Job :=
  if is_due now j then bump now j else j.



(** The same processor, interrupted in its first round. *)
Definition interrupted_realtime : RealtimeWorld :=
  {| rw_processor := fun _ => offline_store_processor;
     rw_interrupt := fun _ => true |}.


Definition flowing_world : World :=
  {| w_run_data_processing := ret true;
     w_run_analysis := ret true;
     w_realtime := interrupted_realtime |}.


Definition flowing_env : SchedulerWorld :=
  {| world_at := fun _ => flowing_world;
     stopped_at := fun _ => false;
     interrupt_at := fun _ => false |}.

(** A world whose data collection and analysis handlers raise. *)
Definition failing_world : World :=
  {| w_run_data_processing := raise "ConnectionError";
     w_run_analysis := raise "ValueError";
     w_realtime := interrupted_realtime |}.

(** Twelve BTC points listed from the latest to the earliest, whose close
    is their date, and one ETH point. *)
Definition demo_point (symbol : string) (date : Z) : ChartPoint :=
  {| cp_symbol := symbol; cp_date := date; cp_timestamp_ms := Some (date * 1000)%Z;
     cp_open := inject_Z date; cp_high := inject_Z date; cp_low := inject_Z date;
     cp_close := inject_Z date; cp_volume := 1 |}.

Definition demo_chart : list ChartPoint :=
  demo_point "ETH" 5
  :: map (fun k => demo_point "BTC" (12 - Z.of_nat k)) (seq 0 12).

(** ** The serving layer: the API handlers of [crypto_web_app.py]

    The handlers make calls that the read path does not make. Their
    computations carry the events of the read path ([Core]) and these
    further calls; they are written with the same combinators, one level
    up. *)

Inductive call_event : Type :=
| Core (e : event)
| CacheGetPrice (symbol : string)
| CacheGetStats
| DbPriceHistory (crypto timeframe : string)
| DbKlineData (symbol timeframe : string)
| DbAnalysisData
| DbHistoricalData (timeframe : string) (limit : Z)
| RequestJson
| ParseLimit
| RebuildDatabase
| RunDataProcessing
| RunAnalysis
| RunKlineProcessing
| RedisPing.

Definition SM (A : Type) : Type := (outcome A * list call_event)%type.

Definition sret {A} (a : A) : SM A := (Returns a, []).
Definition scall {A} (e : call_event) (answer : outcome A) : SM A := (answer, [e]).
Definition slog (l : level) (msg : string) : SM unit := (Returns tt, [Core (Log l msg)]).

(** A computation of the read path, run by a handler. *)
Definition lift {A} (m : M A) : SM A := (fst m, map Core (snd m)).

Definition sbind {A B} (m : SM A) (f : A -> SM B) : SM B :=
  match m with
  | (Returns a, t) => let (r, t') := f a in (r, t ++ t')
  | (Raises e, t) => (Raises e, t)
  end.

(** [try: m except Exception as e: h e], for handlers. *)
Definition s_try_except {A} (m : SM A) (h : string -> SM A) : SM A :=
  match m with
  | (Returns a, t) => (Returns a, t)
  | (Raises e, t) => let (r, t') := h e in (r, t ++ t')
  end.

(** [try: m finally: fin], for handlers. *)
Definition s_try_finally {A} (m : SM A) (fin : SM unit) : SM A :=
  let (r, t) := m in
  match fin with
  | (Returns _, t') => (r, t ++ t')
  | (Raises e, t') => (Raises e, t ++ t')
  end.

Declare Scope srv_scope.
Delimit Scope srv_scope with srv.
Notation "x <- m ;; k" := (sbind m (fun x => k))
  (at level 61, m at next level, right associativity) : srv_scope.
Notation "m ;; k" := (sbind m (fun _ => k))
  (at level 61, right associativity) : srv_scope.

Definition svalue {A} (m : SM A) : outcome A := fst m.
Definition strace {A} (m : SM A) : list call_event := snd m.

(** The events of the read path within a trace of a handler. *)
Definition core_events (t : list call_event) : list event :=
  flat_map (fun c => match c with Core e => [e] | _ => [] end) t.

(** What a store query of a handler returns, as far as the handler looks at
    it: whether it is a true value, and the value itself. *)
Record QueryResult : Type := mkQueryResult {
  qr_truthy : bool;
  qr_json : string
}.

(** The ['data'] of an answer built from a query:
    [x if x else []] or [x if x else {}]. *)
Inductive query_data : Type :=
| Given (x : QueryResult)
| EmptyList
| EmptyDict.

(** The ['data'] of the answer of [api_latest_prices]. *)
Inductive prices_data : Type :=
| CachedPair (btc_price eth_price : CacheItem)
| Listed (prices : list PriceView).

(** A JSON answer [{'success': True, 'data': ...}] or
    [{'success': False, 'error': ...}]. *)
Inductive ApiBody (A : Type) : Type :=
| ApiSuccess (data : A)
| ApiFailure (error : string).
Arguments ApiSuccess {A} data.
Arguments ApiFailure {A} error.

(** What a handler returns: the body and the HTTP status (200 when the
    handler gives none). *)
Record Response (A : Type) : Type := mkResponse {
  resp_status : Z;
  resp_body : A
}.
Arguments mkResponse {A} resp_status resp_body.
Arguments resp_status {A} r.
Arguments resp_body {A} r.

(** The request as the handlers read it: the query arguments and
    [request.json], which raises when the body cannot be read as JSON and is
    false when it is missing or an empty object. *)
Record Request : Type := mkRequest {
  req_args : list (string * string);
  req_json : outcome (option (list (string * string)))
}.

(** [d.get(key)]. *)
Fixpoint dict_get (d : list (string * string)) (key : string) : option string :=
  match d with
  | [] => None
  | (k, v) :: rest => if (k =? key)%string then Some v else dict_get rest key
  end.

(** [d.get(key, default)]. *)
Definition dict_get_default (d : list (string * string)) (key default : string) : string :=
  match dict_get d key with
  | Some v => v
  | None => default
  end.

(** The web application with the further methods its handlers call on the
    cache manager and on the database, and the builtin [int] on the strings
    of a query. *)
Record Server : Type := mkServer {
  srv_app : CryptoWebApp;
  srv_get_price : string -> outcome (option CacheItem);
  srv_get_cache_stats : outcome QueryResult;
  srv_get_price_history : string -> string -> outcome QueryResult;
  srv_get_kline_data : string -> string -> outcome QueryResult;
  srv_get_analysis_data : outcome QueryResult;
  srv_int : string -> outcome Z
}.

Local Open Scope srv_scope.

(** [int(request.args.get('limit', 100))]. *)
Definition parse_limit (srv : Server) (request : Request) : SM Z :=
  match dict_get (req_args request) "limit" with
  | Some text => scall ParseLimit (srv_int srv text)
  | None => sret 100%Z
  end.

(** [CryptoWebApp.api_latest_prices], lines 421-443. *)
Definition api_latest_prices (srv : Server) : SM (Response (ApiBody prices_data)) :=
  s_try_except
    (cached <-
       match redis_manager (srv_app srv) with
       | Some _ =>
           btc_price <- scall (CacheGetPrice "BTC") (srv_get_price srv "BTC") ;;
           eth_price <- scall (CacheGetPrice "ETH") (srv_get_price srv "ETH") ;;
           match btc_price, eth_price with
           | Some b, Some e => sret (Some (b, e))
           | _, _ => sret None
           end
       | None => sret None
       end ;;
     match cached with
     | Some (b, e) => sret (mkResponse 200 (ApiSuccess (CachedPair b e)))
     | None =>
         prices <- lift (get_latest_prices (srv_app srv)) ;;
         sret (mkResponse 200 (ApiSuccess (Listed prices)))
     end)
    (fun e =>
       slog ERROR "reading the latest prices failed" ;;
       sret (mkResponse 500 (ApiFailure e))).

Definition or_empty_list (x : QueryResult) : query_data :=
  if qr_truthy x then Given x else EmptyList.

Definition or_empty_dict (x : QueryResult) : query_data :=
  if qr_truthy x then Given x else EmptyDict.

(** [CryptoWebApp.api_price_history], lines 445-460. *)
Definition api_price_history (srv : Server) (request : Request)
    : SM (Response (ApiBody query_data)) :=
  s_try_except
    (let crypto := dict_get_default (req_args request) "crypto" "BTC" in
     let timeframe := dict_get_default (req_args request) "timeframe" "24h" in
     connected <- scall (Core DbConnect) (db_connect (db (srv_app srv))) ;;
     if connected : bool then
       history <- scall (DbPriceHistory crypto timeframe)
                    (srv_get_price_history srv crypto timeframe) ;;
       scall (Core DbDisconnect) (db_disconnect (db (srv_app srv))) ;;
       sret (mkResponse 200 (ApiSuccess (or_empty_list history)))
     else
       sret (mkResponse 500 (ApiFailure "database connection failed")))
    (fun e =>
       slog ERROR "reading the price history failed" ;;
       sret (mkResponse 500 (ApiFailure e))).

(** [CryptoWebApp.api_kline_chart], lines 503-517. *)
Definition api_kline_chart (srv : Server) (request : Request)
    : SM (Response (ApiBody query_data)) :=
  s_try_except
    (let symbol := dict_get_default (req_args request) "symbol" "BTC" in
     let timeframe := dict_get_default (req_args request) "timeframe" "hour" in
     connected <- scall (Core DbConnect) (db_connect (db (srv_app srv))) ;;
     if connected : bool then
       kline_data <- scall (DbKlineData symbol timeframe)
                       (srv_get_kline_data srv symbol timeframe) ;;
       scall (Core DbDisconnect) (db_disconnect (db (srv_app srv))) ;;
       sret (mkResponse 200 (ApiSuccess (or_empty_list kline_data)))
     else
       sret (mkResponse 500 (ApiFailure "database connection failed")))
    (fun e =>
       slog ERROR "reading the kline data failed" ;;
       sret (mkResponse 500 (ApiFailure e))).

(** [CryptoWebApp.api_analysis], lines 519-530. *)
Definition api_analysis (srv : Server) : SM (Response (ApiBody query_data)) :=
  s_try_except
    (connected <- scall (Core DbConnect) (db_connect (db (srv_app srv))) ;;
     if connected : bool then
       analysis_data <- scall DbAnalysisData (srv_get_analysis_data srv) ;;
       scall (Core DbDisconnect) (db_disconnect (db (srv_app srv))) ;;
       sret (mkResponse 200 (ApiSuccess (or_empty_dict analysis_data)))
     else
       sret (mkResponse 500 (ApiFailure "database connection failed")))
    (fun e =>
       slog ERROR "reading the analysis data failed" ;;
       sret (mkResponse 500 (ApiFailure e))).

(** [CryptoWebApp.api_chart_data], lines 462-479. *)
Definition api_chart_data (srv : Server) (request : Request)
    : SM (Response (ApiBody (list ChartPoint))) :=
  s_try_except
    (let timeframe := dict_get_default (req_args request) "timeframe" "hour" in
     let symbol := dict_get (req_args request) "symbol" in
     limit <- parse_limit srv request ;;
     data <- lift (get_chart_data (srv_app srv) timeframe symbol limit) ;;
     sret (mkResponse 200 (ApiSuccess data)))
    (fun e =>
       slog ERROR "API: reading the chart data failed" ;;
       sret (mkResponse 500 (ApiFailure e))).

(** [CryptoWebApp.api_btc_chart], lines 481-490. *)
Definition api_btc_chart (srv : Server) (request : Request)
    : SM (Response (ApiBody (list ChartPoint))) :=
  s_try_except
    (let timeframe := dict_get_default (req_args request) "timeframe" "hour" in
     limit <- parse_limit srv request ;;
     chart_data <- lift (get_chart_data (srv_app srv) timeframe (Some "BTC") limit) ;;
     sret (mkResponse 200 (ApiSuccess chart_data)))
    (fun e =>
       slog ERROR "reading the BTC chart data failed" ;;
       sret (mkResponse 500 (ApiFailure e))).

(** [CryptoWebApp.api_eth_chart], lines 492-501. *)
Definition api_eth_chart (srv : Server) (request : Request)
    : SM (Response (ApiBody (list ChartPoint))) :=
  s_try_except
    (let timeframe := dict_get_default (req_args request) "timeframe" "hour" in
     limit <- parse_limit srv request ;;
     chart_data <- lift (get_chart_data (srv_app srv) timeframe (Some "ETH") limit) ;;
     sret (mkResponse 200 (ApiSuccess chart_data)))
    (fun e =>
       slog ERROR "reading the ETH chart data failed" ;;
       sret (mkResponse 500 (ApiFailure e))).

(** [CryptoWebApp.api_btc_data], lines 575-596; [pow_half] is the float
    operation [x ** 0.5] of [process_chart_data]. *)
Definition api_btc_data (pow_half : Q -> Q) (srv : Server) (request : Request)
    : SM (Response (ApiBody ChartCurves)) :=
  s_try_except
    (let timeframe := dict_get_default (req_args request) "timeframe" "hour" in
     limit <- parse_limit srv request ;;
     raw_data <- lift (get_chart_data (srv_app srv) timeframe (Some "BTC") limit) ;;
     let processed_data := process_chart_data pow_half raw_data "BTC" in
     sret (mkResponse 200 (ApiSuccess processed_data)))
    (fun e =>
       slog ERROR "API: reading the bitcoin data failed" ;;
       sret (mkResponse 500 (ApiFailure e))).

(** [CryptoWebApp.api_eth_data], lines 598-619. *)
Definition api_eth_data (pow_half : Q -> Q) (srv : Server) (request : Request)
    : SM (Response (ApiBody ChartCurves)) :=
  s_try_except
    (let timeframe := dict_get_default (req_args request) "timeframe" "hour" in
     limit <- parse_limit srv request ;;
     raw_data <- lift (get_chart_data (srv_app srv) timeframe (Some "ETH") limit) ;;
     let processed_data := process_chart_data pow_half raw_data "ETH" in
     sret (mkResponse 200 (ApiSuccess processed_data)))
    (fun e =>
       slog ERROR "API: reading the ethereum data failed" ;;
       sret (mkResponse 500 (ApiFailure e))).

(** [CryptoWebApp.api_clear_cache], lines 650-665. *)
Definition api_clear_cache (srv : Server) (request : Request) : SM (Response ClearResult) :=
  s_try_except
    (json <- scall RequestJson (req_json request) ;;
     let cache_type :=
       match json with
       | Some ((_ :: _) as d) => dict_get d "type"
       | _ => None
       end in
     result <- lift (clear_cache (srv_app srv) cache_type) ;;
     if success result then sret (mkResponse 200 result)
     else sret (mkResponse 400 result))
    (fun e =>
       slog ERROR "API: clearing the cache failed" ;;
       sret (mkResponse 500 {| success := false; cleared_keys := None; message := e |})).

(** The dictionary returned by [get_cache_stats]: its ['status'] with the
    statistics or the message that comes with it. *)
Inductive StatsAnswer : Type :=
| StatsDisabled (message : string)
| StatsActive (stats : QueryResult)
| StatsSuccess (data : QueryResult)
| StatsError (message : string).

(** Lines 348-367, the first [def get_cache_stats]. *)
Definition get_cache_stats_first (srv : Server) : SM StatsAnswer :=
  match redis_manager (srv_app srv) with
  | None => sret (StatsDisabled "cache not enabled")
  | Some _ =>
      s_try_except
        (stats <- scall CacheGetStats (srv_get_cache_stats srv) ;;
         sret (StatsActive stats))
        (fun e =>
           slog ERROR "reading the cache statistics failed" ;;
           sret (StatsError e))
  end.

(** Lines 667-686, the second [def get_cache_stats] of the same class. *)
Definition get_cache_stats_second (srv : Server) : SM StatsAnswer :=
  s_try_except
    (match redis_manager (srv_app srv) with
     | None => sret (StatsError "cache manager not initialised")
     | Some _ =>
         stats <- scall CacheGetStats (srv_get_cache_stats srv) ;;
         sret (StatsSuccess stats)
     end)
    (fun e =>
       slog ERROR "reading the cache statistics failed" ;;
       sret (StatsError e)).

(** The binding of a name after the class body has run: the last [def]. *)
Fixpoint last_def {A} (defs : list (string * A)) (name : string) (bound : option A)
    : option A :=
  match defs with
  | [] => bound
  | (n, f) :: rest => last_def rest name (if (n =? name)%string then Some f else bound)
  end.

Definition stats_defs : list (string * (Server -> SM StatsAnswer)) :=
  [ ("get_cache_stats", get_cache_stats_first);    (* line 348 *)
    ("get_cache_stats", get_cache_stats_second)    (* line 667 *) ].

(** [self.get_cache_stats()] as [api_cache_stats] calls it. *)
Definition get_cache_stats (srv : Server) : SM StatsAnswer :=
  match last_def stats_defs "get_cache_stats" None with
  | Some f => f srv
  | None => (Raises "AttributeError: get_cache_stats", [])
  end.

(** [CryptoWebApp.api_cache_stats], lines 638-648. *)
Definition api_cache_stats (srv : Server) : SM (Response StatsAnswer) :=
  s_try_except
    (stats <- get_cache_stats srv ;;
     sret (mkResponse 200 stats))
    (fun e =>
       slog ERROR "API: reading the cache statistics failed" ;;
       sret (mkResponse 500 (StatsError e))).

Local Open Scope py_scope.

(** ** The summary of a batch: [data_processor.py], lines 78-127 *)

Local Open Scope srv_scope.

Fixpoint s_for_each {A} (xs : list A) (body : A -> SM unit) : SM unit :=
  match xs with
  | [] => sret tt
  | x :: xs' => body x ;; s_for_each xs' body
  end.

Fixpoint s_for_collect {A B} (xs : list A) (body : A -> SM B) : SM (list B) :=
  match xs with
  | [] => sret []
  | x :: xs' => y <- body x ;; ys <- s_for_collect xs' body ;; sret (y :: ys)
  end.

(** The two reads of the store that [get_summary_statistics] makes:
    [get_latest_prices()], here without a connection, and
    [get_historical_data(timeframe, limit=...)]. *)
Record SummaryReads : Type := mkSummaryReads {
  sr_get_latest_prices : outcome (option (list PriceRow));
  sr_get_historical_data : string -> Z -> outcome (option (list HistRow))
}.

(** The dictionary [stats]: ['latest_prices'] and, in the order of
    insertion, the entries ['<timeframe>_data_count']. *)
Record Stats : Type := mkStats {
  stats_latest_prices : option (list PriceRow);
  stats_data_count : list (string * Z)
}.

Definition timeframes : list string := ["minute"; "hour"; "day"].

(** [len(data) if data else 0]. *)
Definition count_rows (data : option (list HistRow)) : Z :=
  match data with
  | Some ((_ :: _) as rows) => Z.of_nat (List.length rows)
  | _ => 0%Z
  end.

(** Lines 89-91: one turn of the loop over the time frames. *)
Definition count_timeframe (reads : SummaryReads) (timeframe : string) : SM (string * Z) :=
  data <- scall (DbHistoricalData timeframe 1000) (sr_get_historical_data reads timeframe 1000) ;;
  sret ((timeframe ++ "_data_count")%string, count_rows data).

(** [DataProcessor.get_summary_statistics], lines 78-98; [None] is the
    early [return None]. *)
Definition get_summary_statistics (self : DataProcessor) (reads : SummaryReads)
    : SM (option Stats) :=
  connected <- scall (Core DbConnect) (db_connect (dp_db self)) ;;
  if negb connected then sret None
  else
    s_try_finally
      (latest_prices <- scall (Core DbLatestPrices) (sr_get_latest_prices reads) ;;
       counts <- s_for_collect timeframes (count_timeframe reads) ;;
       sret (Some {| stats_latest_prices := latest_prices; stats_data_count := counts |}))
      (scall (Core DbDisconnect) (db_disconnect (dp_db self))).

(** Lines 115-117: the line of the log for one row of the latest prices;
    both conversions are part of the f-string, the price first. *)
Definition log_price (price_data : PriceRow) : SM unit :=
  price <- lift (float (row_price price_data)) ;;
  change_24h <- lift (float (row_api_change_24h price_data)) ;;
  slog INFO ("latest price of " ++ row_symbol price_data).

(** [stats.get(key, 0)]. *)
Fixpoint stats_get (counts : list (string * Z)) (key : string) : Z :=
  match counts with
  | [] => 0%Z
  | (k, v) :: rest => if (k =? key)%string then v else stats_get rest key
  end.

(** [run_data_processing], lines 100-127, on the processor it constructs. *)
Definition run_data_processing (processor : DataProcessor) (reads : SummaryReads) : SM bool :=
  ok <- lift (process_and_store_data processor) ;;
  if ok : bool then
    slog INFO "data processing succeeded" ;;
    stats <- get_summary_statistics processor reads ;;
    match stats with
    | Some stats =>
        slog INFO "summary of the data" ;;
        match stats_latest_prices stats with
        | Some ((_ :: _) as rows) =>
            slog INFO "latest prices" ;;
            s_for_each rows log_price
        | _ => sret tt
        end ;;
        slog INFO "historical data" ;;
        s_for_each timeframes
          (fun timeframe =>
             let count := stats_get (stats_data_count stats)
                            (timeframe ++ "_data_count")%string in
             slog INFO ("rows counted for " ++ timeframe))
    | None => sret tt
    end ;;
    sret true
  else
    slog ERROR "data processing failed" ;;
    sret false.

Local Open Scope py_scope.

(** ** The state of the system: [api_system_status], lines 532-564 *)

Local Open Scope srv_scope.

Inductive link_status : Type := LinkConnected | LinkDisconnected.

(** The ['data'] of the answer, without its time stamp. *)
Record SystemStatus : Type := mkSystemStatus {
  status_database : link_status;
  status_redis : link_status
}.

(** [CryptoWebApp.api_system_status]. [self.db] is an object and so true.
    [redis_client rm] is the attribute [redis] of the manager as the handler
    tests it: [None] when the manager has no such attribute or it is false,
    and the answer of its [ping()] otherwise. *)
Definition api_system_status (srv : Server)
    (redis_client : CacheManager -> option (outcome unit))
    : SM (Response (ApiBody SystemStatus)) :=
  s_try_except
    (db_status <-
       s_try_except
         (connected <- scall (Core DbConnect) (db_connect (db (srv_app srv))) ;;
          if connected : bool then
            scall (Core DbDisconnect) (db_disconnect (db (srv_app srv))) ;;
            sret LinkConnected
          else sret LinkDisconnected)
         (fun _ => sret LinkDisconnected) ;;
     redis_status <-
       match redis_manager (srv_app srv) with
       | Some rm =>
           s_try_except
             (match redis_client rm with
              | Some ping => scall RedisPing ping ;; sret LinkConnected
              | None => sret LinkDisconnected
              end)
             (fun _ => sret LinkDisconnected)
       | None => sret LinkDisconnected
       end ;;
     sret (mkResponse 200
             (ApiSuccess {| status_database := db_status; status_redis := redis_status |})))
    (fun e =>
       slog ERROR "reading the state of the system failed" ;;
       sret (mkResponse 500 (ApiFailure e))).

(** ** The first start: [CryptoSystem.initialize_system] of [main.py],
    lines 37-63 *)

(** The functions [main.py] imports for the first start, absent from the
    sources under study, by their answers. The name [run_data_processing]
    is bound there to [scrape_all_crypto_data] of the scraper, which
    returns the pair of the current and the historical data. *)
Record Bootstrap : Type := mkBootstrap {
  boot_rebuild_database : outcome bool;
  boot_run_data_processing :
    outcome (option (list Sample) * list (string * list HistRow));
  boot_run_analysis : outcome bool;
  boot_run_kline_processing : outcome bool
}.

(** Python truthiness of a tuple of two. *)
Definition truthy_pair {A B} (p : A * B) : bool := true.

Definition initialize_system (boot : Bootstrap) : SM bool :=
  slog INFO "initialising the system" ;;
  slog INFO "step 1: rebuilding the database" ;;
  rebuilt <- scall RebuildDatabase (boot_rebuild_database boot) ;;
  if negb rebuilt then
    slog ERROR "rebuilding the database failed, initialisation aborted" ;;
    sret false
  else
    slog INFO "step 2: first data processing" ;;
    scraped <- scall RunDataProcessing (boot_run_data_processing boot) ;;
    (if negb (truthy_pair scraped)
     then slog ERROR "first data processing failed, the system goes on"
     else sret tt) ;;
    slog INFO "step 3: first analysis" ;;
    analysed <- scall RunAnalysis (boot_run_analysis boot) ;;
    (if negb analysed
     then slog ERROR "first analysis failed, the system goes on"
     else sret tt) ;;
    slog INFO "step 4: first kline data" ;;
    kline <- scall RunKlineProcessing (boot_run_kline_processing boot) ;;
    (if negb kline
     then slog ERROR "first kline data failed, the system goes on"
     else sret tt) ;;
    slog INFO "system initialised" ;;
    sret true.

Local Open Scope py_scope.

(** ** The configuration of the log: [logger_config.py] *)

Inductive Handler : Type :=
| StreamHandler (lvl : level)
| FileHandler (file : string) (lvl : level).

(** The state the module works on: its global [_logging_configured], and
    the level and the handlers of the root logger. *)
Record Logging : Type := mkLogging {
  logging_configured : bool;
  root_level : level;
  root_handlers : list Handler
}.

(** The file system as one call meets it: [os.makedirs(logs_dir,
    exist_ok=True)] and the opening of a log file by [logging.FileHandler]. *)
Record LogFiles : Type := mkLogFiles {
  os_makedirs : outcome unit;
  open_log_file : string -> outcome unit
}.

Definition setLevel (lvl : level) (st : Logging) : Logging :=
  {| logging_configured := logging_configured st;
     root_level := lvl;
     root_handlers := root_handlers st |}.

(** [for handler in root_logger.handlers[:]: root_logger.removeHandler(handler)]. *)
Definition removeHandlers (st : Logging) : Logging :=
  {| logging_configured := logging_configured st;
     root_level := root_level st;
     root_handlers := [] |}.

Definition addHandler (h : Handler) (st : Logging) : Logging :=
  {| logging_configured := logging_configured st;
     root_level := root_level st;
     root_handlers := root_handlers st ++ [h] |}.

Definition set_configured (st : Logging) : Logging :=
  {| logging_configured := true;
     root_level := root_level st;
     root_handlers := root_handlers st |}.

(** [module_name or __name__]; the module is imported under the name
    [logger_config]. *)
Definition logger_name (module_name : option string) : string :=
  match truthy_symbol module_name with
  | Some name => name
  | None => "logger_config"
  end.

(** [setup_logging], lines 14-75: the name of the logger returned, the
    lines it writes, and the state left; a call that raises leaves the
    state as it was at the failing step. *)
Definition setup_logging (files : LogFiles) (module_name : option string)
    (log_level : level) (st : Logging) : M string * Logging :=
  if logging_configured st then (ret (logger_name module_name), st)
  else
    match os_makedirs files with
    | Raises e => (raise e, st)
    | Returns _ =>
        let st1 := addHandler (StreamHandler log_level)
                     (removeHandlers (setLevel log_level st)) in
        match open_log_file files "crypto_system.log" with
        | Raises e => (raise e, st1)
        | Returns _ =>
            let st2 := addHandler (FileHandler "crypto_system.log" log_level) st1 in
            match open_log_file files "crypto_errors.log" with
            | Raises e => (raise e, st2)
            | Returns _ =>
                let st3 := addHandler (FileHandler "crypto_errors.log" ERROR) st2 in
                (log INFO "logging initialised" ;; ret (logger_name module_name),
                 set_configured st3)
            end
        end
    end.

(** [get_logger], lines 77-90. *)
Definition get_logger (files : LogFiles) (module_name : string) (st : Logging)
    : M string * Logging :=
  if negb (logging_configured st) then setup_logging files (Some module_name) INFO st
  else (ret module_name, st).

(** [get_crypto_logger], lines 93-103. *)
Definition get_crypto_logger (files : LogFiles) (module_name : string) (st : Logging)
    : M string * Logging :=
  get_logger files ("crypto." ++ module_name) st.

(** ** Vocabulary of the further statements *)

(** The rows handed to [insert_historical_data] in a trace, in order. *)
Definition inserted_rows (t : list event) : list (string * HistRow) :=
  flat_map (fun e => match e with DbInsertHistorical tf r => [(tf, r)] | _ => [] end) t.

(** The cache does not answer the read of chart data: there is no manager,
    no symbol, the read raises or it finds nothing. *)
Definition chart_not_served (self : CryptoWebApp) (timeframe : string)
    (symbol : option string) : Prop :=
  value (chart_data_from_cache self timeframe symbol) = Returns None.

(** The latest prices with a row whose price is NULL after a sound row. *)
Definition rows_with_null_price : list PriceRow :=
  demo_rows ++
  [ {| row_name := "Dogecoin"; row_symbol := "DOGE"; row_price := None;
       row_api_change_24h := Some 3; row_timestamp := TsDatetime 99995%Z |} ].

Definition null_price_db : Database :=
  {| db_get_connection := Returns (Some demo_connection);
     db_get_latest_prices := fun _ => Returns (Some rows_with_null_price);
     db_connect := Returns true;
     db_disconnect := Returns tt;
     db_get_chart_data := fun _ _ => Returns None;
     db_insert_current_price := fun _ => Returns true;
     db_insert_historical_data := fun _ _ => Returns true;
     db_get_latest_rows := Returns None |}.

Definition null_price_app : CryptoWebApp :=
  {| db := null_price_db; redis_manager := Some empty_cache |}.

(** Three stored chart rows, listed from the latest to the earliest. *)
Definition demo_chart_row (date : Z) : ChartRow :=
  {| cr_date := date; cr_timestamp_ms := (date * 1000)%Z;
     cr_open := inject_Z date; cr_high := inject_Z date; cr_low := inject_Z date;
     cr_close := inject_Z date; cr_volume := 1 |}.

Definition demo_chart_rows : list ChartRow :=
  [demo_chart_row 3; demo_chart_row 2; demo_chart_row 1].

Definition chart_db : Database :=
  {| db_get_connection := Returns (Some demo_connection);
     db_get_latest_prices := fun _ => Returns (Some demo_rows);
     db_connect := Returns true;
     db_disconnect := Returns tt;
     db_get_chart_data := fun _ _ => Returns (Some demo_chart_rows);
     db_insert_current_price := fun _ => Returns true;
     db_insert_historical_data := fun _ _ => Returns true;
     db_get_latest_rows := Returns None |}.

Definition chart_app : CryptoWebApp :=
  {| db := chart_db; redis_manager := None |}.

(** A batch processor in front of a store that accepts everything. *)
Definition accepting_processor : DataProcessor :=
  {| dp_db := demo_db;
     scrape_all_crypto_data :=
       Returns (Some demo_batch, [("minute", []); ("hour", [demo_hist_row; demo_hist_row])]) |}.

(** The items of [l] whose key is [k], in the order of [l]. *)
Definition with_key {A} (key : A -> Z) (k : Z) (l : list A) : list A :=
  filter (fun x => (key x =? k)%Z) l.




(** What a handler answers that opens the store, runs the one query [q],
    logged as [query], and closes the store; [empty] stands for a false
    result of the query. *)
Definition answers_query (store : Database) (q : outcome QueryResult) (query : call_event)
    (empty : query_data) (m : SM (Response (ApiBody query_data))) : Prop :=
  exists r,
    svalue m = Returns r /\
    (resp_status r = 200 \/ resp_status r = 500)%Z /\
    (resp_status r = 200%Z <->
       db_connect store = Returns true /\ returns q /\ returns (db_disconnect store)) /\
    (forall x, resp_status r = 200%Z -> q = Returns x ->
       resp_body r = ApiSuccess (if qr_truthy x then Given x else empty)) /\
    (resp_status r = 500%Z -> exists e, resp_body r = ApiFailure e) /\
    (In query (strace m) <-> db_connect store = Returns true) /\
    (In (Core DbDisconnect) (strace m) <-> db_connect store = Returns true /\ returns q).

(** A server over the application [app]: its further reads find nothing and
    its [int] accepts no text. *)
Definition server_of (app : CryptoWebApp) : Server :=
  {| srv_app := app;
     srv_get_price := fun _ => Returns None;
     srv_get_cache_stats := Returns {| qr_truthy := false; qr_json := "{}" |};
     srv_get_price_history := fun _ _ => Returns {| qr_truthy := false; qr_json := "[]" |};
     srv_get_kline_data := fun _ _ => Returns {| qr_truthy := false; qr_json := "[]" |};
     srv_get_analysis_data := Returns {| qr_truthy := false; qr_json := "{}" |};
     srv_int := fun _ => Raises "ValueError: invalid literal for int()" |}.

(** The request [POST {'type': scope}]. *)
Definition scope_request (scope : string) : Request :=
  {| req_args := []; req_json := Returns (Some [("type", scope)]) |}.

(** The request [GET ?symbol=...]. *)
Definition symbol_request (symbol : string) : Request :=
  {| req_args := [("symbol", symbol)]; req_json := Returns None |}.

(** The request with the query argument [symbol] set to [symbol]. *)
Definition with_symbol (symbol : string) (request : Request) : Request :=
  {| req_args := ("symbol", symbol) :: req_args request; req_json := req_json request |}.

(** [int] accepts the [limit] of the request, if it has one. *)
Definition limit_accepted (srv : Server) (request : Request) : Prop :=
  forall text, dict_get (req_args request) "limit" = Some text -> returns (srv_int srv text).

(** The handler of the three curves of [symbol]: ['BTC'] is served by
    [api_btc_data], ['ETH'] by [api_eth_data]. *)
Definition api_symbol_data (pow_half : Q -> Q) (symbol : string)
    : option (Server -> Request -> SM (Response (ApiBody ChartCurves))) :=
  if (symbol =? "BTC")%string then Some (api_btc_data pow_half)
  else if (symbol =? "ETH")%string then Some (api_eth_data pow_half)
  else None.

(** Opening and closing the connection of the store. *)
Definition is_connection_call (c : call_event) : bool :=
  match c with
  | Core DbConnect | Core DbDisconnect => true
  | _ => false
  end.

(** A row of the latest prices whose price and change can both be
    converted by [float]. *)
Definition convertible (row : PriceRow) : Prop :=
  row_price row <> None /\ row_api_change_24h row <> None.

(** The store as the summary reads it: the latest prices are [rows], and
    every time frame holds two rows. *)
Definition summary_reads (rows : list PriceRow) : SummaryReads :=
  {| sr_get_latest_prices := Returns (Some rows);
     sr_get_historical_data := fun _ _ => Returns (Some [demo_hist_row; demo_hist_row]) |}.

(** Latest prices whose rows all carry a price and a change. *)
Definition complete_rows : list PriceRow :=
  [ {| row_name := "Bitcoin"; row_symbol := "BTC"; row_price := Some 55000;
       row_api_change_24h := Some 1; row_timestamp := TsDatetime 99990%Z |};
    {| row_name := "Ethereum"; row_symbol := "ETH"; row_price := Some 3100;
       row_api_change_24h := Some 2; row_timestamp := TsDatetime 99990%Z |} ].

(** The steps of the first start made in a trace, in order. *)
Definition boot_steps (t : list call_event) : list call_event :=
  filter (fun c => match c with
                   | RebuildDatabase | RunDataProcessing | RunAnalysis
                   | RunKlineProcessing => true
                   | _ => false
                   end) t.

(** The lines written to the log at level [ERROR] in a trace. *)
Definition error_lines (t : list call_event) : list string :=
  flat_map (fun c => match c with Core (Log ERROR msg) => [msg] | _ => [] end) t.

(** An optional call that is made and returns. *)
Definition returns_some {A} (o : option (outcome A)) : Prop :=
  exists a, o = Some (Returns a).

(** A call of one of the three functions of [logger_config.py]. *)
Inductive LogCall : Type :=
| SetupLogging (module_name : option string) (log_level : level)
| GetLogger (module_name : string)
| GetCryptoLogger (module_name : string).

Definition log_call (files : LogFiles) (c : LogCall) (st : Logging) : M string * Logging :=
  match c with
  | SetupLogging module_name log_level => setup_logging files module_name log_level st
  | GetLogger module_name => get_logger files module_name st
  | GetCryptoLogger module_name => get_crypto_logger files module_name st
  end.

(** The state after a sequence of calls, each with the file system it
    meets. *)
Fixpoint log_calls (calls : list (LogFiles * LogCall)) (st : Logging) : Logging :=
  match calls with
  | [] => st
  | (files, c) :: rest => log_calls rest (snd (log_call files c st))
  end.

(** The handlers of a configured root logger of level [lvl]. *)
Definition configured_handlers (lvl : level) : list Handler :=
  [ StreamHandler lvl;
    FileHandler "crypto_system.log" lvl;
    FileHandler "crypto_errors.log" ERROR ].

(** A file system on which the logs can be written. *)
Definition writable_files : LogFiles :=
  {| os_makedirs := Returns tt; open_log_file := fun _ => Returns tt |}.

(** A file system on which the file of the errors cannot be opened. *)
Definition no_error_file : LogFiles :=
  {| os_makedirs := Returns tt;
     open_log_file := fun file =>
       if (file =? "crypto_errors.log")%string then Raises "PermissionError"
       else Returns tt |}.

(** The state of a fresh interpreter: nothing configured, a root logger of
    level [WARNING] without handlers. *)
Definition fresh_logging : Logging :=
  {| logging_configured := false; root_level := WARNING; root_handlers := [] |}.

(** What the calls keep true of the state, [handlers] being the handlers the
    root logger had at the start. *)
Definition logging_invariant (handlers : list Handler) (st : Logging) : Prop :=
  (logging_configured st = true ->
   root_handlers st = configured_handlers (root_level st)) /\
  (root_handlers st = handlers \/
   exists n, root_handlers st = firstn n (configured_handlers (root_level st))).

(** A first call that cannot open the file of the errors, then two calls of
    [setup_logging] with other levels. *)
Definition demo_log_calls : list (LogFiles * LogCall) :=
  [ (no_error_file, GetCryptoLogger "data_processor");
    (writable_files, SetupLogging (Some "main") ERROR);
    (writable_files, SetupLogging None WARNING) ].

(** A computation of the serving layer seen through the events of the read
    path. *)
Definition core {A} (m : SM A) : M A := (svalue m, core_events (strace m)).

(** A world of the scheduler whose data processing is [run_data_processing]
    on an accepting store with the latest prices [rows]. *)
Definition summary_world (rows : list PriceRow) : World :=
  {| w_run_data_processing :=
       core (run_data_processing accepting_processor (summary_reads rows));
     w_run_analysis := ret true;
     w_realtime := interrupted_realtime |}.

(** ** Lemmas on computations *)

Lemma bind_value_returns {A B} (m : M A) (f : A -> M B) a :
  value m = Returns a ->
  value (bind m f) = value (f a) /\ trace (bind m f) = trace m ++ trace (f a).
Proof.
  destruct m as [[x | e] t]; simpl; intros H; inversion H; subst.
  destruct (f a) as [r t']; simpl; auto.
Qed.

Lemma for_collect_length {A B} (xs : list A) (body : A -> M B) ys :
  value (for_collect xs body) = Returns ys -> List.length ys = List.length xs.
Proof.
  revert ys; induction xs as [| x xs IH]; simpl; intros ys H.
  - inversion H; reflexivity.
  - destruct (body x) as [[y | e] t]; simpl in H; [| discriminate].
    destruct (for_collect xs body) as [[zs | e] t']; simpl in *; [| discriminate].
    inversion H; subst; simpl; f_equal; apply IH; reflexivity.
Qed.


(** ** The 24h reference query *)

Lemma latest_row_None rows : latest_row rows = None <-> rows = [].
Proof.
  destruct rows as [| r rs]; simpl; [tauto |].
  split; [| discriminate].
  destruct (latest_row rs) as [r' |]; [destruct (hr_date r <? hr_date r')%Z |]; discriminate.
Qed.

Lemma latest_row_Some rows r :
  latest_row rows = Some r ->
  In r rows /\ forall r', In r' rows -> (hr_date r' <= hr_date r)%Z.
Proof.
  revert r; induction rows as [| x rs IH]; simpl; intros r H; [discriminate |].
  destruct (latest_row rs) as [r' |] eqn:E.
  - destruct (IH r' eq_refl) as [Hin Hmax].
    destruct (Z.ltb_spec (hr_date x) (hr_date r')); inversion H; subst.
    + split; [auto |]. intros y [-> | Hy]; [lia | auto].
    + split; [auto |]. intros y [-> | Hy]; [lia |]. specialize (Hmax y Hy). lia.
  - inversion H; subst. apply latest_row_None in E; subst.
    split; [auto |]. intros y [-> | []]; lia.
Qed.

Lemma at_or_before_24h_true symbol now r :
  at_or_before_24h symbol now r = true <->
  hr_symbol r = symbol /\ (hr_date r <= now - seconds_24h)%Z.
Proof.
  unfold at_or_before_24h. rewrite andb_true_iff, String.eqb_eq, Z.leb_le. tauto.
Qed.

Lemma select_reference_None symbol c :
  select_reference symbol c = None <-> no_reference symbol c.
Proof.
  unfold select_reference, no_reference. rewrite latest_row_None. split.
  - intros H r Hin Hs Hd.
    assert (In r (filter (at_or_before_24h symbol (conn_now c)) (conn_hour_data c))) as Hf
      by (apply filter_In; split; [assumption | apply at_or_before_24h_true; auto]).
    rewrite H in Hf. exact Hf.
  - intros H. destruct (filter _ _) as [| r rs] eqn:E; [reflexivity |].
    assert (In r (filter (at_or_before_24h symbol (conn_now c)) (conn_hour_data c))) as Hf
      by (rewrite E; left; reflexivity).
    apply filter_In in Hf. destruct Hf as [Hin Hm].
    apply at_or_before_24h_true in Hm. destruct Hm. exfalso; eauto.
Qed.

Lemma select_reference_Some symbol c r :
  select_reference symbol c = Some r -> is_reference symbol c r.
Proof.
  unfold select_reference, is_reference. intros H.
  apply latest_row_Some in H. destruct H as [Hin Hmax].
  apply filter_In in Hin. destruct Hin as [Hin Hm].
  apply at_or_before_24h_true in Hm. destruct Hm as [Hs Hd].
  repeat split; auto.
  intros r' Hin' Hs' Hd'. apply Hmax. apply filter_In. split; [assumption |].
  apply at_or_before_24h_true; auto.
Qed.

Lemma truthy_decimal_true d :
  truthy_decimal d = true <-> exists p, d = Some p /\ ~ p == 0.
Proof.
  destruct d as [p |]; simpl.
  - rewrite negb_true_iff. split.
    + intros H. exists p. split; [reflexivity |]. intros E.
      apply Qeq_bool_iff in E. congruence.
    + intros [q [Hq Hn]]. inversion Hq; subst.
      destruct (Qeq_bool q 0) eqn:E; [| reflexivity].
      apply Qeq_bool_iff in E. contradiction.
  - split; [discriminate | intros [p [H _]]; discriminate].
Qed.

(** What [calculate_24h_change] returns, by the answer of the query. *)
Lemma calculate_24h_change_value symbol current_price c :
  value (calculate_24h_change symbol current_price c) =
  Returns
    match fetch_reference symbol c with
    | Returns (Some row) =>
        match hr_close_price row with
        | Some p =>
            if Qeq_bool p 0 then None
            else Some (((current_price - p) / p) * 100)
        | None => None
        end
    | _ => None
    end.
Proof.
  unfold calculate_24h_change.
  destruct (fetch_reference symbol c) as [[row |] | e]; simpl; try reflexivity.
  destruct (hr_close_price row) as [p |]; simpl; [| reflexivity].
  destruct (Qeq_bool p 0); reflexivity.
Qed.

(** C1: the 24h change recomputed for [get_latest_prices] is
    [(current - reference) / reference * 100] when the store holds a usable
    close at or before [now - 24h]; the fallback (the API-reported change) is
    used exactly when the read raises, no such row exists, or the close of
    the selected row is null or zero; the recomputation itself never raises. *)
Theorem calculate_24h_change_fallback_rule :
  forall (symbol : string) (current_price : Q) (c : Connection) (api : option Q),
  exists calculated : option Q,
    value (calculate_24h_change symbol current_price c) = Returns calculated /\
    (calculated = None <->
       (exists e, conn_cursor_error c = Some e) \/
       no_reference symbol c \/
       (exists r, select_reference symbol c = Some r /\
                  (hr_close_price r = None \/
                   exists p, hr_close_price r = Some p /\ p == 0))) /\
    (forall r p,
       conn_cursor_error c = None ->
       select_reference symbol c = Some r ->
       hr_close_price r = Some p -> ~ p == 0 ->
       is_reference symbol c r /\
       calculated = Some (((current_price - p) / p) * 100)) /\
    (calculated = None ->
       value (choose_change_24h calculated api) = Returns (fallback_value api)) /\
    (forall v, calculated = Some v ->
       value (choose_change_24h calculated api) = Returns v).
Proof.
  intros symbol current_price c api.
  eexists. split; [apply calculate_24h_change_value |].
  match goal with |- (?x = None <-> _) /\ _ => set (calculated := x) end.
  assert (Hnone : calculated = None ->
            value (choose_change_24h calculated api) = Returns (fallback_value api))
    by (intros ->; destruct api; reflexivity).
  assert (Hsome : forall v, calculated = Some v ->
            value (choose_change_24h calculated api) = Returns v)
    by (intros v ->; reflexivity).
  split; [| split; [| split; assumption]]; clear Hnone Hsome;
    subst calculated; unfold fetch_reference.
  - (* the fallback is used exactly in the three listed cases *)
    destruct (conn_cursor_error c) as [e |] eqn:Herr.
    { split; [intros _; left; eauto | reflexivity]. }
    destruct (select_reference symbol c) as [row |] eqn:Hsel.
    2:{ split; [| reflexivity]. intros _. right. left.
        apply select_reference_None. assumption. }
    destruct (hr_close_price row) as [p |] eqn:Hp.
    2:{ split; [| reflexivity]. intros _. right. right.
        exists row. split; [reflexivity | left; assumption]. }
    destruct (Qeq_bool p 0) eqn:Hz.
    { split; [| reflexivity]. intros _. right. right. exists row.
      split; [reflexivity |]. right. exists p.
      split; [assumption | apply Qeq_bool_iff; assumption]. }
    split; [discriminate |].
    intros [[e He] | [Hno | [r [Hr Hc]]]]; [discriminate | |].
    + apply select_reference_None in Hno. congruence.
    + inversion Hr; subst. destruct Hc as [Hc | [q [Hq Hq0]]]; [congruence |].
      rewrite Hp in Hq. inversion Hq; subst.
      apply Qeq_bool_iff in Hq0. congruence.
  - (* the recomputed value *)
    intros r p Herr Hsel Hp Hnz. rewrite Herr, Hsel, Hp.
    split; [apply select_reference_Some; assumption |].
    destruct (Qeq_bool p 0) eqn:Hz; [| reflexivity].
    apply Qeq_bool_iff in Hz. contradiction.
Qed.

(** BTC closed at 50000 before the 24h mark and trades at 55000: the change
    is 10 percent whatever the API reported. ETH has no row before the mark:
    the API value is used, and 0 when there is none. *)
Example calculate_24h_change_demo :
  value (c <- calculate_24h_change "BTC" 55000 demo_connection ;;
         choose_change_24h c (Some 1)) = Returns (500000 # 50000) /\
  value (c <- calculate_24h_change "ETH" 3100 demo_connection ;;
         choose_change_24h c (Some (5 # 2))) = Returns (5 # 2) /\
  value (c <- calculate_24h_change "ETH" 3100 demo_connection ;;
         choose_change_24h c None) = Returns 0.
Proof. vm_compute. repeat split. Qed.


(** ** The read path of latest prices *)

(** The recomputation touches the store with its single query and writes to
    no cache. *)
Lemma calculate_24h_change_no_cache_write symbol current_price c :
  filter is_cache_write (trace (calculate_24h_change symbol current_price c)) = [].
Proof.
  unfold calculate_24h_change.
  destruct (fetch_reference symbol c) as [[row |] | e]; simpl; try reflexivity.
  destruct (truthy_decimal (hr_close_price row)) eqn:Ht; simpl; [| reflexivity].
  apply truthy_decimal_true in Ht. destruct Ht as [p [-> _]]. reflexivity.
Qed.

Lemma price_view_of_row_no_cache_write conn item :
  filter is_cache_write (trace (price_view_of_row conn item)) = [].
Proof.
  unfold price_view_of_row.
  destruct (row_price item) as [q |]; simpl; [| reflexivity].
  pose proof (calculate_24h_change_no_cache_write (row_symbol item) q conn) as Hc.
  pose proof (calculate_24h_change_value (row_symbol item) q conn) as Hv.
  destruct (calculate_24h_change (row_symbol item) q conn) as [[calc | e] t];
    simpl in *; [| discriminate].
  destruct calc as [c |]; [| destruct (row_api_change_24h item)]; simpl;
    rewrite app_nil_r; assumption.
Qed.

Lemma for_collect_no_cache_write conn rows :
  filter is_cache_write (trace (for_collect rows (price_view_of_row conn))) = [].
Proof.
  induction rows as [| x rows IH]; simpl; [reflexivity |].
  pose proof (price_view_of_row_no_cache_write conn x) as Hx.
  destruct (price_view_of_row conn x) as [[y | e] t]; simpl in *; [| assumption].
  destruct (for_collect rows (price_view_of_row conn)) as [[ys | e] t']; simpl in *.
  - rewrite app_nil_r, filter_app, Hx, IH. reflexivity.
  - rewrite filter_app, Hx, IH. reflexivity.
Qed.

(** The [finally] clause of the database path returns normally, whatever
    [close] does. *)
Lemma close_at_finally_returns self :
  exists t,
    match connection_at_finally self with
    | Some conn => try_except (call ConnClose (conn_close conn)) (fun _ => ret tt)
    | None => ret tt
    end = (Returns tt, t) /\ filter is_cache_write t = [].
Proof.
  destruct (connection_at_finally self) as [conn |].
  - destruct (conn_close conn) as [[] | e]; simpl; eexists; split; reflexivity.
  - eexists; split; reflexivity.
Qed.

(** The database path returns what the store yields and writes it to the
    cache when there is a manager and the result is not empty. *)
Lemma latest_prices_from_db_spec self :
  value (latest_prices_from_db self) = Returns (store_prices (db self)) /\
  filter is_cache_write (trace (latest_prices_from_db self)) =
    match redis_manager self, store_prices (db self) with
    | Some _, v :: vs => [CachePutLatestPrices (v :: vs)]
    | _, _ => []
    end.
Proof.
  unfold latest_prices_from_db, store_prices.
  destruct (close_at_finally_returns self) as [tf [-> Htf]].
  unfold try_finally.
  destruct (db_get_connection (db self)) as [[conn |] | e]; simpl.
  2:{ rewrite Htf. destruct (redis_manager self); auto. }
  2:{ rewrite Htf. destruct (redis_manager self); auto. }
  destruct (db_get_latest_prices (db self) conn) as [[rows |] | e]; simpl.
  2:{ rewrite Htf. destruct (redis_manager self); auto. }
  2:{ rewrite Htf. destruct (redis_manager self); auto. }
  destruct rows as [| r rows].
  { simpl. rewrite Htf. destruct (redis_manager self); auto. }
  cbn [truthy_list negb].
  pose proof (for_collect_no_cache_write conn (r :: rows)) as Hfc.
  pose proof (for_collect_length (r :: rows) (price_view_of_row conn)) as Hlen.
  destruct (for_collect (r :: rows) (price_view_of_row conn)) as [[l | e] t].
  2:{ simpl in *. rewrite !filter_app, Hfc, Htf. simpl.
      destruct (redis_manager self); auto. }
  specialize (Hlen l eq_refl). simpl in Hfc.
  destruct l as [| v vs]; [discriminate |].
  destruct (redis_manager self) as [rm |]; simpl.
  - destruct (cm_cache_latest_prices rm (v :: vs)) as [[] | e]; simpl;
      (split; [reflexivity |]);
      rewrite !filter_app, Hfc, Htf; reflexivity.
  - split; [reflexivity |].
    rewrite !filter_app, Hfc, Htf; reflexivity.
Qed.

Lemma get_latest_prices_not_hit self :
  value (latest_prices_from_cache self) = Returns None ->
  value (get_latest_prices self) = Returns (store_prices (db self)).
Proof.
  intros H. unfold get_latest_prices.
  destruct (bind_value_returns (latest_prices_from_cache self)
              (fun cached => match cached with
                             | Some cached_prices => ret cached_prices
                             | None => latest_prices_from_db self
                             end) None H) as [-> _].
  apply latest_prices_from_db_spec.
Qed.

Lemma cache_unreachable_not_hit self :
  cache_unreachable self -> value (latest_prices_from_cache self) = Returns None.
Proof.
  unfold latest_prices_from_cache.
  intros [-> | [rm [e [-> He]]]]; [reflexivity |].
  rewrite He. reflexivity.
Qed.

(** [__init__] keeps going when the constructor of the cache manager raises:
    the application is built without a manager. *)
Lemma init_redis_manager_absorbs ctor :
  exists o, value (init_redis_manager ctor) = Returns o /\
            ((exists e, ctor = Raises e) -> o = None).
Proof.
  unfold init_redis_manager. destruct ctor as [rm | e]; simpl; eexists; split;
    try reflexivity. intros [e H]. discriminate.
Qed.

(** A row with a price is turned into a view that carries its name, symbol
    and price. *)
Lemma price_view_of_row_returns conn item p :
  row_price item = Some p ->
  exists v, value (price_view_of_row conn item) = Returns v /\
            pv_name v = row_name item /\ pv_symbol v = row_symbol item /\ pv_price v = p.
Proof.
  intros Hp. unfold price_view_of_row. rewrite Hp. simpl.
  pose proof (calculate_24h_change_value (row_symbol item) p conn) as Hc.
  destruct (calculate_24h_change (row_symbol item) p conn) as [[calc | e] t];
    simpl in Hc; [| discriminate].
  destruct calc as [c |]; [| destruct (row_api_change_24h item)]; simpl;
    eexists; repeat split.
Qed.

(** When every row has a price, the store yields one view per row, in
    order. *)
Lemma store_prices_complete d conn rows :
  db_get_connection d = Returns (Some conn) ->
  db_get_latest_prices d conn = Returns (Some rows) ->
  (forall r, In r rows -> row_price r <> None) ->
  map pv_symbol (store_prices d) = map row_symbol rows /\
  map (fun v => Some (pv_price v)) (store_prices d) = map row_price rows.
Proof.
  intros Hc Hr Hall. unfold store_prices. rewrite Hc, Hr. clear Hc Hr.
  induction rows as [| r rows IH]; [split; reflexivity |].
  destruct (row_price r) as [p |] eqn:Hp; [| exfalso; eapply Hall; [left; reflexivity | exact Hp]].
  destruct (price_view_of_row_returns conn r p Hp) as [v [Hv [_ [Hs Hpr]]]].
  destruct IH as [IH1 IH2]; [intros r' Hr'; apply Hall; right; exact Hr' |].
  simpl. destruct (price_view_of_row conn r) as [[v' | e] t]; simpl in Hv; [| discriminate].
  inversion Hv; subst v'. simpl.
  destruct (for_collect rows (price_view_of_row conn)) as [[l | e] t'] eqn:E; simpl in *.
  - rewrite Hs, Hpr, Hp, IH1, IH2. split; reflexivity.
  - symmetry in IH1. apply map_eq_nil in IH1. subst rows. discriminate E.
Qed.

(** C6: with the cache unreachable (no manager, as after a failed
    construction in [__init__], or a manager whose read raises, whatever its
    write does) [get_latest_prices] returns, without raising, exactly what
    the database path yields from the store, which is also what it returns
    behind a cache that always misses: one view per stored row when every
    row has a price. With the store unavailable as well it returns the empty
    list. *)
Theorem get_latest_prices_degraded :
  forall self : CryptoWebApp,
    cache_unreachable self ->
    value (get_latest_prices self) = Returns (store_prices (db self)) /\
    value (get_latest_prices {| db := db self; redis_manager := Some empty_cache |})
      = Returns (store_prices (db self)) /\
    (forall conn rows,
       db_get_connection (db self) = Returns (Some conn) ->
       db_get_latest_prices (db self) conn = Returns (Some rows) ->
       (forall r, In r rows -> row_price r <> None) ->
       map pv_symbol (store_prices (db self)) = map row_symbol rows /\
       map (fun v => Some (pv_price v)) (store_prices (db self)) = map row_price rows) /\
    (store_unavailable (db self) -> value (get_latest_prices self) = Returns []).
Proof.
  intros self Hc.
  pose proof (get_latest_prices_not_hit self (cache_unreachable_not_hit self Hc)) as Hv.
  split; [assumption |].
  split; [apply (get_latest_prices_not_hit
                   {| db := db self; redis_manager := Some empty_cache |}); reflexivity |].
  split; [apply store_prices_complete |].
  intros Hs. rewrite Hv. unfold store_prices.
  destruct Hs as [[e ->] | ->]; reflexivity.
Qed.

Lemma get_latest_prices_degraded_witness :
  cache_unreachable demo_app /\
  value (get_latest_prices demo_app) = Returns demo_views.
Proof.
  split; [left; reflexivity |].
  exact (proj1 (get_latest_prices_degraded demo_app (or_introl eq_refl))).
Defined.




(** ** Cache-aside reads *)

Lemma get_latest_prices_hit_spec self payload :
  latest_prices_hit self payload ->
  get_latest_prices self =
    (Returns payload,
     [CacheGetLatestPrices; Log INFO "latest prices served from the cache"]).
Proof.
  intros [rm [Hrm [Hget Hne]]].
  unfold get_latest_prices, latest_prices_from_cache. rewrite Hrm, Hget.
  destruct payload as [| p ps]; [contradiction |]. reflexivity.
Qed.



(** The database path of chart data returns what the store yields and
    writes it to the cache when there is a manager and the result is not
    empty. *)
Lemma chart_data_from_db_spec self timeframe symbol :
  symbol <> "" ->
  value (chart_data_from_db self timeframe (Some symbol))
    = Returns (store_chart (db self) symbol timeframe) /\
  cache_writes (trace (chart_data_from_db self timeframe (Some symbol))) =
    match redis_manager self, store_chart (db self) symbol timeframe with
    | Some _, p :: ps => [CachePutChart symbol timeframe (p :: ps)]
    | _, _ => []
    end.
Proof.
  intros Hs. unfold chart_data_from_db, store_chart, cache_writes.
  destruct symbol as [| a symbol]; [contradiction |]. cbn [truthy_symbol].
  set (sym := String a symbol).
  destruct (db_connect (db self)) as [[|] | e]; simpl.
  2,3: destruct (redis_manager self); split; reflexivity.
  destruct (db_get_chart_data (db self) sym timeframe) as [[rows |] | e]; simpl.
  3: destruct (redis_manager self); split; reflexivity.
  all: destruct (db_disconnect (db self)) as [[] | e]; simpl.
  all: try (destruct (redis_manager self); split; reflexivity).
  destruct rows as [| r rows]; simpl.
  { destruct (redis_manager self); split; reflexivity. }
  destruct (redis_manager self) as [rm |]; simpl; [| split; reflexivity].
  match goal with
  | |- context [cm_cache_chart_data rm sym timeframe ?l] =>
      destruct (cm_cache_chart_data rm sym timeframe l) as [[] | e]
  end; simpl; split; reflexivity.
Qed.








(** A miss that finds rows in the store: the result is written back. *)
Example cache_aside_warming :
  value (get_latest_prices warming_app) = Returns demo_views /\
  cache_writes (trace (get_latest_prices warming_app)) = [CachePutLatestPrices demo_views].
Proof. split; vm_compute; reflexivity. Qed.

(** ** Release of the store connection *)

(** The database path of [get_latest_prices] closes the connection it was
    handed, on every path: its [finally] clause runs last. *)
Lemma latest_prices_from_db_releases self conn :
  db_get_connection (db self) = Returns (Some conn) ->
  ends_with ConnClose (trace (latest_prices_from_db self)).
Proof.
  intros H. unfold latest_prices_from_db, connection_at_finally, ends_with.
  rewrite H. unfold try_finally.
  match goal with
  | |- context [try_except ?body ?handler] =>
      destruct (try_except body handler) as [r t]
  end.
  destruct (conn_close conn) as [[] | e]; simpl; exists t; reflexivity.
Qed.

(** Both ingestion passes disconnect last once they have connected, also
    when a step raises. *)
Lemma process_and_store_data_releases self :
  db_connect (dp_db self) = Returns true ->
  ends_with DbDisconnect (trace (process_and_store_data self)).
Proof.
  intros H. unfold process_and_store_data, ends_with. rewrite H.
  cbn [call bind negb]. unfold try_finally.
  match goal with
  | |- context [try_except ?body ?handler] =>
      destruct (try_except body handler) as [r t]
  end.
  destruct (db_disconnect (dp_db self)) as [[] | e]; simpl;
    exists (DbConnect :: t); reflexivity.
Qed.

Lemma process_and_store_realtime_data_releases self :
  db_connect (rp_db self) = Returns true ->
  ends_with DbDisconnect (trace (process_and_store_realtime_data self)).
Proof.
  intros H. unfold process_and_store_realtime_data, ends_with. rewrite H.
  cbn [call bind negb]. unfold try_finally.
  match goal with
  | |- context [try_except ?body ?handler] =>
      destruct (try_except body handler) as [r t]
  end.
  destruct (db_disconnect (rp_db self)) as [[] | e]; simpl;
    exists (DbConnect :: t); reflexivity.
Qed.

(** [get_chart_data] disconnects when the chart query returns. *)
Lemma get_chart_data_releases_on_return self timeframe symbol data :
  symbol <> "" ->
  db_connect (db self) = Returns true ->
  db_get_chart_data (db self) symbol timeframe = Returns data ->
  In DbDisconnect (trace (chart_data_from_db self timeframe (Some symbol))).
Proof.
  intros Hs Hc Hq. unfold chart_data_from_db.
  destruct symbol as [| a symbol]; [contradiction |]. cbn [truthy_symbol].
  rewrite Hc, Hq. cbn [call bind].
  destruct (db_disconnect (db self)) as [[] | e]; simpl.
  - match goal with
    | |- context [let (r, t') := ?m in (r, DbDisconnect :: t')] => destruct m as [r t]
    end. destruct r; simpl; auto.
  - auto.
Qed.

(** C7 (defect in [get_chart_data]): connected to a store whose chart query
    raises, [get_chart_data] returns the empty list and never calls
    [disconnect]: the connection acquired by [connect] is not released. *)
Theorem get_chart_data_leaks_connection :
  db_connect (db leaking_app) = Returns true /\
  get_chart_data leaking_app "hour" (Some "BTC") 100 =
    (Returns [],
     [DbConnect; DbChartData "BTC" "hour"; Log ERROR "error while reading chart data"]) /\
  ~ In DbDisconnect (trace (get_chart_data leaking_app "hour" (Some "BTC") 100)).
Proof.
  split; [reflexivity |]. split; [reflexivity |].
  simpl. intros [H | [H | [H | []]]]; discriminate.
Qed.

(** ** Cache clearing *)

(** The name [clear_cache] is bound to the second definition. *)
Lemma clear_cache_is_second self cache_type :
  clear_cache self cache_type = clear_cache_second self cache_type.
Proof. reflexivity. Qed.

(** With a manager whose clearing methods all work, clearing the scope
    ['prices'] is refused: the claim that every documented scope is cleared
    and counted does not hold. *)
Lemma clear_cache_scopes_counterexample :
  ~ (forall scope, In scope documented_scopes ->
       exists r, value (clear_cache counting_app scope) = Returns r /\
                 success r = true /\ cleared_keys r = Some (PyInt 3)).
Proof.
  intros H. destruct (H (Some "prices")) as [r [Hv [Hs _]]].
  - left; reflexivity.
  - vm_compute in Hv. inversion Hv; subst. discriminate.
Qed.

(** C8 (amended): the cache-clear operation in effect is the second
    definition of [clear_cache]. It never raises and never reports a key
    count. For the scope ['all'], or no scope, it asks the manager to clear
    everything, once, and succeeds exactly when the manager returns a true
    value. Every other scope, ['prices'] and ['charts'] included, is refused
    as unsupported without touching the cache; so is every call when there
    is no manager. *)
Theorem clear_cache_effective :
  forall (self : CryptoWebApp) (cache_type : option string),
  exists r : ClearResult,
    value (clear_cache self cache_type) = Returns r /\
    cleared_keys r = None /\
    (redis_manager self = None ->
       success r = false /\ trace (clear_cache self cache_type) = []) /\
    (forall rm, redis_manager self = Some rm ->
       (cache_type = Some "all" \/ cache_type = None ->
          filter is_cache_clear (trace (clear_cache self cache_type)) = [CacheClearAll] /\
          (success r = true <->
           exists v, cm_clear_all_cache rm = Returns v /\ truthy v = true)) /\
       (cache_type <> Some "all" -> cache_type <> None ->
          success r = false /\
          trace (clear_cache self cache_type) = [] /\
          message r = ("unsupported cache type: " ++ str_of cache_type)%string)).
Proof.
  intros self cache_type. rewrite clear_cache_is_second. unfold clear_cache_second.
  destruct (redis_manager self) as [rm |] eqn:Hrm.
  2:{ eexists. cbn. split; [reflexivity |]. split; [reflexivity |].
      split; [intros _; split; reflexivity | intros rm H; discriminate]. }
  destruct (equals cache_type "all" || is_none cache_type) eqn:Hscope.
  - assert (Hall : cache_type = Some "all" \/ cache_type = None).
    { destruct cache_type as [t |]; [| right; reflexivity].
      simpl in Hscope. rewrite orb_false_r in Hscope.
      apply String.eqb_eq in Hscope. subst. left; reflexivity. }
    destruct (cm_clear_all_cache rm) as [v | e] eqn:Hclear; cbn.
    + destruct (truthy v) eqn:Hv; cbn; eexists;
        (split; [reflexivity |]); (split; [reflexivity |]);
        (split; [intros; discriminate |]);
        intros rm' Hrm'; inversion Hrm'; subst rm';
        (split; [intros _; split; [reflexivity |] | intros H1 H2; destruct Hall; contradiction]).
      * split; [intros _; exists v; rewrite Hclear; auto | reflexivity].
      * split; [discriminate |]. intros [v' [Hv' Ht]].
        rewrite Hclear in Hv'. inversion Hv'; subst. congruence.
    + eexists. split; [reflexivity |]. split; [reflexivity |].
      split; [intros; discriminate |].
      intros rm' Hrm'; inversion Hrm'; subst rm'.
      split; [intros _; split; [reflexivity |] | intros H1 H2; destruct Hall; contradiction].
      split; [discriminate |]. intros [v' [Hv' _]]. rewrite Hclear in Hv'. discriminate.
  - cbn. eexists. split; [reflexivity |]. split; [reflexivity |].
    split; [intros; discriminate |].
    intros rm' _. split.
    + intros [-> | ->]; discriminate.
    + intros _ _. repeat apply conj; reflexivity.
Qed.

(** The same request under both definitions: the first clears the price
    keys and reports the count, the second, in effect, refuses. *)
Example clear_cache_prices_both :
  value (clear_cache_first counting_app (Some "prices"))
    = Returns {| success := true; cleared_keys := Some (PyInt 3);
                 message := "cleared the prices cache" |} /\
  value (clear_cache counting_app (Some "prices"))
    = Returns {| success := false; cleared_keys := None;
                 message := "unsupported cache type: prices" |}.
Proof. split; reflexivity. Qed.

(** ** Chart curves *)

Section SortBy.
Context {A : Type} (key : A -> Z).

Lemma insert_by_perm x l : Permutation (x :: l) (insert_by key x l).
Proof.
  induction l as [| y l IH]; simpl; [reflexivity |].
  destruct (key x <=? key y)%Z; [reflexivity |].
  rewrite perm_swap. constructor. exact IH.
Qed.

Lemma sort_by_perm l : Permutation l (sort_by key l).
Proof.
  induction l as [| x l IH]; simpl; [constructor |].
  rewrite <- insert_by_perm. constructor. exact IH.
Qed.

Lemma sort_by_length l : List.length (sort_by key l) = List.length l.
Proof. symmetry. apply Permutation_length, sort_by_perm. Qed.

Lemma insert_by_sorted x l :
  StronglySorted (le_by key) l -> StronglySorted (le_by key) (insert_by key x l).
Proof.
  induction l as [| y l IH]; simpl; intros Hs.
  - repeat constructor.
  - inversion Hs as [| ? ? Hl Hy]; subst.
    destruct (Z.leb_spec (key x) (key y)).
    + constructor; [assumption |]. constructor; [assumption |].
      eapply Forall_impl; [| exact Hy]. unfold le_by in *. intros; lia.
    + constructor; [apply IH; assumption |].
      eapply Permutation_Forall; [apply insert_by_perm |].
      constructor; [unfold le_by in *; lia | assumption].
Qed.

Lemma sort_by_sorted l : StronglySorted (le_by key) (sort_by key l).
Proof.
  induction l as [| x l IH]; simpl; [constructor |].
  apply insert_by_sorted, IH.
Qed.
End SortBy.

Lemma enumerate_from_snd {A} (l : list A) a :
  map snd (combine (seq a (List.length l)) l) = l.
Proof.
  revert a; induction l as [| x l IH]; simpl; intros a; [reflexivity |].
  f_equal. apply IH.
Qed.

(** In an enumeration the entries of index at least [m] are those left after
    dropping the first [m]. *)
Lemma enumerate_from_filter {A} (l : list A) a m :
  filter (fun e : nat * A => (m <=? fst e)%nat) (combine (seq a (List.length l)) l)
  = skipn (m - a) (combine (seq a (List.length l)) l).
Proof.
  revert a; induction l as [| x l IH]; simpl; intros a.
  - destruct (m - a)%nat; reflexivity.
  - destruct (Nat.leb_spec m a) as [Hle | Hlt].
    + replace (m - a)%nat with 0%nat by lia. simpl. f_equal.
      rewrite IH. replace (m - S a)%nat with 0%nat by lia. reflexivity.
    + rewrite IH. destruct (m - a)%nat as [| k] eqn:E; [lia |].
      replace (m - S a)%nat with k by lia. reflexivity.
Qed.

Lemma enumerate_from_In {A} (l : list A) a i x :
  In (i, x) (combine (seq a (List.length l)) l) ->
  (a <= i < a + List.length l)%nat /\ nth_error l (i - a) = Some x.
Proof.
  revert a; induction l as [| y l IH]; simpl; intros a; [intros [] |].
  intros [H | H].
  - inversion H; subst. split; [lia |]. rewrite Nat.sub_diag. reflexivity.
  - destruct (IH _ H) as [Hr Hn]. split; [lia |].
    replace (i - a)%nat with (S (i - S a)) by lia. exact Hn.
Qed.

Lemma enumerate_skipn_In {A} (l : list A) m i x :
  In (i, x) (skipn m (enumerate l)) ->
  (m <= i < List.length l)%nat /\ nth_error l i = Some x.
Proof.
  unfold enumerate. intros H.
  assert (Hf : In (i, x) (filter (fun e : nat * A => (m <=? fst e)%nat)
                            (combine (seq 0 (List.length l)) l))).
  { rewrite enumerate_from_filter, Nat.sub_0_r. exact H. }
  apply filter_In in Hf. destruct Hf as [Hin Hm]. cbn [fst] in Hm.
  apply Nat.leb_le in Hm. apply enumerate_from_In in Hin.
  rewrite Nat.sub_0_r in Hin. destruct Hin as [Hr Hn]. split; [lia | exact Hn].
Qed.

(** Reading [w] consecutive positions from [s] gives the slice. *)
Lemma map_nth_seq {A} (l : list A) d s w :
  (s + w <= List.length l)%nat ->
  map (fun j => nth j l d) (seq s w) = firstn w (skipn s l).
Proof.
  revert l s; induction w as [| w IH]; intros l s H; simpl; [reflexivity |].
  destruct (skipn s l) as [| x rest] eqn:E.
  - assert (List.length (skipn s l) = 0%nat) as Hl by (rewrite E; reflexivity).
    rewrite length_skipn in Hl. lia.
  - f_equal.
    + rewrite <- (firstn_skipn s l) at 1. rewrite app_nth2; rewrite length_firstn;
        [| lia]. rewrite E. replace (s - Nat.min s (List.length l))%nat with 0%nat by lia.
      reflexivity.
    + rewrite IH by lia. f_equal.
      replace (S s) with (1 + s)%nat by reflexivity.
      rewrite <- skipn_skipn. rewrite E. reflexivity.
Qed.

(** The three lists after the loop, from any starting lists. *)
Lemma fold_chart_step pow_half fd w entries acc :
  fold_left (chart_step pow_half fd w) entries acc =
  {| price_data := price_data acc ++ map (fun e => price_point (snd e)) entries;
     volume_data := volume_data acc ++ map (fun e => volume_point (snd e)) entries;
     volatility_data :=
       volatility_data acc ++
       map (fun e => volatility_point pow_half fd w (fst e) (snd e))
           (filter (fun e : nat * ChartPoint => (w - 1 <=? fst e)%nat) entries) |}.
Proof.
  revert acc; induction entries as [| [i item] entries IH]; intros acc; simpl.
  - rewrite !app_nil_r. destruct acc; reflexivity.
  - rewrite IH. simpl.
    destruct (w - 1 <=? i)%nat; simpl; rewrite <- !app_assoc; reflexivity.
Qed.

(** Within the sorted items, the entry computed by the loop is the expected
    one. *)
Lemma volatility_point_expected pow_half fd w i item :
  (1 <= w)%nat -> (w - 1 <= i)%nat -> (i < List.length fd)%nat ->
  volatility_point pow_half fd w i item
  = expected_volatility pow_half (map cp_close fd) w (i, item).
Proof.
  intros Hw Hi Hn. unfold volatility_point, expected_volatility, trailing_window,
    pstdev, pvariance, pmean. cbn [fst snd].
  assert (Hwin :
    map (fun j => cp_close (nth j fd item)) (seq (i + 1 - w) w)
    = firstn w (skipn (i + 1 - w) (map cp_close fd))).
  { rewrite <- (map_nth_seq (map cp_close fd) (cp_close item)) by (rewrite length_map; lia).
    apply map_ext. intros j. rewrite map_nth. reflexivity. }
  rewrite Hwin. reflexivity.
Qed.

(** An empty input has no matching item, so the first test of the function
    is subsumed by the second. *)
Lemma process_chart_data_unfold pow_half data symbol :
  process_chart_data pow_half data symbol =
  match filter (fun item => (cp_symbol item =? symbol)%string) data with
  | [] => empty_curves
  | (_ :: _) as matching =>
      let filtered_data := sort_by cp_date matching in
      let window_size := Nat.min 10 (List.length filtered_data) in
      fold_left (chart_step pow_half filtered_data window_size)
                (enumerate filtered_data) empty_curves
  end.
Proof. destruct data; reflexivity. Qed.

(** C9: [process_chart_data] returns, for the items of the given symbol
    sorted by ascending date, one price entry and one volume entry per item;
    with [n >= 1] such items and [w = min(10, n)], it returns [n - w + 1]
    volatility entries, one for each position from [w - 1] on, whose
    volatility is the population standard deviation of the [w] closes ending
    there and whose percentage is 0 when the mean of that window is not
    positive; with no such item the three lists are empty. *)
Theorem process_chart_data_curves :
  forall (pow_half : Q -> Q) (data : list ChartPoint) (symbol : string),
    let matching := filter (fun item => (cp_symbol item =? symbol)%string) data in
    let sorted := sort_by cp_date matching in
    let n := List.length matching in
    let w := Nat.min 10 n in
    let curves := process_chart_data pow_half data symbol in
    Permutation matching sorted /\
    StronglySorted by_date sorted /\
    price_data curves = map price_point sorted /\
    volume_data curves = map volume_point sorted /\
    volatility_data curves =
      map (expected_volatility pow_half (map cp_close sorted) w)
          (skipn (w - 1) (enumerate sorted)) /\
    ((1 <= n)%nat -> List.length (volatility_data curves) = (n - w + 1)%nat) /\
    (forall v, In v (volatility_data curves) ->
       exists i item,
         nth_error sorted i = Some item /\ (w - 1 <= i)%nat /\
         v = expected_volatility pow_half (map cp_close sorted) w (i, item) /\
         (~ 0 < pmean (trailing_window w i (map cp_close sorted)) ->
          vol_volatility_percent v = 0)) /\
    (n = 0%nat -> curves = empty_curves).
Proof.
  intros pow_half data symbol matching sorted n w curves.
  assert (Hperm : Permutation matching sorted) by apply sort_by_perm.
  assert (Hsorted : StronglySorted by_date sorted) by apply sort_by_sorted.
  assert (Hlen : List.length sorted = n) by apply sort_by_length.
  assert (Hcurves :
    curves =
    {| price_data := map price_point sorted;
       volume_data := map volume_point sorted;
       volatility_data :=
         map (expected_volatility pow_half (map cp_close sorted) w)
             (skipn (w - 1) (enumerate sorted)) |}).
  { subst curves. rewrite process_chart_data_unfold. fold matching.
    clearbody matching.
    destruct matching as [| m ms] eqn:Hm; [reflexivity |].
    cbv zeta. fold sorted. rewrite Hlen. fold w.
    rewrite fold_chart_step. cbn [price_data volume_data volatility_data empty_curves app].
    unfold enumerate. rewrite enumerate_from_filter, Nat.sub_0_r.
    f_equal.
    - transitivity (map price_point (map snd (combine (seq 0 (List.length sorted)) sorted)));
        [rewrite map_map; reflexivity | rewrite enumerate_from_snd; reflexivity].
    - transitivity (map volume_point (map snd (combine (seq 0 (List.length sorted)) sorted)));
        [rewrite map_map; reflexivity | rewrite enumerate_from_snd; reflexivity].
    - apply map_ext_in. intros [i item] Hin.
      apply enumerate_skipn_In in Hin. destruct Hin as [Hi _].
      apply volatility_point_expected; [| lia | lia].
      subst w n. simpl. lia. }
  rewrite Hcurves. cbn [price_data volume_data volatility_data].
  repeat apply conj; try assumption; try reflexivity.
  - intros Hn. rewrite length_map, length_skipn. unfold enumerate.
    rewrite length_combine, length_seq, Nat.min_id, Hlen. subst w. lia.
  - intros v Hv. apply in_map_iff in Hv. destruct Hv as [[i item] [Hv Hin]].
    apply enumerate_skipn_In in Hin. destruct Hin as [[Hi _] Hnth].
    exists i, item. repeat apply conj; auto.
    intros Hmean. subst v. unfold expected_volatility. cbn [fst snd vol_volatility_percent].
    destruct (Qlt_le_dec 0 (pmean (trailing_window w i (map cp_close sorted))));
      [contradiction | reflexivity].
  - intros Hn. destruct sorted; [| simpl in Hlen; lia].
    unfold enumerate. simpl. rewrite skipn_nil. reflexivity.
Qed.

(** Twelve matching points: twelve price entries in ascending date and
    three volatility entries, for the windows ending at the tenth, eleventh
    and twelfth point; the spread of ten consecutive integers has variance
    33/4, whatever the mean. *)
Example process_chart_data_demo :
  let curves := process_chart_data (fun variance => variance) demo_chart "BTC" in
  map pp_date (price_data curves) = [1; 2; 3; 4; 5; 6; 7; 8; 9; 10; 11; 12]%Z /\
  List.length (volume_data curves) = 12%nat /\
  map vol_date (volatility_data curves) = [10; 11; 12]%Z /\
  map (fun v => Qred (vol_volatility v)) (volatility_data curves)
    = [33 # 4; 33 # 4; 33 # 4] /\
  process_chart_data (fun variance => variance) demo_chart "DOGE" = empty_curves.
Proof. vm_compute. repeat split. Qed.


(** ** Ingestion passes *)


Lemma for_each_value {A} (xs : list A) (body : A -> M unit) :
  value (for_each xs body) = Returns tt <->
  (forall x, In x xs -> value (body x) = Returns tt).
Proof.
  induction xs as [| x xs IH]; simpl.
  - split; [intros _ y [] | reflexivity].
  - destruct (body x) as [[[] | e] t] eqn:Hb; simpl.
    + destruct (for_each xs body) as [r t']; simpl in *. rewrite IH. split.
      * intros H y [<- | Hy]; [rewrite Hb; reflexivity | auto].
      * intros H y Hy. auto.
    + split; [discriminate |]. intros H.
      specialize (H x (or_introl eq_refl)). rewrite Hb in H. discriminate.
Qed.

Lemma for_each_trace {A} (xs : list A) (body : A -> M unit) :
  value (for_each xs body) = Returns tt ->
  trace (for_each xs body) = flat_map (fun x => trace (body x)) xs.
Proof.
  induction xs as [| x xs IH]; simpl; [reflexivity |].
  destruct (body x) as [[[] | e] t]; simpl; [| discriminate].
  destruct (for_each xs body) as [r t']; simpl in *.
  intros H. rewrite IH by assumption. reflexivity.
Qed.

(** The events of a loop all come from turns of its body. *)
Lemma for_each_trace_In {A} (xs : list A) (body : A -> M unit) e :
  In e (trace (for_each xs body)) -> exists x, In x xs /\ In e (trace (body x)).
Proof.
  induction xs as [| x xs IH]; simpl; [intros [] |].
  destruct (body x) as [[[] | err] t] eqn:Hb; simpl.
  - destruct (for_each xs body) as [r t']; simpl in *. intros H.
    apply in_app_or in H. destruct H as [H | H].
    + exists x. rewrite Hb. auto.
    + destruct (IH H) as [y [Hy He]]. exists y. auto.
  - intros H. exists x. rewrite Hb. auto.
Qed.

Lemma inserted_samples_app t1 t2 :
  inserted_samples (t1 ++ t2) = inserted_samples t1 ++ inserted_samples t2.
Proof. apply flat_map_app. Qed.

Lemma inserted_samples_In s t : In s (inserted_samples t) <-> In (DbInsertCurrentPrice s) t.
Proof.
  unfold inserted_samples. rewrite in_flat_map. split.
  - intros [e [He Hs]]. destruct e; simpl in Hs; try contradiction.
    destruct Hs as [-> | []]. exact He.
  - intros H. exists (DbInsertCurrentPrice s). split; [exact H | left; reflexivity].
Qed.

(** One sample through the gate: whatever the collaborators do, only this
    sample can be inserted, and only when it is accepted. *)
Lemma store_sample_only_accepted self s s' :
  In (DbInsertCurrentPrice s') (trace (store_sample self s)) ->
  s' = s /\ accepted self s = true.
Proof.
  unfold store_sample, accepted.
  destruct (tm_get_data_quality_score _ _ _) as [q | e]; simpl.
  2:{ intros [H | []]; discriminate. }
  destruct (tm_log_data_status _ _ _) as [[] | e]; simpl.
  2:{ intros [H | [H | []]]; discriminate. }
  destruct (Qle_bool 0.5 q); simpl.
  - destruct (db_insert_current_price (rp_db self) s) as [[|] | e]; simpl;
      intros H; repeat (destruct H as [H | H]; try discriminate; try contradiction);
      inversion H; auto.
  - intros H; repeat (destruct H as [H | H]; try discriminate; try contradiction).
Qed.

Lemma store_sample_value self s :
  value (store_sample self s) = Returns tt <->
  returns (tm_get_data_quality_score (rp_timestamp_manager self) (s_timestamp s) "minute") /\
  returns (tm_log_data_status (rp_timestamp_manager self) (s_timestamp s) "minute") /\
  (accepted self s = true -> returns (db_insert_current_price (rp_db self) s)).
Proof.
  unfold store_sample, accepted, returns.
  destruct (tm_get_data_quality_score _ _ _) as [q | e]; simpl.
  2:{ split; [discriminate | intros [[a H] _]; discriminate]. }
  destruct (tm_log_data_status _ _ _) as [[] | e]; simpl.
  2:{ split; [discriminate | intros [_ [[a H] _]]; discriminate]. }
  destruct (Qle_bool 0.5 q); simpl.
  - destruct (db_insert_current_price (rp_db self) s) as [[|] | e]; simpl.
    + split; [intros _; repeat split; eauto | reflexivity].
    + split; [intros _; repeat split; eauto | reflexivity].
    + split; [discriminate |]. intros [_ [_ H]]. destruct (H eq_refl); discriminate.
  - split; [intros _ | reflexivity]. repeat split; eauto. discriminate.
Qed.

(** What a sample that goes through leaves in the trace. *)
Lemma store_sample_trace self s :
  value (store_sample self s) = Returns tt ->
  inserted_samples (trace (store_sample self s)) = (if accepted self s then [s] else []) /\
  realtime_list_writes (trace (store_sample self s)) = [] /\
  realtime_item_writes (trace (store_sample self s)) = [] /\
  (accepted self s = false ->
   In (Log WARNING ("quality too low, sample skipped: " ++ s_symbol s)%string)
      (trace (store_sample self s))).
Proof.
  unfold store_sample, accepted.
  destruct (tm_get_data_quality_score _ _ _) as [q | e]; simpl; [| discriminate].
  destruct (tm_log_data_status _ _ _) as [[] | e]; simpl; [| discriminate].
  destruct (Qle_bool 0.5 q); simpl.
  - destruct (db_insert_current_price (rp_db self) s) as [[|] | e]; simpl;
      try discriminate; intros _; repeat split; discriminate.
  - intros _. repeat split. intros _. right. right. left. reflexivity.
Qed.

Lemma cache_sample_value self s :
  value (cache_sample self s) = Returns tt <->
  returns (cm_cache_realtime_price (rp_cache_manager self) (s_symbol s) (cache_item self s)).
Proof.
  unfold cache_sample, returns.
  destruct (cm_cache_realtime_price _ _ _) as [[|] | e]; simpl.
  - split; eauto.
  - split; eauto.
  - split; [discriminate | intros [a H]; discriminate].
Qed.

Lemma cache_sample_trace self s :
  inserted_samples (trace (cache_sample self s)) = [] /\
  realtime_list_writes (trace (cache_sample self s)) = [] /\
  realtime_item_writes (trace (cache_sample self s)) = [(s_symbol s, cache_item self s)].
Proof.
  unfold cache_sample.
  destruct (cm_cache_realtime_price _ _ _) as [[|] | e]; simpl; repeat split.
Qed.

Lemma flat_map_nil {A B} (f : A -> list B) (xs : list A) :
  (forall x, In x xs -> f x = []) -> flat_map f xs = [].
Proof.
  induction xs as [| x xs IH]; simpl; intros H; [reflexivity |].
  rewrite (H x) by auto. apply IH. auto.
Qed.

Lemma flat_map_flat_map {A B C} (f : A -> list B) (g : B -> list C) (xs : list A) :
  flat_map g (flat_map f xs) = flat_map (fun x => flat_map g (f x)) xs.
Proof.
  induction xs as [| x xs IH]; simpl; [reflexivity |].
  rewrite flat_map_app, IH. reflexivity.
Qed.

Lemma flat_map_filter {A} (p : A -> bool) (xs : list A) :
  flat_map (fun x => if p x then [x] else []) xs = filter p xs.
Proof.
  induction xs as [| x xs IH]; simpl; [reflexivity |].
  rewrite IH. destruct (p x); reflexivity.
Qed.

Lemma flat_map_singleton {A B} (f : A -> B) (xs : list A) :
  flat_map (fun x => [f x]) xs = map f xs.
Proof. induction xs as [| x xs IH]; simpl; [| rewrite IH]; reflexivity. Qed.

Lemma flat_map_ext_In {A B} (f g : A -> list B) (xs : list A) :
  (forall x, In x xs -> f x = g x) -> flat_map f xs = flat_map g xs.
Proof.
  induction xs as [| x xs IH]; simpl; intros H; [reflexivity |].
  rewrite (H x) by auto. rewrite IH by auto. reflexivity.
Qed.

(** The storing loop of the realtime pass, when no call raises. *)
Lemma store_loop_trace self batch :
  value (for_each batch (store_sample self)) = Returns tt ->
  inserted_samples (trace (for_each batch (store_sample self))) = filter (accepted self) batch /\
  realtime_list_writes (trace (for_each batch (store_sample self))) = [] /\
  realtime_item_writes (trace (for_each batch (store_sample self))) = [] /\
  (forall s, In s batch -> accepted self s = false ->
     In (Log WARNING ("quality too low, sample skipped: " ++ s_symbol s)%string)
        (trace (for_each batch (store_sample self)))).
Proof.
  intros H. rewrite (for_each_trace _ _ H).
  pose proof (proj1 (for_each_value _ _) H) as Hall.
  unfold inserted_samples, realtime_list_writes, realtime_item_writes.
  rewrite !flat_map_flat_map. repeat apply conj.
  - rewrite <- flat_map_filter. apply flat_map_ext_In. intros s Hs.
    apply (store_sample_trace self s (Hall s Hs)).
  - apply flat_map_nil. intros s Hs. apply (store_sample_trace self s (Hall s Hs)).
  - apply flat_map_nil. intros s Hs. apply (store_sample_trace self s (Hall s Hs)).
  - intros s Hs Hrej. apply in_flat_map. exists s. split; [exact Hs |].
    apply (store_sample_trace self s (Hall s Hs)). exact Hrej.
Qed.

(** The per-symbol caching loop of the realtime pass. *)
Lemma cache_loop_trace self batch :
  value (for_each batch (cache_sample self)) = Returns tt ->
  inserted_samples (trace (for_each batch (cache_sample self))) = [] /\
  realtime_list_writes (trace (for_each batch (cache_sample self))) = [] /\
  realtime_item_writes (trace (for_each batch (cache_sample self)))
    = map (fun s => (s_symbol s, cache_item self s)) batch.
Proof.
  intros H. rewrite (for_each_trace _ _ H).
  unfold inserted_samples, realtime_list_writes, realtime_item_writes.
  rewrite !flat_map_flat_map. repeat apply conj.
  - apply flat_map_nil. intros s _. apply (cache_sample_trace self s).
  - apply flat_map_nil. intros s _. apply (cache_sample_trace self s).
  - rewrite <- flat_map_singleton. apply flat_map_ext_In. intros s _.
    apply (cache_sample_trace self s).
Qed.

Lemma steps_return_loops self batch :
  steps_return self batch <->
  value (for_each batch (store_sample self)) = Returns tt /\
  returns (cm_cache_realtime_prices (rp_cache_manager self) (map (cache_item self) batch)) /\
  value (for_each batch (cache_sample self)) = Returns tt.
Proof.
  unfold steps_return. rewrite !for_each_value. split.
  - intros [Hs [Hl Hc]]. repeat apply conj; [| exact Hl |].
    + intros s Hin. apply store_sample_value. apply Hs. exact Hin.
    + intros s Hin. apply cache_sample_value. apply Hc. exact Hin.
  - intros [Hs [Hl Hc]]. repeat apply conj; [| exact Hl |].
    + intros s Hin. apply store_sample_value. apply Hs. exact Hin.
    + intros s Hin. apply cache_sample_value. apply Hc. exact Hin.
Qed.

Lemma bind_unfold {A B} (m : M A) (f : A -> M B) :
  bind m f =
  match value m with
  | Returns a => (value (f a), trace m ++ trace (f a))
  | Raises e => (Raises e, trace m)
  end.
Proof.
  destruct m as [[a | e] t]; simpl; [| reflexivity].
  destruct (f a); reflexivity.
Qed.

Lemma outcome_unit_cases (o : outcome unit) : o = Returns tt \/ exists e, o = Raises e.
Proof. destruct o as [[] | e]; eauto. Qed.


(** The trace of storing and caching a batch when no call raises. *)
Lemma store_and_cache_trace self batch :
  steps_return self batch ->
  exists lvl msg,
    trace (store_and_cache self batch) =
    trace (for_each batch (store_sample self))
    ++ [CachePutRealtimePrices (map (cache_item self) batch); Log lvl msg]
    ++ trace (for_each batch (cache_sample self))
    ++ [Log INFO "realtime processing done"].
Proof.
  rewrite steps_return_loops. intros [Hs [[ok Hl] Hc]].
  unfold store_and_cache. rewrite bind_unfold, Hs. cbn [trace snd]. rewrite Hl.
  cbn [call bind].
  destruct (for_each batch (cache_sample self)) as [rc tc] eqn:E.
  cbn [value fst] in Hc. subst rc.
  destruct ok; simpl; eexists _, _; reflexivity.
Qed.

(** Whatever happens, storing and caching a batch inserts only samples of
    the batch that the gate accepts. *)
Lemma store_and_cache_inserts self batch s :
  In (DbInsertCurrentPrice s) (trace (store_and_cache self batch)) ->
  In s batch /\ accepted self s = true.
Proof.
  assert (Hstore : In (DbInsertCurrentPrice s) (trace (for_each batch (store_sample self))) ->
                   In s batch /\ accepted self s = true).
  { intros H. apply for_each_trace_In in H. destruct H as [x [Hx He]].
    apply store_sample_only_accepted in He. destruct He as [-> Ha]. auto. }
  assert (Hcache : ~ In (DbInsertCurrentPrice s) (trace (for_each batch (cache_sample self)))).
  { intros H. apply for_each_trace_In in H. destruct H as [x [_ He]].
    apply inserted_samples_In in He.
    rewrite (proj1 (cache_sample_trace self x)) in He. exact He. }
  unfold store_and_cache. rewrite bind_unfold.
  destruct (value (for_each batch (store_sample self))) as [[] | e]; cbn [trace snd];
    [| exact Hstore].
  intros H. apply in_app_or in H. destruct H as [H | H]; [auto |].
  exfalso. revert H.
  destruct (cm_cache_realtime_prices _ _) as [ok | e]; cbn [call bind].
  2:{ simpl. intros [H | []]; discriminate. }
  destruct (for_each batch (cache_sample self)) as [rc tc].
  cbn [trace snd] in Hcache.
  destruct ok, rc as [[] | e]; simpl; intros H;
    repeat (destruct H as [H | H]; [discriminate |]);
    try (apply in_app_or in H; destruct H as [H | H]);
    try contradiction;
    repeat (destruct H as [H | H]; [discriminate |]); exact H.
Qed.

(** The realtime pass once connected, on a non-empty batch. *)
Lemma realtime_pass_on_batch self batch :
  db_connect (rp_db self) = Returns true ->
  scrape_realtime_crypto_data self = Returns (Some batch) ->
  batch <> [] ->
  exists extra,
    trace (process_and_store_realtime_data self) =
      DbConnect :: ScrapeRealtime :: trace (store_and_cache self batch) ++ extra /\
    (extra = [DbDisconnect] \/
     extra = [Log ERROR "error during realtime processing"; DbDisconnect]) /\
    (returns (db_disconnect (rp_db self)) ->
     value (process_and_store_realtime_data self) =
       match value (store_and_cache self batch) with
       | Returns b => Returns b
       | Raises _ => Returns false
       end).
Proof.
  intros Hc Hf Hne. unfold process_and_store_realtime_data, returns.
  rewrite Hc, Hf. destruct batch as [| s0 rest]; [contradiction |].
  cbn [call bind negb].
  destruct (store_and_cache self (s0 :: rest)) as [[b | e] t]; cbn.
  - destruct (db_disconnect (rp_db self)) as [[] | e']; cbn;
      exists [DbDisconnect]; (split; [reflexivity |]); (split; [left; reflexivity |]);
      [reflexivity | intros [a H]; discriminate].
  - destruct (db_disconnect (rp_db self)) as [[] | e']; cbn;
      exists [Log ERROR "error during realtime processing"; DbDisconnect];
      (split; [rewrite <- app_assoc; reflexivity |]); (split; [right; reflexivity |]);
      [reflexivity | intros [a H]; discriminate].
Qed.

Lemma realtime_list_writes_app t1 t2 :
  realtime_list_writes (t1 ++ t2) = realtime_list_writes t1 ++ realtime_list_writes t2.
Proof. apply flat_map_app. Qed.

Lemma realtime_item_writes_app t1 t2 :
  realtime_item_writes (t1 ++ t2) = realtime_item_writes t1 ++ realtime_item_writes t2.
Proof. apply flat_map_app. Qed.

Lemma demo_steps_return : steps_return demo_processor demo_batch.
Proof.
  repeat apply conj.
  - intros s Hs. repeat apply conj; eexists; reflexivity.
  - eexists; reflexivity.
  - intros s Hs. eexists; reflexivity.
Qed.

(** The realtime pass on a fresh and a stale sample caches both: the claim
    that only the accepted samples reach the cache does not hold. *)
Lemma realtime_cache_counterexample :
  ~ (forall self batch,
       db_connect (rp_db self) = Returns true ->
       scrape_realtime_crypto_data self = Returns (Some batch) ->
       batch <> [] ->
       steps_return self batch ->
       realtime_list_writes (trace (process_and_store_realtime_data self))
       = [map (cache_item self) (filter (accepted self) batch)]).
Proof.
  intros H.
  specialize (H demo_processor demo_batch eq_refl eq_refl
                (fun E => nil_cons (eq_sym E)) demo_steps_return).
  vm_compute in H. discriminate H.
Qed.

(** C2 (amended): once connected and with a non-empty fetched batch, the
    realtime pass hands to the store only samples of the batch whose quality
    score for the 'minute' cadence is at least 0.5; when no call raises it
    hands over exactly those, in order, logs a warning for each rejected
    sample and goes on with the batch, and after the inserts it writes every
    fetched sample, accepted or not, to the realtime-prices cache, as one
    list and then sample by sample. *)
Theorem realtime_pass_gate_and_cache :
  forall (self : RealtimeDataProcessor) (batch : list Sample),
    db_connect (rp_db self) = Returns true ->
    scrape_realtime_crypto_data self = Returns (Some batch) ->
    batch <> [] ->
    let t := trace (process_and_store_realtime_data self) in
    (forall s, In (DbInsertCurrentPrice s) t -> In s batch /\ accepted self s = true) /\
    (steps_return self batch ->
       inserted_samples t = filter (accepted self) batch /\
       (forall s, In s batch -> accepted self s = false ->
          In (Log WARNING ("quality too low, sample skipped: " ++ s_symbol s)%string) t) /\
       realtime_list_writes t = [map (cache_item self) batch] /\
       realtime_item_writes t = map (fun s => (s_symbol s, cache_item self s)) batch /\
       (exists t1 t2,
          t = t1 ++ CachePutRealtimePrices (map (cache_item self) batch) :: t2 /\
          inserted_samples t2 = [])).
Proof.
  intros self batch Hc Hf Hne t.
  destruct (realtime_pass_on_batch self batch Hc Hf Hne) as [extra [Ht [Hextra _]]].
  fold t in Ht.
  assert (Hex : inserted_samples extra = [] /\ realtime_list_writes extra = [] /\
                realtime_item_writes extra = [] /\
                forall s, ~ In (DbInsertCurrentPrice s) extra).
  { destruct Hextra as [-> | ->]; repeat split;
      intros s H; simpl in H; repeat (destruct H as [H | H]; try discriminate); exact H. }
  destruct Hex as [Hex1 [Hex2 [Hex3 Hex4]]].
  split.
  - intros s Hs. rewrite Ht in Hs. simpl in Hs.
    destruct Hs as [Hs | [Hs | Hs]]; try discriminate.
    apply in_app_or in Hs. destruct Hs as [Hs | Hs].
    + apply store_and_cache_inserts in Hs. exact Hs.
    + exfalso. exact (Hex4 s Hs).
  - intros Hsteps.
    destruct (store_and_cache_trace self batch Hsteps) as [lvl [msg Hbody]].
    pose proof (proj1 (steps_return_loops self batch) Hsteps) as [Hs [_ Hcl]].
    destruct (store_loop_trace self batch Hs) as [Hs1 [Hs2 [Hs3 Hs4]]].
    destruct (cache_loop_trace self batch Hcl) as [Hc1 [Hc2 Hc3]].
    rewrite Hbody in Ht.
    repeat apply conj.
    + rewrite Ht. simpl. rewrite !inserted_samples_app, Hs1. simpl.
      rewrite !inserted_samples_app, Hc1, Hex1. simpl. rewrite ?app_nil_r. reflexivity.
    + intros s Hin Hrej. rewrite Ht. right. right.
      apply in_or_app. left. apply in_or_app. left. auto.
    + rewrite Ht. simpl. rewrite !realtime_list_writes_app, Hs2. simpl.
      rewrite !realtime_list_writes_app, Hc2, Hex2. simpl. rewrite ?app_nil_r. reflexivity.
    + rewrite Ht. simpl. rewrite !realtime_item_writes_app, Hs3. simpl.
      rewrite !realtime_item_writes_app, Hc3, Hex3. simpl. rewrite ?app_nil_r. reflexivity.
    + exists (DbConnect :: ScrapeRealtime :: trace (for_each batch (store_sample self))).
      eexists. split.
      * rewrite Ht. simpl. rewrite <- !app_assoc. simpl. reflexivity.
      * simpl. rewrite !inserted_samples_app, Hc1, Hex1. simpl. rewrite ?app_nil_r.
        reflexivity.
Qed.

Lemma realtime_pass_gate_and_cache_witness :
  inserted_samples (trace (process_and_store_realtime_data demo_processor)) = [fresh_sample] /\
  realtime_list_writes (trace (process_and_store_realtime_data demo_processor))
    = [map (cache_item demo_processor) [fresh_sample; stale_sample]].
Proof.
  pose proof (realtime_pass_gate_and_cache demo_processor demo_batch eq_refl eq_refl
                (fun E => nil_cons (eq_sym E))) as [_ H].
  destruct (H demo_steps_return) as [H1 [_ [H2 _]]].
  split; [exact H1 | exact H2].
Defined.

Lemma store_current_value self s :
  value (store_current self s) = Returns tt <->
  returns (db_insert_current_price (dp_db self) s).
Proof.
  unfold store_current, returns.
  destruct (db_insert_current_price (dp_db self) s) as [[|] | e]; simpl.
  - split; eauto.
  - split; eauto.
  - split; [discriminate | intros [a H]; discriminate].
Qed.

Lemma store_historical_value self timeframe r :
  value (store_historical self timeframe r) = Returns tt <->
  returns (db_insert_historical_data (dp_db self) timeframe r).
Proof.
  unfold store_historical, returns.
  destruct (db_insert_historical_data (dp_db self) timeframe r) as [[|] | e]; simpl.
  - split; eauto.
  - split; eauto.
  - split; [discriminate | intros [a H]; discriminate].
Qed.

Lemma store_timeframe_value self timeframe df :
  value (store_timeframe self (timeframe, df)) = Returns tt <->
  (forall r, In r df -> returns (db_insert_historical_data (dp_db self) timeframe r)).
Proof.
  unfold store_timeframe. destruct df as [| r0 df'].
  - simpl. split; [intros _ r [] | reflexivity].
  - rewrite bind_unfold.
    destruct (outcome_unit_cases (value (for_each (r0 :: df') (store_historical self timeframe))))
      as [H | [e H]]; rewrite H; cbn [value fst].
    + split; [| reflexivity]. intros _ r Hr.
      apply store_historical_value. revert r Hr. apply for_each_value. exact H.
    + split; [discriminate |]. intros Hall.
      assert (value (for_each (r0 :: df') (store_historical self timeframe)) = Returns tt) as H'.
      { apply for_each_value. intros r Hr. apply store_historical_value. auto. }
      congruence.
Qed.

(** Storing the fetched data returns [True] exactly when no insert raises,
    and raises otherwise. *)
Lemma store_all_value self current historical :
  (value (store_all self current historical) = Returns true <->
   data_steps_return self current historical) /\
  (value (store_all self current historical) = Returns true \/
   exists e, value (store_all self current historical) = Raises e).
Proof.
  unfold store_all, data_steps_return.
  set (first := match current with
                | Some ((_ :: _) as samples) => for_each samples (store_current self)
                | _ => ret tt
                end).
  assert (Hfirst : value first = Returns tt <->
            forall l s, current = Some l -> In s l ->
                        returns (db_insert_current_price (dp_db self) s)).
  { subst first. destruct current as [[| s0 l'] |].
    - simpl. split; [| reflexivity]. intros _ l s E. inversion E; subst. intros [].
    - rewrite for_each_value. split.
      + intros H l s E Hs. inversion E; subst. apply store_current_value. auto.
      + intros H s Hs. apply store_current_value. eapply H; [reflexivity | exact Hs].
    - simpl. split; [| reflexivity]. intros _ l s E. discriminate. }
  assert (Hsecond : value (for_each historical (store_timeframe self)) = Returns tt <->
            forall tf df r, In (tf, df) historical -> In r df ->
                            returns (db_insert_historical_data (dp_db self) tf r)).
  { rewrite for_each_value. split.
    - intros H tf df r Hin Hr. specialize (H (tf, df) Hin).
      exact (proj1 (store_timeframe_value self tf df) H r Hr).
    - intros H [tf df] Hin. apply store_timeframe_value. intros r Hr. eauto. }
  rewrite bind_unfold.
  destruct (outcome_unit_cases (value first)) as [H1 | [e H1]]; rewrite H1; cbn [value fst].
  2:{ split; [| right; eauto]. split; [discriminate |].
      intros [H _]. apply Hfirst in H. congruence. }
  rewrite bind_unfold.
  destruct (outcome_unit_cases (value (for_each historical (store_timeframe self))))
    as [H2 | [e H2]]; rewrite H2; cbn [value fst].
  2:{ split; [| right; eauto]. split; [discriminate |].
      intros [_ H]. apply Hsecond in H. congruence. }
  split; [| left; reflexivity].
  split; [| reflexivity]. intros _. split; [apply Hfirst | apply Hsecond]; assumption.
Qed.










(** Every insert reports failure and the batch pass still returns [True]. *)
Example rejected_inserts_still_true :
  value (process_and_store_data rejected_inserts_processor) = Returns true /\
  In (Log ERROR "storing the historical row failed: BTC")
     (trace (process_and_store_data rejected_inserts_processor)).
Proof. split; [reflexivity | vm_compute; tauto]. Qed.

(** ** Dispatch loop *)

















(** A tick in which the data collection handler raises: the realtime job,
    due as well, has run and both jobs are due again one period later. *)
Example failing_tick :
  exists tr,
    run_pending 5 failing_world 300 (setup_schedule 0 7200)
    = Finished (map (advance 300) (setup_schedule 0 7200), Returns tt) tr /\
    In (Log ERROR "data collection task raised an exception") tr /\
    runs_of Realtime tr = 1%nat.
Proof. eexists. split; [vm_compute; reflexivity |]. split; [vm_compute; tauto | reflexivity]. Qed.

(** With a realtime handler that terminates, the scheduled run of the data
    collection job takes place. *)
Example flowing_dispatch :
  runs_of DataCollection (events_of (run 40 flowing_env 0 7200)) = 2%nat.
Proof. vm_compute. reflexivity. Qed.

(** ** Further properties of the read path *)

Lemma latest_prices_from_cache_cases self :
  (exists payload, latest_prices_hit self payload /\
                   value (latest_prices_from_cache self) = Returns (Some payload)) \/
  value (latest_prices_from_cache self) = Returns None.
Proof.
  unfold latest_prices_from_cache, latest_prices_hit.
  destruct (redis_manager self) as [rm |]; [| right; reflexivity].
  destruct (cm_get_latest_prices rm) as [[[| p ps] |] | e] eqn:E; simpl; auto.
  left. exists (p :: ps). split; [| reflexivity].
  exists rm. repeat split; [exact E | discriminate].
Qed.

(** X1: [get_latest_prices] never raises: it returns the cached payload
    when the cache answers and what the store yields otherwise; and when the
    cache does not answer and the pool hands out a connection, closing that
    connection is the last thing it does. *)
Theorem get_latest_prices_never_raises :
  forall self : CryptoWebApp,
    ((exists payload, latest_prices_hit self payload /\
                      value (get_latest_prices self) = Returns payload) \/
     value (get_latest_prices self) = Returns (store_prices (db self))) /\
    (forall conn,
       value (latest_prices_from_cache self) = Returns None ->
       db_get_connection (db self) = Returns (Some conn) ->
       ends_with ConnClose (trace (get_latest_prices self))).
Proof.
  intros self. split.
  - destruct (latest_prices_from_cache_cases self) as [[payload [Hhit Hv]] | Hv].
    + left. exists payload. split; [exact Hhit |].
      rewrite (get_latest_prices_hit_spec self payload Hhit). reflexivity.
    + right. apply get_latest_prices_not_hit. exact Hv.
  - intros conn Hv Hc.
    destruct (latest_prices_from_db_releases self conn Hc) as [t' Ht'].
    unfold get_latest_prices. rewrite bind_unfold, Hv. cbn [trace snd].
    rewrite Ht'. exists (trace (latest_prices_from_cache self) ++ t').
    rewrite app_assoc. reflexivity.
Qed.

(** A row without a price stops the conversion loop. *)
Lemma for_collect_null_price conn rows :
  (exists r, In r rows /\ row_price r = None) ->
  exists e, value (for_collect rows (price_view_of_row conn)) = Raises e.
Proof.
  induction rows as [| x rows IH]; intros [r [Hin Hp]]; [destruct Hin |].
  simpl. destruct (row_price x) as [p |] eqn:Hx.
  - destruct (price_view_of_row_returns conn x p Hx) as [v [Hv _]].
    destruct (price_view_of_row conn x) as [[v' | e] t]; simpl in Hv; [| discriminate].
    destruct Hin as [-> | Hin]; [congruence |].
    destruct IH as [e He]; [eauto |].
    destruct (for_collect rows (price_view_of_row conn)) as [[l | e'] t'];
      simpl in He; [discriminate |]. simpl. eauto.
  - unfold price_view_of_row. rewrite Hx. simpl. eauto.
Qed.

(** X2: one stored row with a NULL price empties the whole answer of the
    database path of [get_latest_prices]: the [TypeError] of [float(None)]
    is caught by the outer [except], the rows already converted are
    dropped, the empty list is returned and nothing is written to the
    cache. *)
Theorem null_price_discards_all_rows :
  forall (self : CryptoWebApp) (conn : Connection) (rows : list PriceRow),
    db_get_connection (db self) = Returns (Some conn) ->
    db_get_latest_prices (db self) conn = Returns (Some rows) ->
    (exists r, In r rows /\ row_price r = None) ->
    value (latest_prices_from_db self) = Returns [] /\
    cache_writes (trace (latest_prices_from_db self)) = [] /\
    ends_with ConnClose (trace (latest_prices_from_db self)).
Proof.
  intros self conn rows Hc Hr Hnull.
  destruct (latest_prices_from_db_spec self) as [Hv Hw].
  assert (Hs : store_prices (db self) = []).
  { unfold store_prices. rewrite Hc, Hr.
    destruct (for_collect_null_price conn rows Hnull) as [e ->]. reflexivity. }
  rewrite Hs in *. repeat apply conj.
  - exact Hv.
  - unfold cache_writes. rewrite Hw. destruct (redis_manager self); reflexivity.
  - apply (latest_prices_from_db_releases self conn Hc).
Qed.

Lemma null_price_discards_all_rows_witness :
  value (latest_prices_from_db null_price_app) = Returns [] /\
  cache_writes (trace (latest_prices_from_db null_price_app)) = [].
Proof.
  pose proof (null_price_discards_all_rows null_price_app demo_connection
                rows_with_null_price eq_refl eq_refl) as H.
  destruct H as [H1 [H2 _]].
  - eexists. split; [right; right; left; reflexivity | reflexivity].
  - split; [exact H1 | exact H2].
Defined.

Lemma chart_data_from_cache_cases self timeframe symbol :
  (exists sym payload, truthy_symbol symbol = Some sym /\
      chart_hit self sym timeframe payload /\
      chart_data_from_cache self timeframe symbol =
        (Returns (Some payload),
         [CacheGetChart sym timeframe; Log INFO "chart data served from the cache"])) \/
  chart_not_served self timeframe symbol.
Proof.
  unfold chart_not_served, chart_hit. unfold chart_data_from_cache.
  destruct (redis_manager self) as [rm |]; [| right; reflexivity].
  destruct (truthy_symbol symbol) as [sym |]; [| right; reflexivity].
  destruct (cm_get_chart_data rm sym timeframe) as [[[| p ps] |] | e] eqn:E; simpl; auto.
  left. exists sym, (p :: ps). split; [reflexivity |]. split; [| reflexivity].
  exists rm. repeat split; [exact E | discriminate].
Qed.

Lemma truthy_symbol_Some symbol sym :
  truthy_symbol symbol = Some sym -> symbol = Some sym /\ sym <> "".
Proof.
  destruct symbol as [[| a s] |]; simpl; intros H; inversion H; subst.
  split; [reflexivity | discriminate].
Qed.

Lemma chart_data_from_db_no_symbol self timeframe symbol :
  truthy_symbol symbol = None ->
  chart_data_from_db self timeframe symbol =
    (Returns [], [Log WARNING "no symbol given, cannot read chart data"]).
Proof. intros H. unfold chart_data_from_db. rewrite H. reflexivity. Qed.

(** X3: [get_chart_data] never raises, whatever the cache and the store do;
    called without a symbol (or with an empty one) it returns the empty
    list and touches neither the cache nor the store. *)
Theorem get_chart_data_never_raises :
  forall (self : CryptoWebApp) (timeframe : string) (symbol : option string) (limit : Z),
    (exists l, value (get_chart_data self timeframe symbol limit) = Returns l) /\
    (truthy_symbol symbol = None ->
       get_chart_data self timeframe symbol limit =
         (Returns [], [Log WARNING "no symbol given, cannot read chart data"])).
Proof.
  intros self timeframe symbol limit. split.
  - unfold get_chart_data. rewrite bind_unfold.
    destruct (chart_data_from_cache_cases self timeframe symbol)
      as [[sym [payload [_ [_ ->]]]] | Hmiss].
    + cbn. eauto.
    + unfold chart_not_served in Hmiss. rewrite Hmiss. cbn [value fst].
      destruct (truthy_symbol symbol) as [sym |] eqn:Hs.
      * apply truthy_symbol_Some in Hs. destruct Hs as [-> Hne].
        rewrite (proj1 (chart_data_from_db_spec self timeframe sym Hne)). eauto.
      * rewrite (chart_data_from_db_no_symbol self timeframe symbol Hs). cbn. eauto.
  - intros Hs. unfold get_chart_data, chart_data_from_cache. rewrite Hs.
    destruct (redis_manager self); cbn;
      rewrite (chart_data_from_db_no_symbol self timeframe symbol Hs); reflexivity.
Qed.

(** X4: the [limit] argument of [get_chart_data] is never applied: when the
    cache does not answer, the result has one point per row the store
    returns, in the order of the store, however small the limit. *)
Theorem get_chart_data_ignores_limit :
  forall (self : CryptoWebApp) (timeframe sym : string) (limit : Z) (rows : list ChartRow),
    sym <> "" ->
    chart_not_served self timeframe (Some sym) ->
    db_connect (db self) = Returns true ->
    db_get_chart_data (db self) sym timeframe = Returns (Some rows) ->
    returns (db_disconnect (db self)) ->
    value (get_chart_data self timeframe (Some sym) limit)
      = Returns (map (chart_point_of_row sym) rows).
Proof.
  intros self timeframe sym limit rows Hne Hmiss Hc Hq [u Hd].
  unfold get_chart_data. rewrite bind_unfold.
  unfold chart_not_served in Hmiss. rewrite Hmiss. cbn [value fst].
  rewrite (proj1 (chart_data_from_db_spec self timeframe sym Hne)).
  unfold store_chart. rewrite Hc, Hq, Hd. reflexivity.
Qed.

Lemma get_chart_data_ignores_limit_witness :
  value (get_chart_data chart_app "hour" (Some "BTC") 1)
    = Returns (map (chart_point_of_row "BTC") demo_chart_rows) /\
  List.length (map (chart_point_of_row "BTC") demo_chart_rows) = 3%nat.
Proof.
  split; [| reflexivity].
  apply (get_chart_data_ignores_limit chart_app "hour" "BTC" 1 demo_chart_rows).
  - discriminate.
  - reflexivity.
  - reflexivity.
  - reflexivity.
  - exists tt. reflexivity.
Defined.

(** ** Further properties of the ingestion passes *)

Lemma inserted_rows_app t1 t2 :
  inserted_rows (t1 ++ t2) = inserted_rows t1 ++ inserted_rows t2.
Proof. apply flat_map_app. Qed.

Lemma store_current_trace self s :
  inserted_samples (trace (store_current self s)) = [s] /\
  inserted_rows (trace (store_current self s)) = [].
Proof.
  unfold store_current.
  destruct (db_insert_current_price (dp_db self) s) as [[|] | e]; split; reflexivity.
Qed.

Lemma store_historical_trace self timeframe r :
  inserted_samples (trace (store_historical self timeframe r)) = [] /\
  inserted_rows (trace (store_historical self timeframe r)) = [(timeframe, r)].
Proof.
  unfold store_historical.
  destruct (db_insert_historical_data (dp_db self) timeframe r) as [[|] | e];
    split; reflexivity.
Qed.

Lemma store_timeframe_trace self timeframe df :
  value (store_timeframe self (timeframe, df)) = Returns tt ->
  inserted_samples (trace (store_timeframe self (timeframe, df))) = [] /\
  inserted_rows (trace (store_timeframe self (timeframe, df))) = map (pair timeframe) df.
Proof.
  unfold store_timeframe. destruct df as [| r0 df']; [split; reflexivity |].
  rewrite bind_unfold.
  destruct (outcome_unit_cases (value (for_each (r0 :: df') (store_historical self timeframe))))
    as [H | [e H]]; rewrite H; cbn [value fst trace snd]; [| discriminate].
  intros _. rewrite inserted_samples_app, inserted_rows_app.
  rewrite (for_each_trace _ _ H).
  unfold inserted_samples at 1, inserted_rows at 1. rewrite !flat_map_flat_map.
  split.
  - rewrite flat_map_nil; [reflexivity |].
    intros r _. apply (store_historical_trace self timeframe r).
  - rewrite (flat_map_ext_In _ (fun r => [(timeframe, r)])).
    + rewrite flat_map_singleton. simpl. rewrite app_nil_r. reflexivity.
    + intros r _. apply (store_historical_trace self timeframe r).
Qed.

(** What storing the fetched data hands to the store when no insert
    raises. *)
Lemma store_all_trace self current historical :
  data_steps_return self current historical ->
  inserted_samples (trace (store_all self current historical))
    = match current with Some l => l | None => [] end /\
  inserted_rows (trace (store_all self current historical))
    = flat_map (fun entry => map (pair (fst entry)) (snd entry)) historical /\
  exists t1 t2,
    trace (store_all self current historical) = t1 ++ t2 /\
    inserted_rows t1 = [] /\ inserted_samples t2 = [].
Proof.
  intros [Hcur Hhist]. unfold store_all.
  set (first := match current with
                | Some ((_ :: _) as samples) => for_each samples (store_current self)
                | _ => ret tt
                end).
  assert (Hfirst : value first = Returns tt /\
                   inserted_samples (trace first) = match current with Some l => l | None => [] end /\
                   inserted_rows (trace first) = []).
  { subst first. destruct current as [[| s0 l'] |]; try (repeat split; reflexivity).
    assert (Hv : value (for_each (s0 :: l') (store_current self)) = Returns tt).
    { apply for_each_value. intros s Hs. apply store_current_value.
      eapply Hcur; [reflexivity | exact Hs]. }
    split; [exact Hv |]. rewrite (for_each_trace _ _ Hv).
    unfold inserted_samples, inserted_rows. rewrite !flat_map_flat_map. split.
    - rewrite (flat_map_ext_In _ (fun s => [s])).
      + rewrite flat_map_singleton. apply map_id.
      + intros s _. apply (store_current_trace self s).
    - apply flat_map_nil. intros s _. apply (store_current_trace self s). }
  destruct Hfirst as [Hv1 [Hs1 Hr1]].
  assert (Hv2 : value (for_each historical (store_timeframe self)) = Returns tt).
  { apply for_each_value. intros [tf df] Hin. apply store_timeframe_value.
    intros r Hr. eapply Hhist; eassumption. }
  assert (Hsecond : inserted_samples (trace (for_each historical (store_timeframe self))) = [] /\
                    inserted_rows (trace (for_each historical (store_timeframe self)))
                    = flat_map (fun entry => map (pair (fst entry)) (snd entry)) historical).
  { rewrite (for_each_trace _ _ Hv2).
    pose proof (proj1 (for_each_value _ _) Hv2) as Hall.
    unfold inserted_samples, inserted_rows. rewrite !flat_map_flat_map. split.
    - apply flat_map_nil. intros [tf df] Hin.
      apply (store_timeframe_trace self tf df (Hall _ Hin)).
    - apply flat_map_ext_In. intros [tf df] Hin.
      apply (store_timeframe_trace self tf df (Hall _ Hin)). }
  destruct Hsecond as [Hs2 Hr2].
  rewrite bind_unfold, Hv1. cbn [trace snd]. rewrite bind_unfold, Hv2. cbn [trace snd].
  cbn [log emit bind ret trace snd app].
  repeat apply conj.
  - rewrite !inserted_samples_app, Hs1, Hs2. simpl. rewrite app_nil_r. reflexivity.
  - rewrite !inserted_rows_app, Hr1, Hr2. simpl. rewrite app_nil_r. reflexivity.
  - exists (trace first). eexists. split; [reflexivity |]. split; [exact Hr1 |].
    rewrite inserted_samples_app, Hs2. reflexivity.
Qed.

(** X5: the batch pass has no quality gate: once connected, when the
    acquisition returns and no insert raises, it hands every fetched current
    sample to the store, in order, and then every row of every historical
    frame with the timeframe of its frame, in the order of the frames. *)
Theorem batch_pass_stores_everything :
  forall (self : DataProcessor) (current : option (list Sample))
         (historical : list (string * list HistRow)),
    db_connect (dp_db self) = Returns true ->
    scrape_all_crypto_data self = Returns (current, historical) ->
    data_steps_return self current historical ->
    let t := trace (process_and_store_data self) in
    inserted_samples t = match current with Some l => l | None => [] end /\
    inserted_rows t = flat_map (fun entry => map (pair (fst entry)) (snd entry)) historical /\
    exists t1 t2, t = t1 ++ t2 /\ inserted_rows t1 = [] /\ inserted_samples t2 = [].
Proof.
  intros self current historical Hc Hf Hsteps t.
  destruct (store_all_trace self current historical Hsteps)
    as [Hs [Hr [t1 [t2 [Ht [Hr1 Hs2]]]]]].
  assert (Hv : value (store_all self current historical) = Returns true)
    by (apply (proj1 (store_all_value self current historical)); exact Hsteps).
  assert (Htrace : t = DbConnect :: ScrapeAll ::
                       trace (store_all self current historical) ++ [DbDisconnect]).
  { subst t. unfold process_and_store_data. rewrite Hc, Hf. cbn [call bind negb].
    destruct (store_all self current historical) as [r ts]. simpl in Hv. subst r.
    destruct (db_disconnect (dp_db self)) as [[] | e]; reflexivity. }
  rewrite Htrace. repeat apply conj.
  - simpl. rewrite inserted_samples_app, Hs. simpl. apply app_nil_r.
  - simpl. rewrite inserted_rows_app, Hr. simpl. apply app_nil_r.
  - exists (DbConnect :: ScrapeAll :: t1), (t2 ++ [DbDisconnect]).
    rewrite Ht. repeat apply conj.
    + simpl. rewrite <- app_assoc. reflexivity.
    + simpl. exact Hr1.
    + rewrite inserted_samples_app, Hs2. reflexivity.
Qed.

Lemma batch_pass_stores_everything_witness :
  inserted_samples (trace (process_and_store_data accepting_processor))
    = [fresh_sample; stale_sample] /\
  inserted_rows (trace (process_and_store_data accepting_processor))
    = [("hour", demo_hist_row); ("hour", demo_hist_row)].
Proof.
  assert (Hsteps : data_steps_return accepting_processor (Some demo_batch)
                     [("minute", []); ("hour", [demo_hist_row; demo_hist_row])]).
  { split; intros; eexists; reflexivity. }
  destruct (batch_pass_stores_everything accepting_processor _ _ eq_refl eq_refl Hsteps)
    as [H1 [H2 _]].
  split; [exact H1 | exact H2].
Defined.

(** ** Further properties of the chart curves *)

(** Inserting keeps, for every key, the order of the items of that key. *)
Lemma insert_by_with_key {A} (key : A -> Z) k x (l : list A) :
  with_key key k (insert_by key x l) = with_key key k (x :: l).
Proof.
  induction l as [| y l IH]; [reflexivity |].
  simpl. destruct (Z.leb_spec (key x) (key y)) as [Hle | Hlt]; [reflexivity |].
  unfold with_key in *. simpl in *. rewrite IH.
  destruct (Z.eqb_spec (key x) k) as [Hx | Hx], (Z.eqb_spec (key y) k) as [Hy | Hy];
    try reflexivity. lia.
Qed.

Lemma sort_by_with_key {A} (key : A -> Z) k (l : list A) :
  with_key key k (sort_by key l) = with_key key k l.
Proof.
  induction l as [| x l IH]; [reflexivity |].
  simpl. rewrite insert_by_with_key. unfold with_key in *. simpl. rewrite IH. reflexivity.
Qed.

(** The price and volume curves are the sorted matching items. *)
Lemma process_chart_data_lists pow_half data symbol :
  price_data (process_chart_data pow_half data symbol)
    = map price_point
        (sort_by cp_date (filter (fun item => (cp_symbol item =? symbol)%string) data)) /\
  volume_data (process_chart_data pow_half data symbol)
    = map volume_point
        (sort_by cp_date (filter (fun item => (cp_symbol item =? symbol)%string) data)).
Proof.
  rewrite process_chart_data_unfold.
  destruct (filter (fun item => (cp_symbol item =? symbol)%string) data) as [| m ms];
    [split; reflexivity |].
  cbv zeta. rewrite fold_chart_step. cbn [price_data volume_data empty_curves app].
  unfold enumerate. split.
  - rewrite <- (map_map snd price_point). rewrite enumerate_from_snd. reflexivity.
  - rewrite <- (map_map snd volume_point). rewrite enumerate_from_snd. reflexivity.
Qed.

Lemma filter_map_comm {A B} (f : A -> B) (p : B -> bool) (l : list A) :
  filter p (map f l) = map f (filter (fun x => p (f x)) l).
Proof.
  induction l as [| x l IH]; simpl; [reflexivity |].
  rewrite IH. destruct (p (f x)); reflexivity.
Qed.

(** X6: the sort of [process_chart_data] is stable: the price entries (and
    the volume entries) that share a date appear in the order in which their
    items came in the input. *)
Theorem process_chart_data_stable :
  forall (pow_half : Q -> Q) (data : list ChartPoint) (symbol : string) (date : Z),
    let matching := filter (fun item => (cp_symbol item =? symbol)%string) data in
    let curves := process_chart_data pow_half data symbol in
    filter (fun p => (pp_date p =? date)%Z) (price_data curves)
      = map price_point (with_key cp_date date matching) /\
    filter (fun v => (vp_date v =? date)%Z) (volume_data curves)
      = map volume_point (with_key cp_date date matching).
Proof.
  intros pow_half data symbol date matching curves.
  destruct (process_chart_data_lists pow_half data symbol) as [Hp Hv].
  subst curves. rewrite Hp, Hv. fold matching.
  rewrite !filter_map_comm. cbn [price_point volume_point pp_date vp_date].
  split.
  - change (filter (fun x => (cp_date x =? date)%Z) (sort_by cp_date matching))
      with (with_key cp_date date (sort_by cp_date matching)).
    rewrite sort_by_with_key. reflexivity.
  - change (filter (fun x => (cp_date x =? date)%Z) (sort_by cp_date matching))
      with (with_key cp_date date (sort_by cp_date matching)).
    rewrite sort_by_with_key. reflexivity.
Qed.

(** ** Further properties of the realtime reads *)










(** ** The serving layer *)

Lemma sbind_unfold {A B} (m : SM A) (f : A -> SM B) :
  sbind m f =
  match svalue m with
  | Returns a => (svalue (f a), strace m ++ strace (f a))
  | Raises e => (Raises e, strace m)
  end.
Proof.
  destruct m as [[a | e] t]; simpl; [| reflexivity].
  destruct (f a); reflexivity.
Qed.

Lemma lift_value {A} (m : M A) : svalue (lift m) = value m.
Proof. reflexivity. Qed.

Lemma lift_trace {A} (m : M A) : strace (lift m) = map Core (trace m).
Proof. reflexivity. Qed.

Lemma core_events_map_Core t : core_events (map Core t) = t.
Proof.
  unfold core_events. induction t as [| e t IH]; simpl; [| rewrite IH]; reflexivity.
Qed.

Lemma core_events_app t1 t2 : core_events (t1 ++ t2) = core_events t1 ++ core_events t2.
Proof. apply flat_map_app. Qed.

Lemma get_latest_prices_returns self : exists l, value (get_latest_prices self) = Returns l.
Proof.
  destruct (latest_prices_from_cache_cases self) as [[payload [Hhit _]] | Hv].
  - exists payload. rewrite (get_latest_prices_hit_spec self payload Hhit). reflexivity.
  - eexists. apply get_latest_prices_not_hit. exact Hv.
Qed.

Lemma get_chart_data_returns self timeframe symbol limit :
  exists l, value (get_chart_data self timeframe symbol limit) = Returns l.
Proof.
  unfold get_chart_data. rewrite bind_unfold.
  destruct (chart_data_from_cache_cases self timeframe symbol)
    as [[sym [payload [_ [_ ->]]]] | Hmiss].
  - cbn. eauto.
  - unfold chart_not_served in Hmiss. rewrite Hmiss. cbn [value fst].
    destruct (truthy_symbol symbol) as [sym |] eqn:Hs.
    + apply truthy_symbol_Some in Hs. destruct Hs as [-> Hne].
      rewrite (proj1 (chart_data_from_db_spec self timeframe sym Hne)). eauto.
    + rewrite (chart_data_from_db_no_symbol self timeframe symbol Hs). cbn. eauto.
Qed.

Ltac answer_cases :=
  repeat apply conj;
  try (left; reflexivity); try (right; reflexivity);
  intros;
  repeat match goal with
         | H : _ /\ _ |- _ => destruct H
         | H : _ \/ _ |- _ => destruct H
         | H : exists _, _ |- _ => destruct H
         | H : Returns _ = Returns _ |- _ => inversion H; clear H; subst
         | H : Some _ = Some _ |- _ => inversion H; clear H; subst
         end;
  try discriminate; try congruence;
  try (split; reflexivity);
  try (match goal with
       | H : forall b e, _ <> _ |- _ => exfalso; eapply H; reflexivity
       end);
  eauto 8.

(** X9: [api_latest_prices] never raises and answers 200 or 500. It answers
    500 exactly when there is a cache manager and one of the two per-symbol
    cache reads raises, and then without asking the read path; so a cache
    outage that [get_latest_prices] would absorb fails the request. When
    both symbols are cached it answers with that pair and touches nothing
    else; in every other case the data is what [get_latest_prices]
    returns. *)
Theorem api_latest_prices_answers :
  forall srv : Server,
  exists r,
    svalue (api_latest_prices srv) = Returns r /\
    (resp_status r = 200 \/ resp_status r = 500)%Z /\
    (resp_status r = 500%Z <->
       (exists rm, redis_manager (srv_app srv) = Some rm) /\
       ((exists e, srv_get_price srv "BTC" = Raises e) \/
        (returns (srv_get_price srv "BTC") /\ exists e, srv_get_price srv "ETH" = Raises e))) /\
    (resp_status r = 500%Z ->
       core_events (strace (api_latest_prices srv))
       = [Log ERROR "reading the latest prices failed"]) /\
    (forall rm b e,
       redis_manager (srv_app srv) = Some rm ->
       srv_get_price srv "BTC" = Returns (Some b) ->
       srv_get_price srv "ETH" = Returns (Some e) ->
       r = mkResponse 200 (ApiSuccess (CachedPair b e)) /\
       core_events (strace (api_latest_prices srv)) = []) /\
    (resp_status r = 200%Z ->
       (forall b e, resp_body r <> ApiSuccess (CachedPair b e)) ->
       exists l, value (get_latest_prices (srv_app srv)) = Returns l /\
                 resp_body r = ApiSuccess (Listed l)).
Proof.
  intros srv. unfold api_latest_prices, returns.
  destruct (get_latest_prices_returns (srv_app srv)) as [l Hl].
  destruct (get_latest_prices (srv_app srv)) as [rl tl] eqn:Hg. simpl in Hl. subst rl.
  destruct (redis_manager (srv_app srv)) as [rm |].
  - destruct (srv_get_price srv "BTC") as [[b |] | e1];
      destruct (srv_get_price srv "ETH") as [[e |] | e2]; cbn;
      eexists; (split; [reflexivity |]); cbn;
      rewrite ?app_nil_r, ?core_events_map_Core;
      fold (core_events (map Core tl)); rewrite ?core_events_map_Core;
      answer_cases.
  - cbn. eexists. split; [reflexivity |]. cbn. answer_cases.
Qed.

(** ** Handlers of the cache *)

Lemma clear_cache_outcomes self cache_type :
  (exists msg,
     clear_cache self cache_type =
       (Returns {| success := false; cleared_keys := None; message := msg |}, []) /\
     (redis_manager self = None \/ equals cache_type "all" || is_none cache_type = false)) \/
  (exists rm,
     redis_manager self = Some rm /\
     equals cache_type "all" || is_none cache_type = true /\
     ((exists v,
         cm_clear_all_cache rm = Returns v /\ truthy v = true /\
         clear_cache self cache_type =
           (Returns {| success := true; cleared_keys := None;
                       message := "the whole cache was cleared" |}, [CacheClearAll])) \/
      (exists msg t,
         clear_cache self cache_type =
           (Returns {| success := false; cleared_keys := None; message := msg |},
            CacheClearAll :: t)))).
Proof.
  rewrite clear_cache_is_second. unfold clear_cache_second.
  destruct (redis_manager self) as [rm |]; [| left; eexists; split; [reflexivity | auto]].
  destruct (equals cache_type "all" || is_none cache_type) eqn:Hscope;
    [| left; eexists; split; [reflexivity | auto]].
  right. exists rm. split; [reflexivity |]. split; [reflexivity |].
  destruct (cm_clear_all_cache rm) as [v | e]; cbn.
  - destruct (truthy v) eqn:Hv; cbn.
    + left. exists v. auto.
    + right. eexists. eexists. reflexivity.
  - right. eexists. eexists. reflexivity.
Qed.

Lemma scope_all_or_absent cache_type :
  equals cache_type "all" || is_none cache_type = true ->
  cache_type = Some "all" \/ cache_type = None.
Proof.
  destruct cache_type as [t |]; [| auto].
  simpl. rewrite orb_false_r. intros H. apply String.eqb_eq in H. subst. auto.
Qed.


(** X11: a request to [api_clear_cache] that names a type other than
    ['all'] -- ['prices'] and ['charts'] included -- is answered 400 with a
    result that reports no success, and neither the cache nor the log is
    touched. *)
Theorem api_clear_cache_refuses_scope :
  forall (srv : Server) (request : Request) (d : list (string * string)) (t : string),
    req_json request = Returns (Some d) ->
    dict_get d "type" = Some t ->
    t <> "all" ->
    exists r,
      svalue (api_clear_cache srv request) = Returns r /\
      resp_status r = 400%Z /\
      success (resp_body r) = false /\
      strace (api_clear_cache srv request) = [RequestJson].
Proof.
  intros srv request d t Hj Ht Hne. unfold api_clear_cache. rewrite Hj.
  destruct d as [| p d]; [discriminate Ht |]. unfold scall. cbn [sbind]. rewrite Ht.
  destruct (clear_cache_outcomes (srv_app srv) (Some t))
    as [[msg [Hc _]] | [rm [_ [Hscope _]]]].
  - rewrite Hc. cbn. eexists. repeat split.
  - apply scope_all_or_absent in Hscope. destruct Hscope as [H | H]; [| discriminate H].
    inversion H. contradiction.
Qed.

Lemma api_clear_cache_refuses_scope_witness :
  exists r,
    svalue (api_clear_cache (server_of counting_app) (scope_request "prices")) = Returns r /\
    resp_status r = 400%Z /\
    success (resp_body r) = false /\
    strace (api_clear_cache (server_of counting_app) (scope_request "prices")) = [RequestJson].
Proof.
  apply (api_clear_cache_refuses_scope (server_of counting_app) (scope_request "prices")
           [("type", "prices")] "prices").
  - reflexivity.
  - reflexivity.
  - discriminate.
Defined.

Lemma get_cache_stats_is_second srv : get_cache_stats srv = get_cache_stats_second srv.
Proof. reflexivity. Qed.

(** X12: the [get_cache_stats] in effect is the second definition of the
    class: it never raises and never answers with the statuses ['disabled']
    and ['active'] of the first. It answers ['success'] exactly when there
    is a cache manager whose [get_cache_stats] returns, with what that
    returns. [api_cache_stats] therefore always answers 200, also when the
    statistics could not be read; its own handler of exceptions is never
    entered. *)
Theorem api_cache_stats_answers :
  forall srv : Server,
  exists a,
    svalue (get_cache_stats srv) = Returns a /\
    api_cache_stats srv = (Returns (mkResponse 200 a), strace (get_cache_stats srv)) /\
    (forall m, a <> StatsDisabled m) /\
    (forall s, a <> StatsActive s) /\
    (forall s, a = StatsSuccess s <->
               (exists rm, redis_manager (srv_app srv) = Some rm) /\
               srv_get_cache_stats srv = Returns s) /\
    (redis_manager (srv_app srv) = None -> strace (api_cache_stats srv) = []).
Proof.
  intros srv. unfold api_cache_stats. rewrite get_cache_stats_is_second.
  unfold get_cache_stats_second.
  destruct (redis_manager (srv_app srv)) as [rm |].
  - destruct (srv_get_cache_stats srv) as [s | e]; cbn;
      eexists; (split; [reflexivity |]); (split; [reflexivity |]);
      (split; [intros m H; discriminate H |]);
      (split; [intros s' H; discriminate H |]);
      (split; [| intros H; discriminate H]); intros s'; split.
    + intros H. inversion H; subst. split; [eauto | reflexivity].
    + intros [_ H]. inversion H; subst. reflexivity.
    + intros H. discriminate H.
    + intros [_ H]. discriminate H.
  - cbn. eexists. split; [reflexivity |]. split; [reflexivity |].
    split; [intros m H; discriminate H |].
    split; [intros s' H; discriminate H |].
    split; [| reflexivity]. intros s'. split.
    + intros H. discriminate H.
    + intros [[rm H] _]. discriminate H.
Qed.

(** ** Handlers of the store *)

Ltac query_cases :=
  cbn; eexists; (split; [reflexivity |]); cbn;
  repeat apply conj;
  try (left; reflexivity); try (right; reflexivity);
  intros;
  repeat match goal with
         | H : _ /\ _ |- _ => destruct H
         | H : _ \/ _ |- _ => destruct H
         | H : exists _, _ |- _ => destruct H
         | H : Returns _ = Returns _ |- _ => inversion H; clear H; subst
         end;
  try contradiction; try discriminate; try congruence; try reflexivity;
  try match goal with
      | Hl : forall l msg, _ <> Core (Log l msg), H : Core (Log _ _) = _ |- _ =>
          exfalso; apply (Hl _ _); symmetry; exact H
      end;
  eauto 8.

Lemma guarded_query_answers (store : Database) (q : outcome QueryResult)
    (query : call_event) (empty : query_data) (failed : string) :
  query <> Core DbConnect -> query <> Core DbDisconnect ->
  (forall l msg, query <> Core (Log l msg)) ->
  answers_query store q query empty
    (s_try_except
       (sbind (scall (Core DbConnect) (db_connect store)) (fun connected : bool =>
          if connected then
            sbind (scall query q) (fun x =>
              sbind (scall (Core DbDisconnect) (db_disconnect store)) (fun _ =>
                sret (mkResponse 200
                        (ApiSuccess (if qr_truthy x then Given x else empty)))))
          else sret (mkResponse 500 (ApiFailure "database connection failed"))))
       (fun e => sbind (slog ERROR failed) (fun _ => sret (mkResponse 500 (ApiFailure e))))).
Proof.
  intros Hc Hd Hl. unfold answers_query, returns.
  destruct (db_connect store) as [[|] | e1];
    [destruct q as [x | e2]; [destruct (db_disconnect store) as [[] | e3] |] | |];
    query_cases.
Qed.

(** X13: [api_price_history], [api_kline_chart] and [api_analysis] never
    raise and answer 200 or 500. Each answers 200 exactly when the store
    connects, its query returns and the store disconnects; the data is then
    the result of the query, or an empty list (an empty object for the
    analysis) when that result is false. The query runs exactly when
    [connect] returns true, and the connection is closed exactly when the
    query returns: a query that raises leaves the connection open. *)
Theorem query_handlers_answer :
  forall (srv : Server) (request : Request),
    let store := db (srv_app srv) in
    let args := req_args request in
    answers_query store
      (srv_get_price_history srv (dict_get_default args "crypto" "BTC")
                                 (dict_get_default args "timeframe" "24h"))
      (DbPriceHistory (dict_get_default args "crypto" "BTC")
                      (dict_get_default args "timeframe" "24h"))
      EmptyList (api_price_history srv request) /\
    answers_query store
      (srv_get_kline_data srv (dict_get_default args "symbol" "BTC")
                              (dict_get_default args "timeframe" "hour"))
      (DbKlineData (dict_get_default args "symbol" "BTC")
                   (dict_get_default args "timeframe" "hour"))
      EmptyList (api_kline_chart srv request) /\
    answers_query store (srv_get_analysis_data srv) DbAnalysisData
      EmptyDict (api_analysis srv).
Proof.
  intros srv request store args.
  split; [| split]; apply guarded_query_answers; intros; discriminate.
Qed.

(** ** Handlers of the chart data *)

Lemma parse_limit_cases srv request :
  (exists n t, parse_limit srv request = (Returns n, t) /\ core_events t = []) \/
  (exists text e,
     dict_get (req_args request) "limit" = Some text /\ srv_int srv text = Raises e /\
     parse_limit srv request = (Raises e, [ParseLimit])).
Proof.
  unfold parse_limit.
  destruct (dict_get (req_args request) "limit") as [text |].
  - destruct (srv_int srv text) as [n | e] eqn:E.
    + left. exists n, [ParseLimit]. split; reflexivity.
    + right. exists text, e. split; [reflexivity | split; [exact E | reflexivity]].
  - left. exists 100%Z, []. auto.
Qed.

Lemma parse_limit_raises srv request e t :
  parse_limit srv request = (Raises e, t) ->
  exists text, dict_get (req_args request) "limit" = Some text /\ srv_int srv text = Raises e.
Proof.
  unfold parse_limit.
  destruct (dict_get (req_args request) "limit") as [text |]; [| discriminate].
  unfold scall. intros H. inversion H. eauto.
Qed.

Lemma get_chart_data_no_symbol self timeframe symbol limit :
  truthy_symbol symbol = None ->
  get_chart_data self timeframe symbol limit =
    (Returns [], [Log WARNING "no symbol given, cannot read chart data"]).
Proof.
  intros Hs. unfold get_chart_data, chart_data_from_cache. rewrite Hs.
  destruct (redis_manager self); cbn;
    rewrite (chart_data_from_db_no_symbol self timeframe symbol Hs); reflexivity.
Qed.

(** X14: [api_chart_data] never raises and answers 200 or 500. It answers
    500 exactly when the request has a [limit] that [int] refuses, and then
    neither the cache nor the store is asked. Otherwise the data and the
    reads are those of [get_chart_data] for the time frame and the symbol of
    the request, the same for every limit: the limit of a request can fail
    it and cannot shorten its answer. A request without a symbol is
    answered 200 with no data. *)
Theorem api_chart_data_answers :
  forall (srv : Server) (request : Request),
    let timeframe := dict_get_default (req_args request) "timeframe" "hour" in
    let symbol := dict_get (req_args request) "symbol" in
    exists r,
      svalue (api_chart_data srv request) = Returns r /\
      (resp_status r = 200 \/ resp_status r = 500)%Z /\
      (resp_status r = 500%Z <->
         exists text e, dict_get (req_args request) "limit" = Some text /\
                        srv_int srv text = Raises e) /\
      (resp_status r = 500%Z ->
         strace (api_chart_data srv request)
         = [ParseLimit; Core (Log ERROR "API: reading the chart data failed")]) /\
      (resp_status r = 200%Z ->
         exists l, resp_body r = ApiSuccess l /\
           forall limit,
             get_chart_data (srv_app srv) timeframe symbol limit
             = (Returns l, core_events (strace (api_chart_data srv request)))) /\
      (resp_status r = 200%Z -> truthy_symbol symbol = None ->
         resp_body r = ApiSuccess []).
Proof.
  intros srv request timeframe symbol. unfold api_chart_data.
  fold timeframe. fold symbol.
  destruct (parse_limit_cases srv request)
    as [[n [t [Hp Ht]]] | [text [e [Hd [Hi Hp]]]]]; rewrite Hp.
  - cbn [sbind].
    destruct (get_chart_data_returns (srv_app srv) timeframe symbol n) as [l Hl].
    destruct (get_chart_data (srv_app srv) timeframe symbol n) as [rl tl] eqn:Hg.
    simpl in Hl. subst rl. cbn. eexists. split; [reflexivity |]. cbn.
    split; [auto |]. split; [split; [intros H; discriminate H |] |].
    { intros [text [e [Hd Hi]]]. exfalso.
      unfold parse_limit in Hp. rewrite Hd in Hp. unfold scall in Hp. rewrite Hi in Hp.
      discriminate Hp. }
    split; [intros H; discriminate H |]. split.
    + intros _. exists l. split; [reflexivity |]. intros limit.
      change (get_chart_data (srv_app srv) timeframe symbol limit)
        with (get_chart_data (srv_app srv) timeframe symbol n).
      rewrite Hg. rewrite app_nil_r, core_events_app, Ht, core_events_map_Core. reflexivity.
    + intros _ Hs. rewrite (get_chart_data_no_symbol _ _ _ n Hs) in Hg.
      inversion Hg; subst. reflexivity.
  - cbn. eexists. split; [reflexivity |]. cbn.
    split; [auto |]. split; [split; [intros _; eauto | reflexivity] |].
    split; [reflexivity |]. split; intros H; discriminate H.
Qed.

(** X15: [api_btc_chart] and [api_eth_chart] answer what [api_chart_data]
    answers to the same request with its symbol set to ['BTC'] and to
    ['ETH']: a symbol in the request does not reach them. When the answer
    is 200 they make the same calls as well. *)
Theorem symbol_charts_are_chart_data :
  forall (srv : Server) (request : Request),
    svalue (api_btc_chart srv request)
      = svalue (api_chart_data srv (with_symbol "BTC" request)) /\
    svalue (api_eth_chart srv request)
      = svalue (api_chart_data srv (with_symbol "ETH" request)) /\
    (forall r, svalue (api_btc_chart srv request) = Returns r -> resp_status r = 200%Z ->
       strace (api_btc_chart srv request)
         = strace (api_chart_data srv (with_symbol "BTC" request))) /\
    (forall r, svalue (api_eth_chart srv request) = Returns r -> resp_status r = 200%Z ->
       strace (api_eth_chart srv request)
         = strace (api_chart_data srv (with_symbol "ETH" request))).
Proof.
  intros srv request.
  unfold api_btc_chart, api_eth_chart, api_chart_data, with_symbol, parse_limit,
    dict_get_default.
  cbn [req_args dict_get String.eqb Ascii.eqb Bool.eqb].
  set (timeframe := match dict_get (req_args request) "timeframe" with
                    | Some v => v
                    | None => "hour"
                    end).
  destruct (dict_get (req_args request) "limit") as [text |];
    [destruct (srv_int srv text) as [n | e] |];
    unfold scall, sret; cbn [sbind];
    try (destruct (get_chart_data (srv_app srv) timeframe (Some "BTC") _) as [[lb | eb] tb];
         destruct (get_chart_data (srv_app srv) timeframe (Some "ETH") _) as [[le | ee] te]);
    cbn; repeat apply conj; try reflexivity;
    intros r H Hr; inversion H; subst; discriminate Hr.
Qed.

Lemma filter_own_symbol sym (rows : list ChartRow) :
  filter (fun item => (cp_symbol item =? sym)%string) (map (chart_point_of_row sym) rows)
  = map (chart_point_of_row sym) rows.
Proof.
  induction rows as [| row rows IH]; [reflexivity |].
  cbn [map filter chart_point_of_row cp_symbol]. rewrite String.eqb_refl, IH. reflexivity.
Qed.

Lemma store_chart_rows d sym timeframe rows :
  db_connect d = Returns true ->
  db_get_chart_data d sym timeframe = Returns (Some rows) ->
  returns (db_disconnect d) ->
  store_chart d sym timeframe = map (chart_point_of_row sym) rows.
Proof.
  intros Hc Hq [u Hd]. unfold store_chart. rewrite Hc, Hq, Hd. reflexivity.
Qed.

(** X16: the handlers of the three curves, [api_btc_data] and
    [api_eth_data], on the path of the store. When the limit of the request
    is accepted, the cache does not answer and the store returns its rows,
    the answer is 200 and the filter by symbol of [process_chart_data]
    drops nothing: the price curve and the volume curve have one entry per
    stored row, whatever the limit, in the order of ascending date. *)
Theorem api_symbol_data_from_store :
  forall (pow_half : Q -> Q) (srv : Server) (request : Request) (sym : string)
         (handler : Server -> Request -> SM (Response (ApiBody ChartCurves)))
         (rows : list ChartRow),
    let timeframe := dict_get_default (req_args request) "timeframe" "hour" in
    api_symbol_data pow_half sym = Some handler ->
    limit_accepted srv request ->
    chart_not_served (srv_app srv) timeframe (Some sym) ->
    db_connect (db (srv_app srv)) = Returns true ->
    db_get_chart_data (db (srv_app srv)) sym timeframe = Returns (Some rows) ->
    returns (db_disconnect (db (srv_app srv))) ->
    exists curves,
      svalue (handler srv request) = Returns (mkResponse 200 (ApiSuccess curves)) /\
      price_data curves
        = map price_point (sort_by cp_date (map (chart_point_of_row sym) rows)) /\
      volume_data curves
        = map volume_point (sort_by cp_date (map (chart_point_of_row sym) rows)) /\
      List.length (price_data curves) = List.length rows /\
      List.length (volume_data curves) = List.length rows.
Proof.
  intros pow_half srv request sym handler rows timeframe Hh Hlim Hmiss Hc Hq Hd.
  assert (Hne : sym <> "").
  { intros ->. discriminate Hh. }
  assert (Hdata : forall limit,
            value (get_chart_data (srv_app srv) timeframe (Some sym) limit)
            = Returns (map (chart_point_of_row sym) rows)).
  { intros limit. unfold get_chart_data. rewrite bind_unfold.
    unfold chart_not_served in Hmiss. rewrite Hmiss. cbn [value fst].
    rewrite (proj1 (chart_data_from_db_spec (srv_app srv) timeframe sym Hne)).
    rewrite (store_chart_rows _ _ _ rows Hc Hq Hd). reflexivity. }
  assert (Hlimit : exists n t, parse_limit srv request = (Returns n, t)).
  { destruct (parse_limit_cases srv request)
      as [[n [t [Hp _]]] | [text [e [Hget [Hi _]]]]]; [eauto |].
    destruct (Hlim text Hget) as [n Hn]. congruence. }
  destruct Hlimit as [n [t Hp]].
  exists (process_chart_data pow_half (map (chart_point_of_row sym) rows) sym).
  destruct (process_chart_data_lists pow_half (map (chart_point_of_row sym) rows) sym)
    as [Hprice Hvolume].
  rewrite filter_own_symbol in Hprice, Hvolume.
  split.
  - unfold api_symbol_data in Hh.
    destruct (sym =? "BTC")%string eqn:Eb.
    + apply String.eqb_eq in Eb. subst sym. inversion Hh; subst handler.
      unfold api_btc_data. fold timeframe. rewrite Hp. cbn [sbind].
      specialize (Hdata n).
      destruct (get_chart_data (srv_app srv) timeframe (Some "BTC") n) as [rl tl].
      simpl in Hdata. subst rl. reflexivity.
    + destruct (sym =? "ETH")%string eqn:Ee; [| discriminate Hh].
      apply String.eqb_eq in Ee. subst sym. inversion Hh; subst handler.
      unfold api_eth_data. fold timeframe. rewrite Hp. cbn [sbind].
      specialize (Hdata n).
      destruct (get_chart_data (srv_app srv) timeframe (Some "ETH") n) as [rl tl].
      simpl in Hdata. subst rl. reflexivity.
  - rewrite Hprice, Hvolume. rewrite !length_map, !sort_by_length, !length_map.
    repeat split.
Qed.

Lemma api_symbol_data_from_store_witness :
  exists curves,
    svalue (api_btc_data (fun x => x) (server_of chart_app)
              {| req_args := []; req_json := Returns None |})
      = Returns (mkResponse 200 (ApiSuccess curves)) /\
    map pp_date (price_data curves) = [1; 2; 3]%Z.
Proof.
  destruct (api_symbol_data_from_store (fun x => x) (server_of chart_app)
              {| req_args := []; req_json := Returns None |} "BTC"
              (api_btc_data (fun x => x)) demo_chart_rows)
    as [curves [Hv [Hp _]]].
  - reflexivity.
  - intros text H. discriminate H.
  - reflexivity.
  - reflexivity.
  - reflexivity.
  - exists tt. reflexivity.
  - exists curves. split; [exact Hv |]. rewrite Hp. reflexivity.
Defined.

(** ** The summary of a batch *)

Lemma sbind_returns {A B} (m : SM A) (f : A -> SM B) a t :
  m = (Returns a, t) -> sbind m f = (svalue (f a), t ++ strace (f a)).
Proof. intros ->. simpl. destruct (f a); reflexivity. Qed.

Lemma sbind_raises {A B} (m : SM A) (f : A -> SM B) e t :
  m = (Raises e, t) -> sbind m f = (Raises e, t).
Proof. intros ->. reflexivity. Qed.

Ltac summary_case :=
  cbn; unfold returns;
  repeat apply conj; try reflexivity; intros;
  repeat match goal with
         | H : _ /\ _ |- _ => destruct H
         | H : exists _, _ |- _ => destruct H
         | H : Returns _ = Returns _ |- _ => inversion H; clear H; subst
         | H : Raises _ = Raises _ |- _ => inversion H; clear H; subst
         end;
  try discriminate; try reflexivity;
  try (match goal with
       | H : forall timeframe : string, _ -> exists _, _ |- _ =>
           let use tf := (destruct (H tf) as [? ?]; [simpl; auto 6 | congruence]) in
           first [use "minute"%string | use "hour"%string | use "day"%string]
       end);
  try (repeat apply conj; eauto;
       intros timeframe Hin; simpl in Hin;
       destruct Hin as [<- | [<- | [<- | []]]]; eauto).

(** X17: [get_summary_statistics] returns [None] when the store refuses the
    connection, and asks nothing then. With a connection it closes it
    exactly once and last, on every path, a failed read included; it
    returns exactly when all four reads and the closing return, with the
    latest prices as read and the number of rows of each time frame; a read
    that raises is not absorbed: the later reads are skipped, the
    connection is closed and the exception leaves the function. *)
Theorem get_summary_statistics_releases :
  forall (self : DataProcessor) (reads : SummaryReads),
    let m := get_summary_statistics self reads in
    (db_connect (dp_db self) = Returns false -> m = (Returns None, [Core DbConnect])) /\
    (db_connect (dp_db self) = Returns true ->
       filter is_connection_call (strace m) = [Core DbConnect; Core DbDisconnect] /\
       last (strace m) (Core DbConnect) = Core DbDisconnect /\
       (returns (svalue m) <->
          returns (sr_get_latest_prices reads) /\
          (forall timeframe, In timeframe timeframes ->
             returns (sr_get_historical_data reads timeframe 1000)) /\
          returns (db_disconnect (dp_db self))) /\
       (forall prices minute hour day,
          sr_get_latest_prices reads = Returns prices ->
          sr_get_historical_data reads "minute" 1000 = Returns minute ->
          sr_get_historical_data reads "hour" 1000 = Returns hour ->
          sr_get_historical_data reads "day" 1000 = Returns day ->
          returns (db_disconnect (dp_db self)) ->
          svalue m = Returns (Some {| stats_latest_prices := prices;
                                      stats_data_count :=
                                        [("minute_data_count", count_rows minute);
                                         ("hour_data_count", count_rows hour);
                                         ("day_data_count", count_rows day)] |})) /\
       (forall e, sr_get_latest_prices reads = Raises e ->
          returns (db_disconnect (dp_db self)) ->
          m = (Raises e, [Core DbConnect; Core DbLatestPrices; Core DbDisconnect]))).
Proof.
  intros self reads m. subst m. unfold get_summary_statistics, timeframes, count_timeframe.
  split; [intros H; rewrite H; reflexivity |].
  intros Hc. rewrite Hc. cbn [s_for_collect].
  destruct (sr_get_latest_prices reads) as [p | e0] eqn:Hl;
    destruct (sr_get_historical_data reads "minute" 1000) as [mi | e1] eqn:Hm;
    destruct (sr_get_historical_data reads "hour" 1000) as [ho | e2] eqn:Hh;
    destruct (sr_get_historical_data reads "day" 1000) as [da | e3] eqn:Hd;
    destruct (db_disconnect (dp_db self)) as [[] | e4] eqn:Hdis;
    summary_case.
Qed.

Lemma pass_true_connection processor :
  value (process_and_store_data processor) = Returns true ->
  db_connect (dp_db processor) = Returns true /\ returns (db_disconnect (dp_db processor)).
Proof.
  unfold process_and_store_data, returns.
  destruct (db_connect (dp_db processor)) as [[|] | e]; cbn [call bind negb].
  - unfold try_finally, call.
    destruct (try_except _ _) as [r t].
    destruct (db_disconnect (dp_db processor)) as [u | e]; cbn; intros H;
      [eauto | discriminate H].
  - cbn. intros H. discriminate H.
  - cbn. intros H. discriminate H.
Qed.

Lemma get_summary_statistics_value self reads prices :
  db_connect (dp_db self) = Returns true ->
  sr_get_latest_prices reads = Returns prices ->
  (forall timeframe, In timeframe timeframes ->
     returns (sr_get_historical_data reads timeframe 1000)) ->
  returns (db_disconnect (dp_db self)) ->
  exists counts,
    svalue (get_summary_statistics self reads)
    = Returns (Some {| stats_latest_prices := prices; stats_data_count := counts |}).
Proof.
  intros Hc Hl Hall [[] Hd].
  destruct (Hall "minute") as [mi Hmi]; [simpl; auto |].
  destruct (Hall "hour") as [ho Hho]; [simpl; auto |].
  destruct (Hall "day") as [da Hda]; [simpl; auto 6 |].
  unfold get_summary_statistics, timeframes, count_timeframe.
  rewrite Hc, Hl, Hd. cbn [s_for_collect]. rewrite Hmi, Hho, Hda.
  eexists. reflexivity.
Qed.

Lemma convertible_dec row : convertible row \/ ~ convertible row.
Proof.
  unfold convertible.
  destruct (row_price row); [| right; intros [H _]; apply H; reflexivity].
  destruct (row_api_change_24h row); [| right; intros [_ H]; apply H; reflexivity].
  left. split; discriminate.
Qed.

Lemma log_price_value row :
  (convertible row -> svalue (log_price row) = Returns tt) /\
  (~ convertible row -> exists e, svalue (log_price row) = Raises e).
Proof.
  unfold convertible, log_price.
  destruct (row_price row) as [p |]; [destruct (row_api_change_24h row) as [c |] |]; cbn; split.
  - intros _. reflexivity.
  - intros H. exfalso. apply H. split; discriminate.
  - intros [_ H]. exfalso. apply H. reflexivity.
  - intros _. eexists. reflexivity.
  - intros [H _]. exfalso. apply H. reflexivity.
  - intros _. eexists. reflexivity.
Qed.

Lemma log_prices_value rows :
  (Forall convertible rows -> svalue (s_for_each rows log_price) = Returns tt) /\
  (~ Forall convertible rows -> exists e, svalue (s_for_each rows log_price) = Raises e).
Proof.
  induction rows as [| row rows [IHyes IHno]].
  - split; [reflexivity | intros H; exfalso; apply H; constructor].
  - cbn [s_for_each]. rewrite sbind_unfold.
    destruct (log_price_value row) as [Hyes Hno].
    destruct (convertible_dec row) as [Hrow | Hrow].
    + rewrite (Hyes Hrow). cbn [fst]. split.
      * intros H. inversion H; subst. apply IHyes. assumption.
      * intros H. apply IHno. intros Hrows. apply H. constructor; assumption.
    + destruct (Hno Hrow) as [e He]. rewrite He. cbn [fst]. split.
      * intros H. inversion H; subst. contradiction.
      * intros _. exists e. reflexivity.
Qed.

Lemma log_timeframes_value (counts : list (string * Z)) :
  svalue (s_for_each timeframes
            (fun timeframe =>
               let count := stats_get counts (timeframe ++ "_data_count")%string in
               slog INFO ("rows counted for " ++ timeframe))) = Returns tt.
Proof. reflexivity. Qed.

Lemma then_true {A} (m : SM A) :
  sbind m (fun _ => sret true)
  = (match svalue m with Returns _ => Returns true | Raises e => Raises e end, strace m).
Proof. destruct m as [[a | e] t]; cbn; rewrite ?app_nil_r; reflexivity. Qed.

Ltac result_case :=
  cbn; repeat apply conj;
  try (intros H; discriminate H);
  try (intros e' H; discriminate H);
  try (intros e' H; inversion H; reflexivity);
  try (intros e' H1 H2;
       first [discriminate H1 | discriminate H2 | inversion H2; reflexivity]);
  try (exists []; rewrite app_nil_r; reflexivity);
  eauto.

(** X18: [run_data_processing] returns [False] exactly when
    [process_and_store_data] does, and reads no summary then. It has no
    handler of its own: what the pass raises, and what
    [get_summary_statistics] raises after a pass that returned [True],
    leaves the function. It returns [True] only after a pass that returned
    [True] and a summary that returned. The calls of the pass come first
    in every case. *)
Theorem run_data_processing_result :
  forall (processor : DataProcessor) (reads : SummaryReads),
    let pass := process_and_store_data processor in
    let m := run_data_processing processor reads in
    (svalue m = Returns false <-> value pass = Returns false) /\
    (value pass = Returns false ->
       strace m = map Core (trace pass) ++ [Core (Log ERROR "data processing failed")]) /\
    (forall e, value pass = Raises e -> m = (Raises e, map Core (trace pass))) /\
    (svalue m = Returns true ->
       value pass = Returns true /\
       returns (svalue (get_summary_statistics processor reads))) /\
    (forall e, value pass = Returns true ->
       svalue (get_summary_statistics processor reads) = Raises e ->
       svalue m = Raises e) /\
    (exists rest, strace m = map Core (trace pass) ++ rest).
Proof.
  intros processor reads pass m. subst pass m. unfold run_data_processing, returns.
  destruct (process_and_store_data processor) as [[[|] | e] t]; cbn [lift fst snd value].
  - unfold slog at 1. cbn [sbind].
    destruct (get_summary_statistics processor reads) as [[stats | e] ts].
    + cbn [sbind].
      match goal with
      | |- context [sbind ?X (fun _ => sret true)] =>
          rewrite (then_true X); destruct X as [[u | e] tb]
      end; result_case.
    + result_case.
  - result_case.
  - result_case.
Qed.

Lemma run_data_processing_after_pass processor reads rows :
  value (process_and_store_data processor) = Returns true ->
  sr_get_latest_prices reads = Returns (Some rows) ->
  (forall timeframe, In timeframe timeframes ->
     returns (sr_get_historical_data reads timeframe 1000)) ->
  svalue (run_data_processing processor reads)
  = match svalue (s_for_each rows log_price) with
    | Returns _ => Returns true
    | Raises e => Raises e
    end.
Proof.
  intros Hpass Hl Hall.
  destruct (pass_true_connection processor Hpass) as [Hc Hd].
  destruct (get_summary_statistics_value processor reads (Some rows) Hc Hl Hall Hd)
    as [counts Hs].
  unfold run_data_processing.
  destruct (process_and_store_data processor) as [r t]. simpl in Hpass. subst r.
  cbn [lift fst snd]. unfold slog at 1. cbn [sbind].
  destruct (get_summary_statistics processor reads) as [rs ts]. simpl in Hs. subst rs.
  cbn [sbind]. rewrite then_true. cbn [stats_latest_prices stats_data_count].
  destruct rows as [| row rows]; [reflexivity |].
  unfold slog at 1 2. cbn [sbind].
  destruct (s_for_each (row :: rows) log_price) as [[[] | e] tl]; reflexivity.
Qed.

Lemma run_data_processing_prefix processor reads :
  exists rest,
    strace (run_data_processing processor reads)
    = map Core (trace (process_and_store_data processor)) ++ rest.
Proof.
  unfold run_data_processing. rewrite sbind_unfold, lift_trace.
  destruct (svalue (lift (process_and_store_data processor))); cbn [strace snd].
  - eexists. reflexivity.
  - exists []. rewrite app_nil_r. reflexivity.
Qed.

(** X19: after a pass that returned [True], with the latest prices and the
    three counts read, [run_data_processing] returns [True] exactly when
    every row of the latest prices has a price and a 24h change; a row with
    a NULL price or a NULL change makes it raise, although the batch has
    been stored: the lines of the summary convert both with [float]
    without the guard that the web application uses. *)
Theorem run_data_processing_null_price :
  forall (processor : DataProcessor) (reads : SummaryReads) (rows : list PriceRow),
    value (process_and_store_data processor) = Returns true ->
    sr_get_latest_prices reads = Returns (Some rows) ->
    (forall timeframe, In timeframe timeframes ->
       returns (sr_get_historical_data reads timeframe 1000)) ->
    (Forall convertible rows ->
       svalue (run_data_processing processor reads) = Returns true) /\
    (~ Forall convertible rows ->
       exists e, svalue (run_data_processing processor reads) = Raises e).
Proof.
  intros processor reads rows Hpass Hl Hall.
  rewrite (run_data_processing_after_pass processor reads rows Hpass Hl Hall).
  destruct (log_prices_value rows) as [Hyes Hno]. split.
  - intros H. rewrite (Hyes H). reflexivity.
  - intros H. destruct (Hno H) as [e He]. rewrite He. eauto.
Qed.

Lemma run_data_processing_null_price_witness :
  svalue (run_data_processing accepting_processor (summary_reads complete_rows))
    = Returns true /\
  exists e,
    svalue (run_data_processing accepting_processor (summary_reads rows_with_null_price))
    = Raises e.
Proof.
  split.
  - apply (run_data_processing_null_price accepting_processor (summary_reads complete_rows)
             complete_rows).
    + reflexivity.
    + reflexivity.
    + intros timeframe _. eexists. reflexivity.
    + repeat constructor; discriminate.
  - apply (run_data_processing_null_price accepting_processor
             (summary_reads rows_with_null_price) rows_with_null_price).
    + reflexivity.
    + reflexivity.
    + intros timeframe _. eexists. reflexivity.
    + intros H. inversion H as [| r1 l1 _ Hrest]. inversion Hrest as [| r2 l2 [_ Hc] _].
      apply Hc. reflexivity.
Defined.

(** ** The data collection task on the batch pass *)

(** X23: the data collection task of the scheduler on [run_data_processing].
    After a pass that returned [True], with the latest prices and the
    counts read, the task returns; its calls begin with those of the pass;
    it ends with the line of success exactly when every row of the latest
    prices has a price and a change, and with the line of an exception
    otherwise: a NULL in the latest prices makes the task report an
    exception for a batch that has been stored. *)
Theorem data_collection_task_on_stored_batch :
  forall (w : World) (processor : DataProcessor) (reads : SummaryReads)
         (rows : list PriceRow),
    w_run_data_processing w = core (run_data_processing processor reads) ->
    value (process_and_store_data processor) = Returns true ->
    sr_get_latest_prices reads = Returns (Some rows) ->
    (forall timeframe, In timeframe timeframes ->
       returns (sr_get_historical_data reads timeframe 1000)) ->
    value (run_data_collection_task w) = Returns tt /\
    (exists rest,
       trace (run_data_collection_task w)
       = Log INFO "running the data collection task"
           :: trace (process_and_store_data processor) ++ rest) /\
    (Forall convertible rows ->
       ends_with (Log INFO "data collection task done") (trace (run_data_collection_task w))) /\
    (~ Forall convertible rows ->
       ends_with (Log ERROR "data collection task raised an exception")
                 (trace (run_data_collection_task w))).
Proof.
  intros w processor reads rows Hw Hpass Hl Hall.
  unfold run_data_collection_task, report, ends_with. rewrite Hw. unfold core.
  rewrite (run_data_processing_after_pass processor reads rows Hpass Hl Hall).
  destruct (run_data_processing_prefix processor reads) as [rest Hrest].
  rewrite Hrest, core_events_app, core_events_map_Core.
  destruct (log_prices_value rows) as [Hyes Hno].
  destruct (svalue (s_for_each rows log_price)) as [[] | e]; cbn.
  - split; [reflexivity |]. split; [| split].
    + eexists. rewrite <- app_assoc. reflexivity.
    + intros _. eexists. rewrite app_comm_cons. reflexivity.
    + intros H. destruct (Hno H) as [e He]. discriminate He.
  - split; [reflexivity |]. split; [| split].
    + eexists. rewrite <- app_assoc. reflexivity.
    + intros H. specialize (Hyes H). discriminate Hyes.
    + intros _. eexists. rewrite app_comm_cons. reflexivity.
Qed.

Lemma data_collection_task_on_stored_batch_witness :
  ends_with (Log INFO "data collection task done")
            (trace (run_data_collection_task (summary_world complete_rows))) /\
  ends_with (Log ERROR "data collection task raised an exception")
            (trace (run_data_collection_task (summary_world rows_with_null_price))).
Proof.
  split.
  - apply (data_collection_task_on_stored_batch (summary_world complete_rows)
             accepting_processor (summary_reads complete_rows) complete_rows).
    + reflexivity.
    + reflexivity.
    + reflexivity.
    + intros timeframe _. eexists. reflexivity.
    + repeat constructor; discriminate.
  - apply (data_collection_task_on_stored_batch (summary_world rows_with_null_price)
             accepting_processor (summary_reads rows_with_null_price) rows_with_null_price).
    + reflexivity.
    + reflexivity.
    + reflexivity.
    + intros timeframe _. eexists. reflexivity.
    + intros H. inversion H as [| r1 l1 _ Hrest]. inversion Hrest as [| r2 l2 [_ Hc] _].
      apply Hc. reflexivity.
Defined.

(** ** The state of the system and the first start *)

Ltac status_case :=
  cbn; eexists; (split; [reflexivity |]); cbn; unfold returns;
  repeat apply conj; try reflexivity; unfold not; intros;
  repeat match goal with
         | H : _ /\ _ |- _ => destruct H
         | H : _ \/ _ |- _ => destruct H
         | H : exists _, _ |- _ => destruct H
         | H : Returns _ = Returns _ |- _ => inversion H; clear H; subst
         | H : Some _ = Some _ |- _ => inversion H; clear H; subst
         end;
  try contradiction; try discriminate; try congruence;
  eauto 8.

(** X20: [api_system_status] never raises, always answers 200 and writes
    nothing to the log; its own handler of exceptions is never entered.
    The store is reported connected exactly when [connect] returns true and
    [disconnect] returns: a [disconnect] that raises turns the report to
    disconnected. The cache is reported connected exactly when there is a
    manager with a client whose [ping] returns. [disconnect] is called
    exactly when [connect] returns true, and [ping] exactly when the
    manager has a client. *)
Theorem api_system_status_answers :
  forall (srv : Server) (redis_client : CacheManager -> option (outcome unit)),
  exists s,
    svalue (api_system_status srv redis_client) = Returns (mkResponse 200 (ApiSuccess s)) /\
    (forall l msg, ~ In (Core (Log l msg)) (strace (api_system_status srv redis_client))) /\
    (status_database s = LinkConnected <->
       db_connect (db (srv_app srv)) = Returns true /\
       returns (db_disconnect (db (srv_app srv)))) /\
    (status_redis s = LinkConnected <->
       exists rm, redis_manager (srv_app srv) = Some rm /\
                  returns_some (redis_client rm)) /\
    (In (Core DbDisconnect) (strace (api_system_status srv redis_client)) <->
       db_connect (db (srv_app srv)) = Returns true) /\
    (In RedisPing (strace (api_system_status srv redis_client)) <->
       exists rm ping, redis_manager (srv_app srv) = Some rm /\ redis_client rm = Some ping).
Proof.
  intros srv redis_client. unfold api_system_status, returns_some.
  destruct (db_connect (db (srv_app srv))) as [[|] | e1];
    [destruct (db_disconnect (db (srv_app srv))) as [[] | e2] | |];
    (destruct (redis_manager (srv_app srv)) as [rm |];
     [destruct (redis_client rm) as [[[] | e3] |] eqn:Hping |]);
    status_case.
Qed.

Ltac boot_case :=
  cbn; unfold returns, not;
  repeat first
    [ apply conj
    | progress intros
    | match goal with
      | H : _ /\ _ |- _ => destruct H
      | H : _ \/ _ |- _ => destruct H
      | H : exists _, _ |- _ => destruct H
      | H : False |- _ => destruct H
      | H : Returns _ = Returns _ |- _ => inversion H; clear H; subst
      | H : Raises _ = Raises _ |- _ => inversion H; clear H; subst
      end ];
  try discriminate; try congruence; try reflexivity; eauto 8.

(** X21: [initialize_system] returns [False] exactly when
    [rebuild_database] returns a false value, and then makes none of the
    later steps. It returns [True] exactly when the rebuilding returns true
    and the three later steps return, whatever the analysis and the kline
    step return: their failure is logged and the start goes on. The
    failure of the first data processing is never logged: the name
    [run_data_processing] is bound to the scraper, whose pair is true. The
    function has no handler: a step that raises ends it. *)
Theorem initialize_system_result :
  forall boot : Bootstrap,
    let m := initialize_system boot in
    (svalue m = Returns false <-> boot_rebuild_database boot = Returns false) /\
    (boot_rebuild_database boot = Returns false ->
       boot_steps (strace m) = [RebuildDatabase]) /\
    (svalue m = Returns true <->
       boot_rebuild_database boot = Returns true /\
       returns (boot_run_data_processing boot) /\
       returns (boot_run_analysis boot) /\
       returns (boot_run_kline_processing boot)) /\
    (svalue m = Returns true ->
       boot_steps (strace m)
       = [RebuildDatabase; RunDataProcessing; RunAnalysis; RunKlineProcessing]) /\
    ~ In "first data processing failed, the system goes on" (error_lines (strace m)) /\
    (svalue m = Returns true ->
       (In "first analysis failed, the system goes on" (error_lines (strace m)) <->
        boot_run_analysis boot = Returns false)) /\
    (forall e, boot_run_data_processing boot = Raises e ->
       boot_rebuild_database boot = Returns true ->
       svalue m = Raises e /\ boot_steps (strace m) = [RebuildDatabase; RunDataProcessing]).
Proof.
  intros boot m. subst m. unfold initialize_system.
  destruct (boot_rebuild_database boot) as [[|] | e1];
    [destruct (boot_run_data_processing boot) as [[current historical] | e2];
     [destruct (boot_run_analysis boot) as [[|] | e3];
      destruct (boot_run_kline_processing boot) as [[|] | e4] |] | |];
    boot_case.
Qed.

(** ** The configuration of the log *)

Lemma setup_logging_frozen files module_name log_level st :
  logging_configured st = true ->
  snd (setup_logging files module_name log_level st) = st.
Proof. intros H. unfold setup_logging. rewrite H. reflexivity. Qed.

Lemma log_call_frozen files c st :
  logging_configured st = true -> snd (log_call files c st) = st.
Proof.
  intros H. destruct c as [module_name log_level | module_name | module_name];
    unfold log_call, get_crypto_logger, get_logger, setup_logging; rewrite H; reflexivity.
Qed.

Lemma log_calls_frozen calls st :
  logging_configured st = true -> log_calls calls st = st.
Proof.
  induction calls as [| [files c] calls IH]; intros H; [reflexivity |].
  cbn [log_calls]. rewrite (log_call_frozen files c st H). apply IH. exact H.
Qed.

Lemma setup_logging_invariant handlers files module_name log_level st :
  logging_invariant handlers st ->
  logging_invariant handlers (snd (setup_logging files module_name log_level st)).
Proof.
  intros Hinv. unfold setup_logging.
  destruct (logging_configured st) eqn:Hconf; [exact Hinv |].
  destruct (os_makedirs files) as [[] | e]; [| exact Hinv].
  destruct (open_log_file files "crypto_system.log") as [[] | e].
  - destruct (open_log_file files "crypto_errors.log") as [[] | e];
      unfold logging_invariant; cbn.
    + split; [intros _; reflexivity |]. right. exists 3%nat. reflexivity.
    + rewrite Hconf. split; [intros H; discriminate H |]. right. exists 2%nat. reflexivity.
  - unfold logging_invariant. cbn. rewrite Hconf.
    split; [intros H; discriminate H |]. right. exists 1%nat. reflexivity.
Qed.

Lemma log_call_invariant handlers files c st :
  logging_invariant handlers st ->
  logging_invariant handlers (snd (log_call files c st)).
Proof.
  intros Hinv. destruct c as [module_name log_level | module_name | module_name];
    unfold log_call, get_crypto_logger, get_logger.
  - apply setup_logging_invariant. exact Hinv.
  - destruct (logging_configured st); cbn [negb];
      [exact Hinv | apply setup_logging_invariant; exact Hinv].
  - destruct (logging_configured st); cbn [negb];
      [exact Hinv | apply setup_logging_invariant; exact Hinv].
Qed.

Lemma log_calls_invariant handlers calls st :
  logging_invariant handlers st -> logging_invariant handlers (log_calls calls st).
Proof.
  revert st. induction calls as [| [files c] calls IH]; intros st Hinv; [exact Hinv |].
  cbn [log_calls]. apply IH. apply log_call_invariant. exact Hinv.
Qed.

(** X22: the log is configured once. After any sequence of calls of
    [setup_logging], [get_logger] and [get_crypto_logger], whatever the
    file system does to each of them, a root logger that is marked as
    configured has exactly the three handlers of the module: the console
    and the file of the system at the level of the root, the file of the
    errors at [ERROR]; from then on no call changes the state, so the level
    of a later [setup_logging] is ignored. In every case the handlers are
    those the root logger had at the start or the first ones of these
    three: a call that failed half way leaves no handler twice. *)
Theorem logging_configured_once :
  forall (calls : list (LogFiles * LogCall)) (st : Logging),
    logging_configured st = false ->
    let st' := log_calls calls st in
    (logging_configured st' = true ->
       root_handlers st' = configured_handlers (root_level st') /\
       forall more, log_calls more st' = st') /\
    (root_handlers st' = root_handlers st \/
     exists n, root_handlers st' = firstn n (configured_handlers (root_level st'))).
Proof.
  intros calls st Hfresh st'.
  assert (Hinv : logging_invariant (root_handlers st) st').
  { apply log_calls_invariant. split; [intros H; congruence | left; reflexivity]. }
  destruct Hinv as [Hconf Hhandlers]. split; [| exact Hhandlers].
  intros H. split; [exact (Hconf H) |].
  intros more. apply log_calls_frozen. exact H.
Qed.

Lemma logging_configured_once_witness :
  log_calls demo_log_calls fresh_logging
    = {| logging_configured := true; root_level := ERROR;
         root_handlers := configured_handlers ERROR |} /\
  forall more, log_calls more (log_calls demo_log_calls fresh_logging)
               = log_calls demo_log_calls fresh_logging.
Proof.
  split; [reflexivity |].
  apply (logging_configured_once demo_log_calls fresh_logging eq_refl). reflexivity.
Defined.
